(** * Value-residual Vision Transformer (softmax-1.py): a shallow embedding

    The development follows the source file class by class:
    [Attention] (lines 20-78), [Block] (lines 84-112) and
    [VisionTransformer] (lines 114-263).

    Tensors are rectangular nested lists over an abstract scalar type; the
    floating-point operations of the tensor library are the uninterpreted
    operations of the class [Numeric], so that every statement below holds
    for any interpretation of them.  Python exceptions are the [Err] results
    of an error monad, and the random draws of the dropout layers are
    threaded through an explicit generator state. *)

From Stdlib Require Import String.
From Stdlib Require Import List ZArith QArith Lia Bool Arith.
Import ListNotations.
Close Scope Q_scope.
Open Scope nat_scope.

Set Implicit Arguments.

(** ** Exceptions and the two monads *)

Inductive error : Type :=
| AssertionError
| ZeroDivisionError
| IndexError (index : nat)
| AttributeError
| TypeError
| ValueError
| RuntimeError.

Inductive result (A : Type) : Type :=
| Ok (a : A)
| Err (e : error).

Arguments Ok {A} a.
Arguments Err {A} e.

Definition rbind {A B : Type} (r : result A) (k : A -> result B) : result B :=
  match r with
  | Ok a => k a
  | Err e => Err e
  end.

Definition guard (b : bool) (e : error) : result unit :=
  if b then Ok tt else Err e.

Declare Scope result_scope.
Delimit Scope result_scope with result.
Notation "x <- c ;; k" := (rbind c (fun x => k))
  (at level 61, c at next level, right associativity) : result_scope.
Notation "c ;; k" := (rbind c (fun _ => k))
  (at level 61, right associativity) : result_scope.

Fixpoint rmapM {A B : Type} (f : A -> result B) (l : list A) : result (list B) :=
  match l with
  | [] => Ok []
  | a :: l' =>
      match f a with
      | Ok b => match rmapM f l' with
                | Ok bs => Ok (b :: bs)
                | Err e => Err e
                end
      | Err e => Err e
      end
  end.

(** ** Scalars and the random generator *)

(** The carrier types are a class of their own, so that tensors and module
    records depend on the types only and not on the operations. *)
Class Carrier : Type := {
  scalar : Type;
  rng : Type
}.

Class Numeric {Ty : Carrier} : Type := {
  zero : scalar;
  add : scalar -> scalar -> scalar;
  sub : scalar -> scalar -> scalar;
  mul : scalar -> scalar -> scalar;
  div : scalar -> scalar -> scalar;
  lit : Q -> scalar;
  exp : scalar -> scalar;
  sqrt : scalar -> scalar;
  tanh : scalar -> scalar;
  gelu : scalar -> scalar;
  pow_neg_half : Z -> scalar;
  bernoulli : Q -> rng -> scalar * rng
}.

(** ** Tensors *)

Section Tensors.
Context {Ty : Carrier} {NUM : Numeric}.

Definition t1 : Type := list scalar.
Definition t2 : Type := list t1.
Definition t3 : Type := list t2.
Definition t4 : Type := list t3.

Definition shape1 (a : nat) (x : t1) : Prop := length x = a.
Definition shape2 (a b : nat) (x : t2) : Prop :=
  length x = a /\ Forall (shape1 b) x.
Definition shape3 (a b c : nat) (x : t3) : Prop :=
  length x = a /\ Forall (shape2 b c) x.
Definition shape4 (a b c d : nat) (x : t4) : Prop :=
  length x = a /\ Forall (shape3 b c d) x.

(** [x.shape] of a 3-d tensor, read off the first element of each axis. *)
Definition dims3 (x : t3) : nat * nat * nat :=
  (length x, length (hd [] x), length (hd [] (hd [] x))).

Fixpoint map2 {A B C : Type} (f : A -> B -> C) (l : list A) (l' : list B) : list C :=
  match l, l' with
  | a :: k, b :: k' => f a b :: map2 f k k'
  | _, _ => []
  end.

Definition sum (l : t1) : scalar := fold_left add l zero.
Definition dot (u v : t1) : scalar := sum (map2 mul u v).

Definition add1 : t1 -> t1 -> t1 := map2 add.
Definition add2 : t2 -> t2 -> t2 := map2 add1.
Definition add3 : t3 -> t3 -> t3 := map2 add2.
Definition add4 : t4 -> t4 -> t4 := map2 add3.
Definition sub3 : t3 -> t3 -> t3 := map2 (map2 (map2 sub)).

Definition scale3 (a : scalar) (x : t3) : t3 := map (map (map (mul a))) x.
Definition scale4 (a : scalar) (x : t4) : t4 := map (scale3 a) x.
Definition add_scalar4 (x : t4) (a : scalar) : t4 :=
  map (map (map (map (fun e => add e a)))) x.

(** [transpose cols m]: the transpose of a matrix with [cols] columns. *)
Definition transpose (cols : nat) (m : t2) : t2 :=
  map (fun j => map (fun row => nth j row zero) m) (seq 0 cols).

(** [a @ b] for a single pair of matrices, [b] having [cols] columns. *)
Definition matmul (cols : nat) (a b : t2) : t2 :=
  map (fun row => map (dot row) (transpose cols b)) a.

(** Row-major flattening and its inverse, as used by [reshape]. *)
Definition flat2 (x : t2) : t1 := concat x.
Definition flat3 (x : t3) : t1 := concat (map flat2 x).
Definition flat4 (x : t4) : t1 := concat (map flat3 x).

Fixpoint chunks {A : Type} (count size : nat) (l : list A) : list (list A) :=
  match count with
  | O => []
  | S count' => firstn size l :: chunks count' size (skipn size l)
  end.

Definition unflat2 (a b : nat) (l : t1) : t2 := chunks a b l.
Definition unflat3 (a b c : nat) (l : t1) : t3 :=
  map (unflat2 b c) (chunks a (b * c) l).
Definition unflat4 (a b c d : nat) (l : t1) : t4 :=
  map (unflat3 b c d) (chunks a (b * c * d) l).

(** [x.reshape(a, b, c)]: fails unless the number of elements agrees. *)
Definition reshape3 (a b c : nat) (flat : t1) : result t3 :=
  if length flat =? a * b * c then Ok (unflat3 a b c flat) else Err RuntimeError.
Definition reshape4 (a b c d : nat) (flat : t1) : result t4 :=
  if length flat =? a * b * c * d then Ok (unflat4 a b c d flat) else Err RuntimeError.

(** [softmax(dim=-1)] on one row. *)
Definition softmax (row : t1) : t1 :=
  let e := map exp row in
  map (fun v => div v (sum e)) e.

(** ** torch.nn.Linear *)

Record Linear : Type := {
  in_features : nat;
  out_features : nat;
  lweight : t2;            (* out_features x in_features *)
  lbias : option t1
}.

Definition linear_row (l : Linear) (row : t1) : result t1 :=
  if length row =? in_features l then
    Ok (match lbias l with
        | Some b => map2 add (map (dot row) (lweight l)) b
        | None => map (dot row) (lweight l)
        end)
  else Err RuntimeError.

Definition linear2 (l : Linear) (x : t2) : result t2 := rmapM (linear_row l) x.
Definition linear3 (l : Linear) (x : t3) : result t3 := rmapM (linear2 l) x.

(** ** torch.nn.Conv1d and torch.nn.functional.conv1d *)

Record Conv1d : Type := {
  cweight : t3;            (* out_channels x in_channels/groups x kernel_size *)
  cbias : option t1;
  cstride : nat;
  cpadding : nat;
  cdilation : nat;
  cgroups : nat
}.

Definition kernel_size (weight : t3) : nat := length (hd [] (hd [] weight)).

Definition pad (p : nat) (row : t1) : t1 := repeat zero p ++ row ++ repeat zero p.

(** The kernel window of a padded row at output position [t]. *)
Definition window (ksize stride dilation t : nat) (row : t1) : t1 :=
  map (fun k => nth (t * stride + k * dilation) row zero) (seq 0 ksize).

Definition conv_point (wo : t2) (chans : t2) (ksize stride dilation t : nat) : scalar :=
  sum (map2 (fun wc xc => dot wc (window ksize stride dilation t xc)) wo chans).

Definition with_bias (bias : option t1) (o : nat) (v : scalar) : scalar :=
  match bias with
  | Some b => add v (nth o b zero)
  | None => v
  end.

Definition conv1d_sample (weight : t3) (bias : option t1)
    (stride padding dilation groups lout : nat) (chans : t2) : t2 :=
  let cout_g := length weight / groups in
  let cin_g := length chans / groups in
  let padded := map (pad padding) chans in
  map (fun ow : nat * t2 =>
         let grp := firstn cin_g (skipn (fst ow / cout_g * cin_g) padded) in
         map (fun t => with_bias bias (fst ow)
                         (conv_point (snd ow) grp (kernel_size weight) stride dilation t))
             (seq 0 lout))
      (combine (seq 0 (length weight)) weight).

Definition conv1d (input : t3) (weight : t3) (bias : option t1)
    (stride padding dilation groups : nat) : result t3 :=
  let cin := length (hd [] input) in
  let len := length (hd [] (hd [] input)) in
  let span := dilation * (kernel_size weight - 1) + 1 in
  (guard ((0 <? stride) && (0 <? dilation) && (0 <? groups)) RuntimeError ;;
   guard ((length weight mod groups =? 0)
          && (cin =? groups * length (hd [] weight))) RuntimeError ;;
   guard (match bias with Some b => length b =? length weight | None => true end)
         RuntimeError ;;
   guard (span <=? len + 2 * padding) RuntimeError ;;
   Ok (map (conv1d_sample weight bias stride padding dilation groups
              ((len + 2 * padding - span) / stride + 1)) input))%result.

(** [nn.Conv1d.forward] with the default zero padding mode. *)
Definition Conv1d_forward (conv : Conv1d) (input : t3) : result t3 :=
  conv1d input (cweight conv) (cbias conv)
         (cstride conv) (cpadding conv) (cdilation conv) (cgroups conv).

(** [torch.flip(w, dims=[2])] on a 3-d tensor. *)
Definition flip2 (w : t3) : t3 := map (map (@rev scalar)) w.

End Tensors.

(** ** The forward-pass monad: exceptions plus the generator state *)

Section Monad.
Context {Ty : Carrier} {NUM : Numeric}.

Definition M (A : Type) : Type := rng -> result (A * rng).

Definition ret {A : Type} (a : A) : M A := fun s => Ok (a, s).

Definition bind {A B : Type} (c : M A) (k : A -> M B) : M B :=
  fun s => match c s with
           | Ok (a, s') => k a s'
           | Err e => Err e
           end.

Definition lift {A : Type} (r : result A) : M A :=
  fun s => match r with
           | Ok a => Ok (a, s)
           | Err e => Err e
           end.

Definition raise {A : Type} (e : error) : M A := fun _ => Err e.

Fixpoint mapM {A B : Type} (f : A -> M B) (l : list A) : M (list B) :=
  match l with
  | [] => ret []
  | a :: l' => bind (f a) (fun b => bind (mapM f l') (fun bs => ret (b :: bs)))
  end.

(** The value computed by a run, forgetting the final generator state. *)
Definition value {A : Type} (r : result (A * rng)) : result A :=
  match r with
  | Ok (a, _) => Ok a
  | Err e => Err e
  end.

End Monad.

Declare Scope fwd_scope.
Delimit Scope fwd_scope with fwd.
Notation "x <- c ;; k" := (bind c (fun x => k))
  (at level 61, c at next level, right associativity) : fwd_scope.
Notation "c ;; k" := (bind c (fun _ => k))
  (at level 61, right associativity) : fwd_scope.

(** ** Library layers: Dropout, DropPath, LayerNorm, Mlp *)

Section Layers.
Context {Ty : Carrier} {NUM : Numeric}.

(** [nn.Dropout(p)]: the constructor rejects a probability outside [0, 1]. *)
Definition Dropout_init (p : Q) : result Q :=
  if (Qle_bool 0 p && Qle_bool p 1)%bool then Ok p else Err ValueError.

(** One element of [input * noise], the noise drawn as Bernoulli(1 - p) and
    divided by 1 - p. *)
Definition drop_elem (p : Q) (e : scalar) : M scalar :=
  fun s => let (m, s') := bernoulli (1 - p)%Q s in
           Ok (mul e (div m (lit (1 - p)%Q)), s').

(** [F.dropout(x, p, training)] on a tensor given as nested lists of depth 3
    and 4: the identity when [p = 0] or in eval mode. *)
Definition dropout3 (p : Q) (training : bool) (x : t3) : M t3 :=
  if (Qeq_bool p 0 || negb training)%bool then ret x
  else if Qeq_bool p 1 then ret (scale3 zero x)
  else mapM (mapM (mapM (drop_elem p))) x.

Definition dropout4 (p : Q) (training : bool) (x : t4) : M t4 :=
  if (Qeq_bool p 0 || negb training)%bool then ret x
  else if Qeq_bool p 1 then ret (scale4 zero x)
  else mapM (mapM (mapM (mapM (drop_elem p)))) x.

(** timm's [DropPath(p)] (stochastic depth): one Bernoulli draw per sample,
    [x.div(keep_prob) * random_tensor]; the identity when [p = 0] or in eval
    mode.  [None] stands for the [nn.Identity()] that [Block] installs when
    [drop_path <= 0]. *)
Definition drop_sample (p : Q) (xb : t2) : M t2 :=
  fun s => let (m, s') := bernoulli (1 - p)%Q s in
           Ok (map (map (fun e => mul (div e (lit (1 - p)%Q)) m)) xb, s').

Definition drop_path (dp : option Q) (training : bool) (x : t3) : M t3 :=
  match dp with
  | None => ret x
  | Some p =>
      if (Qeq_bool p 0 || negb training)%bool then ret x
      else mapM (drop_sample p) x
  end.

(** [nn.LayerNorm(dim, eps)] over the last axis. *)
Record LayerNorm : Type := {
  normalized_shape : nat;
  ln_weight : t1;
  ln_bias : t1;
  ln_eps : Q
}.

Definition of_nat (n : nat) : scalar := lit (inject_Z (Z.of_nat n)).

Definition layer_norm_row (ln : LayerNorm) (row : t1) : result t1 :=
  if length row =? normalized_shape ln then
    let n := of_nat (length row) in
    let mean := div (sum row) n in
    let centred := map (fun e => sub e mean) row in
    let var := div (sum (map (fun e => mul e e) centred)) n in
    let denom := sqrt (add var (lit (ln_eps ln))) in
    Ok (map2 add (map2 mul (map (fun e => div e denom) centred) (ln_weight ln))
             (ln_bias ln))
  else Err RuntimeError.

Definition layer_norm3 (ln : LayerNorm) (x : t3) : result t3 :=
  rmapM (rmapM (layer_norm_row ln)) x.

(** timm's [Mlp]: fc1, activation, dropout, fc2, dropout. *)
Record Mlp : Type := {
  fc1 : Linear;
  act : scalar -> scalar;
  fc2 : Linear;
  mlp_drop : Q
}.

Definition Mlp_forward (m : Mlp) (training : bool) (x : t3) : M t3 :=
  (x <- lift (linear3 (fc1 m) x) ;;
   x <- dropout3 (mlp_drop m) training (map (map (map (act m))) x) ;;
   x <- lift (linear3 (fc2 m) x) ;;
   dropout3 (mlp_drop m) training x)%fwd.

(** Freshly created parameters: [gen] stands for the initialisation scheme. *)
Definition fill1 (gen : nat -> scalar) (n : nat) : t1 := map gen (seq 0 n).
Definition fill2 (gen : nat -> scalar) (r c : nat) : t2 :=
  map (fun i => fill1 (fun j => gen (i * c + j)) c) (seq 0 r).
Definition fill3 (gen : nat -> scalar) (a r c : nat) : t3 :=
  map (fun i => fill2 (fun j => gen (i * (r * c) + j)) r c) (seq 0 a).

(** [nn.Linear(in, out, bias)]: allocating a tensor of negative size fails. *)
Definition Linear_init (gen : nat -> scalar) (inf outf : Z) (bias : bool) : result Linear :=
  if ((0 <=? inf) && (0 <=? outf))%Z then
    Ok {| in_features := Z.to_nat inf;
          out_features := Z.to_nat outf;
          lweight := fill2 gen (Z.to_nat outf) (Z.to_nat inf);
          lbias := if bias then Some (fill1 gen (Z.to_nat outf)) else None |}
  else Err RuntimeError.

(** [nn.Conv1d(in_channels, out_channels, kernel_size)] with the defaults
    stride 1, padding 0, dilation 1, groups 1 and a bias. *)
Definition Conv1d_init (gen : nat -> scalar) (inc outc ksize : Z) : result Conv1d :=
  if ((0 <=? inc) && (0 <=? outc) && (0 <=? ksize))%Z then
    Ok {| cweight := fill3 gen (Z.to_nat outc) (Z.to_nat inc) (Z.to_nat ksize);
          cbias := Some (fill1 gen (Z.to_nat outc));
          cstride := 1; cpadding := 0; cdilation := 1; cgroups := 1 |}
  else Err RuntimeError.

(** [nn.LayerNorm(dim, eps)]: weight ones and bias zeros. *)
Definition LayerNorm_init (dim : Z) (eps : Q) : result LayerNorm :=
  if (0 <=? dim)%Z then
    Ok {| normalized_shape := Z.to_nat dim;
          ln_weight := repeat (lit 1) (Z.to_nat dim);
          ln_bias := repeat zero (Z.to_nat dim);
          ln_eps := eps |}
  else Err RuntimeError.

End Layers.

(** ** Tensor operations used by the attention layer *)

Section AttentionOps.
Context {Ty : Carrier} {NUM : Numeric}.

Definition dims4 (x : t4) : nat * nat * nat * nat :=
  (length x, length (hd [] x), length (hd [] (hd [] x)),
   length (hd [] (hd [] (hd [] x)))).

(** [x.permute(0, 2, 1)] on a 3-d tensor. *)
Definition permute021 (x : t3) : t3 :=
  let '(_, _, c) := dims3 x in map (transpose c) x.

(** [x.transpose(-2, -1)] on a 4-d tensor. *)
Definition transpose_last (x : t4) : t4 :=
  let '(_, _, _, d) := dims4 x in map (map (transpose d)) x.

(** [x.transpose(1, 2)] on a 4-d tensor. *)
Definition transpose12 (x : t4) : t4 :=
  let '(_, _, n, _) := dims4 x in
  map (fun xb => map (fun i => map (fun xh => nth i xh []) xb) (seq 0 n)) x.

(** Batched [a @ b] on 4-d tensors. *)
Definition matmul4 (a b : t4) : t4 :=
  let '(_, _, _, d) := dims4 b in map2 (map2 (matmul d)) a b.

Definition mul_scalar4 (x : t4) (a : scalar) : t4 :=
  map (map (map (map (fun e => mul e a)))) x.

Definition softmax4 (x : t4) : t4 := map (map (map softmax)) x.

(** [qkv.reshape(B, N, 3, H, D).permute(2, 0, 3, 1, 4).unbind(0)[s]]: the
    reshape splits the last axis only, so entry [b][h][n] of part [s] is the
    slice of row [b][n] at offset [(s * H + h) * D]. *)
Definition head_slice (H D s h : nat) (row : t1) : t1 :=
  firstn D (skipn ((s * H + h) * D) row).

Definition unbind_qkv (H D s : nat) (y : t3) : t4 :=
  map (fun yb => map (fun h => map (head_slice H D s h) yb) (seq 0 H)) y.

(** Elementwise difference of two 3-d tensors of equal shape (broadcasting
    between different shapes is not modelled: it is a shape error here). *)
Definition sub3_same (x y : t3) : result t3 :=
  let '(a, b, c) := dims3 x in
  let '(a', b', c') := dims3 y in
  if ((a =? a') && (b =? b') && (c =? c'))%bool then Ok (sub3 x y)
  else Err RuntimeError.

(** Python's [a % b] and [a // b] on integers, and [b ** -0.5]. *)
Definition py_mod (a b : Z) : result Z :=
  if (b =? 0)%Z then Err ZeroDivisionError else Ok (a mod b)%Z.
Definition py_floordiv (a b : Z) : result Z :=
  if (b =? 0)%Z then Err ZeroDivisionError else Ok (a / b)%Z.
Definition py_pow_neg_half (b : Z) : result scalar :=
  if (b =? 0)%Z then Err ZeroDivisionError else Ok (pow_neg_half b).
Definition floordiv (a b : nat) : result nat :=
  if b =? 0 then Err ZeroDivisionError else Ok (a / b).

End AttentionOps.

(** ** class Attention *)

Module Attention.
Section Defs.
Context {Ty : Carrier} {NUM : Numeric}.

Record t : Type := {
  num_heads : nat;
  scale : scalar;
  qkv : Linear;
  attn_drop : Q;
  proj : Linear;
  proj_drop : Q;
  alpha : scalar;
  layerth : option Z;
  dim : nat;
  g_conv : Conv1d
}.

(** What [forward] returns: [x] alone, or the tuple [(x, v)]. *)
Inductive output : Type :=
| Single (x : t3)
| Pair (x : t3) (v : t4).

(** [Attention.__init__] (lines 21-39). *)
Definition init (gen : nat -> scalar) (dim num_heads : Z) (qkv_bias : bool)
    (attn_drop proj_drop : Q) (layerth : option Z) : result t :=
  (r <- py_mod dim num_heads ;;
   guard (r =? 0)%Z AssertionError ;;
   head_dim <- py_floordiv dim num_heads ;;
   scale <- py_pow_neg_half head_dim ;;
   qkv <- Linear_init gen dim (dim * 3) qkv_bias ;;
   attn_drop <- Dropout_init attn_drop ;;
   proj <- Linear_init gen dim dim true ;;
   proj_drop <- Dropout_init proj_drop ;;
   channels <- py_floordiv dim num_heads ;;
   g_conv <- Conv1d_init gen channels channels 1 ;;
   Ok {| num_heads := Z.to_nat num_heads;
         scale := scale;
         qkv := qkv;
         attn_drop := attn_drop;
         proj := proj;
         proj_drop := proj_drop;
         alpha := lit (6 # 10);
         layerth := layerth;
         dim := Z.to_nat dim;
         g_conv := g_conv |})%result.

(** [Attention.adjoint_conv] (lines 75-78). *)
Definition adjoint_conv (conv : Conv1d) (input : t3) : result t3 :=
  let reversed_weights := flip2 (cweight conv) in
  conv1d input reversed_weights (cbias conv)
         (cstride conv) (cpadding conv) (cdilation conv) 1.

(** Lines 51-61: the value-residual term, [None] standing for [res = 0]. *)
Definition residual (a : t) (B N C : nat) (v : t4) (v0 : option t4) : result (option t4) :=
  match layerth a with
  | None => Err TypeError
  | Some l =>
      if (l >? 0)%Z then
        match v0 with
        | None => Err AttributeError
        | Some v0 =>
            let H := num_heads a in
            (D <- floordiv C H ;;
             v0_reshape <- reshape3 (B * H) N D (flat4 v0) ;;
             let v0_reshape := permute021 v0_reshape in
             v_reshape <- reshape3 (B * H) N D (flat4 v) ;;
             let v_reshape := permute021 v_reshape in
             g <- Conv1d_forward (g_conv a) v_reshape ;;
             diff <- sub3_same v0_reshape g ;;
             adj <- adjoint_conv (g_conv a) diff ;;
             let res := scale3 (alpha a) adj in
             let res := permute021 res in
             res <- reshape4 B H N D (flat3 res) ;;
             Ok (Some res))%result
        end
      else Ok None
  end.

(** Line 63: [(attn @ v) + res]. *)
Definition add_residual (av : t4) (res : option t4) : t4 :=
  match res with
  | Some r => add4 av r
  | None => add_scalar4 av zero
  end.

(** [Attention.forward] (lines 41-72). *)
Definition forward (a : t) (training : bool) (x : t3) (v0 : option t4) : M output :=
  let '(B, N, C) := dims3 x in
  let H := num_heads a in
  (y <- lift (linear3 (qkv a) x) ;;
   D <- lift (floordiv C H) ;;
   lift (guard (length (flat3 y) =? B * N * 3 * H * D) RuntimeError) ;;
   let q := unbind_qkv H D 0 y in
   let k := unbind_qkv H D 1 y in
   let v := unbind_qkv H D 2 y in
   let attn := mul_scalar4 (matmul4 q (transpose_last k)) (scale a) in
   let attn := softmax4 attn in
   attn <- dropout4 (attn_drop a) training attn ;;
   res <- lift (residual a B N C v v0) ;;
   let x := add_residual (matmul4 attn v) res in
   x <- lift (reshape3 B N C (flat4 (transpose12 x))) ;;
   x <- lift (linear3 (proj a) x) ;;
   x <- dropout3 (proj_drop a) training x ;;
   match layerth a with
   | Some 0%Z => ret (Pair x v)
   | _ => ret (Single x)
   end)%fwd.

End Defs.
End Attention.

(** ** class Block *)

Module Block.
Section Defs.
Context {Ty : Carrier} {NUM : Numeric}.

Record t : Type := {
  norm1 : LayerNorm;
  attn : Attention.t;
  drop_path_p : option Q;      (* [DropPath(p)], or [None] for [nn.Identity()] *)
  norm2 : LayerNorm;
  mlp : Mlp;
  layerth : option Z
}.

Inductive output : Type :=
| Single (x : t3)
| Pair (x : t3) (v0 : t4).

(** [int(q)]: truncation towards zero. *)
Definition py_int (q : Q) : Z := Z.quot (Qnum q) (Z.pos (Qden q)).

(** timm's [Mlp.__init__], with [hidden_features or in_features]. *)
Definition Mlp_init (gen : nat -> scalar) (in_features hidden_features : Z)
    (act_layer : scalar -> scalar) (drop : Q) : result Mlp :=
  let hidden := if (hidden_features =? 0)%Z then in_features else hidden_features in
  (fc1 <- Linear_init gen in_features hidden true ;;
   fc2 <- Linear_init gen hidden in_features true ;;
   drop <- Dropout_init drop ;;
   Ok {| fc1 := fc1; act := act_layer; fc2 := fc2; mlp_drop := drop |})%result.

(** [Block.__init__] (lines 86-97). *)
Definition init (gen : nat -> scalar) (dim num_heads : Z) (mlp_ratio : Q) (qkv_bias : bool)
    (drop attn_drop drop_path : Q) (act_layer : scalar -> scalar) (norm_eps : Q)
    (layerth : option Z) : result t :=
  (norm1 <- LayerNorm_init dim norm_eps ;;
   attn <- Attention.init gen dim num_heads qkv_bias attn_drop drop layerth ;;
   let dp := if Qle_bool drop_path 0 then None else Some drop_path in
   norm2 <- LayerNorm_init dim norm_eps ;;
   let mlp_hidden_dim := py_int (inject_Z dim * mlp_ratio)%Q in
   mlp <- Mlp_init gen dim mlp_hidden_dim act_layer drop ;;
   Ok {| norm1 := norm1; attn := attn; drop_path_p := dp; norm2 := norm2;
         mlp := mlp; layerth := layerth |})%result.

(** Is [self.layerth == 0]? *)
Definition is_first (layerth : option Z) : bool :=
  match layerth with
  | Some l => (l =? 0)%Z
  | None => false
  end.

(** [Block.forward] (lines 99-112).  A tensor unpacked as a pair, or a pair
    used as a tensor, is a type error. *)
Definition forward (b : t) (training : bool) (x : t3) (v0 : option t4) : M output :=
  (n <- lift (layer_norm3 (norm1 b) x) ;;
   xv <- (if is_first (layerth b) then
            o <- Attention.forward (attn b) training n None ;;
            match o with
            | Attention.Pair x_ v => ret (x_, Some v)
            | Attention.Single _ => raise TypeError
            end
          else
            o <- Attention.forward (attn b) training n v0 ;;
            match o with
            | Attention.Single x_ => ret (x_, v0)
            | Attention.Pair _ _ => raise TypeError
            end) ;;
   d <- drop_path (drop_path_p b) training (fst xv) ;;
   let x := add3 x d in
   n <- lift (layer_norm3 (norm2 b) x) ;;
   h <- Mlp_forward (mlp b) training n ;;
   d <- drop_path (drop_path_p b) training h ;;
   let x := add3 x d in
   if is_first (layerth b) then
     match snd xv with
     | Some v => ret (Pair x v)
     | None => raise TypeError
     end
   else ret (Single x))%fwd.

End Defs.
End Block.

(** ** class VisionTransformer *)

Module VisionTransformer.
Section Defs.
Context {Ty : Carrier} {NUM : Numeric}.

(** The patch embedding built by [embed_layer]: it is a constructor argument,
    so the model only records its [num_patches] and its forward map from
    images (B, in_chans, H, W) to token sequences. *)
Record PatchEmbed : Type := {
  num_patches : nat;
  pe_forward : t4 -> result t3
}.

(** [dist_token] and [head_dist], which exist together when [distilled];
    a head is [None] when it is [nn.Identity()]. *)
Record Distilled : Type := {
  dist_token : t3;
  head_dist : option Linear
}.

Record t : Type := {
  num_classes : Z;
  num_features : Z;
  embed_dim : Z;
  num_tokens : nat;
  patch_embed : PatchEmbed;
  cls_token : t3;
  distilled : option Distilled;
  pos_embed : t3;
  pos_drop : Q;
  blocks : list Block.t;
  norm : LayerNorm;
  pre_logits : option Linear;   (* [fc] then [Tanh], or [nn.Identity()] *)
  head : option Linear;
  reverse_head : option Linear
}.

Record config : Type := {
  cfg_num_classes : Z;
  cfg_embed_dim : Z;
  cfg_depth : Z;
  cfg_num_heads : Z;
  cfg_mlp_ratio : Q;
  cfg_qkv_bias : bool;
  cfg_representation_size : option Z;
  cfg_distilled : bool;
  cfg_drop_rate : Q;
  cfg_attn_drop_rate : Q;
  cfg_drop_path_rate : Q;
  cfg_embed_layer : Z -> result PatchEmbed;
  cfg_norm_eps : Q;
  cfg_act_layer : scalar -> scalar;
  cfg_weight_init : string
}.

(** The timm defaults of lines 122-125 ([embed_layer] is supplied). *)
Definition default_config (embed_layer : Z -> result PatchEmbed) : config :=
  {| cfg_num_classes := 1000; cfg_embed_dim := 768; cfg_depth := 12;
     cfg_num_heads := 12; cfg_mlp_ratio := 4; cfg_qkv_bias := true;
     cfg_representation_size := None; cfg_distilled := false;
     cfg_drop_rate := 0; cfg_attn_drop_rate := 0; cfg_drop_path_rate := 0;
     cfg_embed_layer := embed_layer; cfg_norm_eps := 1 # 1000000;
     cfg_act_layer := gelu; cfg_weight_init := EmptyString |}.

(** [torch.linspace(0, rate, depth)[i]]. *)
Definition linspace (rate : Q) (depth : Z) (i : nat) : Q :=
  if (depth <=? 1)%Z then 0%Q
  else (rate * inject_Z (Z.of_nat i) / inject_Z (depth - 1))%Q.

Definition new_param3 (a b c : Z) (gen : nat -> scalar) : result t3 :=
  if ((0 <=? a) && (0 <=? b) && (0 <=? c))%Z
  then Ok (fill3 gen (Z.to_nat a) (Z.to_nat b) (Z.to_nat c))
  else Err RuntimeError.

Definition head_init (gen : nat -> scalar) (inf outf num_classes : Z) : result (option Linear) :=
  if (0 <? num_classes)%Z then
    (l <- Linear_init gen inf outf true ;; Ok (Some l))%result
  else Ok None.

(** [VisionTransformer.__init__] (lines 122-191) followed by the assertion
    of [init_weights] (line 194). *)
Definition init (gen : nat -> scalar) (c : config) : result t :=
  let embed_dim := cfg_embed_dim c in
  let num_tokens := if cfg_distilled c then 2 else 1 in
  let represented :=
    match cfg_representation_size c with
    | Some r => (negb (r =? 0)%Z && negb (cfg_distilled c))%bool
    | None => false
    end in
  let num_features :=
    match cfg_representation_size c with
    | Some r => if represented then r else embed_dim
    | None => embed_dim
    end in
  (patch_embed <- cfg_embed_layer c embed_dim ;;
   cls_token <- new_param3 1 1 embed_dim gen ;;
   dist_tok <- (if cfg_distilled c then new_param3 1 1 embed_dim gen else Ok []) ;;
   pos_embed <- new_param3 1 (Z.of_nat (num_patches patch_embed + num_tokens)) embed_dim gen ;;
   pos_drop <- Dropout_init (cfg_drop_rate c) ;;
   guard (0 <=? cfg_depth c)%Z RuntimeError ;;
   blocks <- rmapM (fun i =>
                      Block.init gen embed_dim (cfg_num_heads c) (cfg_mlp_ratio c)
                        (cfg_qkv_bias c) (cfg_drop_rate c) (cfg_attn_drop_rate c)
                        (linspace (cfg_drop_path_rate c) (cfg_depth c) i)
                        (cfg_act_layer c) (cfg_norm_eps c) (Some (Z.of_nat i)))
                   (seq 0 (Z.to_nat (cfg_depth c))) ;;
   norm <- LayerNorm_init embed_dim (cfg_norm_eps c) ;;
   pre_logits <- (if represented
                  then l <- Linear_init gen embed_dim num_features true ;; Ok (Some l)
                  else Ok None) ;;
   head <- head_init gen num_features (cfg_num_classes c) (cfg_num_classes c) ;;
   reverse_head <- head_init gen (cfg_num_classes c) embed_dim (cfg_num_classes c) ;;
   dist <- (if cfg_distilled c
            then h <- head_init gen embed_dim (cfg_num_classes c) (cfg_num_classes c) ;;
                 Ok (Some {| dist_token := dist_tok; head_dist := h |})
            else Ok None) ;;
   guard (existsb (String.eqb (cfg_weight_init c))
                  ["jax"; "jax_nlhb"; "nlhb"; EmptyString]%string) AssertionError ;;
   Ok {| num_classes := cfg_num_classes c;
         num_features := num_features;
         embed_dim := embed_dim;
         num_tokens := num_tokens;
         patch_embed := patch_embed;
         cls_token := cls_token;
         distilled := dist;
         pos_embed := pos_embed;
         pos_drop := pos_drop;
         blocks := blocks;
         norm := norm;
         pre_logits := pre_logits;
         head := head;
         reverse_head := reverse_head |})%result.

(** What [forward_features] and [forward] return: a tensor or a pair. *)
Inductive features : Type :=
| Feat (x : t2)
| FeatPair (x x_dist : t2).

Inductive prediction : Type :=
| Logits (x : t2)
| LogitsPair (x x_dist : t2).

(** [torch.cat(parts, dim=1)] for two token sequences over the same batch. *)
Definition cat1 (x y : t3) : t3 := map2 (@app t1) x y.

(** [t.expand(B, -1, -1)] of a parameter of shape (1, 1, E). *)
Definition expand (B : nat) (p : t3) : t3 := repeat (hd [] p) B.

(** [x + self.pos_embed]: the (1, N, E) parameter is added to every sample
    (other broadcasts are not modelled: they are shape errors here). *)
Definition add_pos (x pos : t3) : result t3 :=
  let p := hd [] pos in
  rmapM (fun xb =>
           if ((length xb =? length p)
               && (length (hd [] xb) =? length (hd [] p)))%bool
           then Ok (add2 xb p) else Err RuntimeError) x.

(** [x[:, i]] on a 3-d tensor. *)
Definition select (i : nat) (x : t3) : result t2 :=
  rmapM (fun xb => match nth_error xb i with
                   | Some row => Ok row
                   | None => Err (IndexError i)
                   end) x.

(** [x[:, 0, :] = r] for [r] of shape (B, E). *)
Definition set_cls (x : t3) (r : t2) : result t3 :=
  if length x =? length r then
    rmapM (fun xr : t2 * t1 =>
             match fst xr with
             | row :: rest =>
                 if length row =? length (snd xr) then Ok (snd xr :: rest)
                 else Err RuntimeError
             | [] => Err (IndexError 0)
             end) (combine x r)
  else Err RuntimeError.

Definition apply_head (h : option Linear) (x : t2) : result t2 :=
  match h with
  | Some l => linear2 l x
  | None => Ok x
  end.

Definition apply_pre_logits (pl : option Linear) (x : t2) : result t2 :=
  match pl with
  | Some fc => (y <- linear2 fc x ;; Ok (map (map tanh) y))%result
  | None => Ok x
  end.

(** [self.blocks[i]] for a non-negative [i]. *)
Definition get_block (bs : list Block.t) (i : nat) : result Block.t :=
  match nth_error bs i with
  | Some b => Ok b
  | None => Err (IndexError i)
  end.

(** Lines 243-244: the provisional prediction and the class-token rewrite. *)
Definition feedback (m : t) (x : t3) : result t3 :=
  (n <- layer_norm3 (norm m) x ;;
   c <- select 0 n ;;
   p <- apply_pre_logits (pre_logits m) c ;;
   mid_class_prediction <- apply_head (head m) p ;;
   r <- apply_head (reverse_head m) mid_class_prediction ;;
   set_cls x r)%result.

(** Lines 242-244: the body of the loop, for one index [i]. *)
Definition loop_body (m : t) (training : bool) (v0 : t4) (x : t3) (i : nat) : M t3 :=
  (b <- lift (get_block (blocks m) i) ;;
   o <- Block.forward b training x (Some v0) ;;
   match o with
   | Block.Single x => lift (feedback m x)
   | Block.Pair _ _ => raise TypeError
   end)%fwd.

(** [for i in l: x = body(x, i)]. *)
Fixpoint for_each {S : Type} (body : S -> nat -> M S) (l : list nat) (s : S) : M S :=
  match l with
  | [] => ret s
  | i :: l' => bind (body s i) (for_each body l')
  end.

(** Lines 233-239: patch embedding, class token and position embedding. *)
Definition embed (m : t) (training : bool) (x : t4) : M t3 :=
  (x <- lift (pe_forward (patch_embed m) x) ;;
   let cls := expand (length x) (cls_token m) in
   let x := match distilled m with
            | None => cat1 cls x
            | Some d => cat1 cls (cat1 (expand (length x) (dist_token d)) x)
            end in
   x <- lift (add_pos x (pos_embed m)) ;;
   dropout3 (pos_drop m) training x)%fwd.

(** [VisionTransformer.forward_features] (lines 232-250). *)
Definition forward_features (m : t) (training : bool) (x : t4) : M features :=
  (x <- embed m training x ;;
   b0 <- lift (get_block (blocks m) 0) ;;
   o <- Block.forward b0 training x None ;;
   match o with
   | Block.Single _ => raise TypeError
   | Block.Pair x v0 =>
       x <- for_each (loop_body m training v0) (seq 1 10) x ;;
       x <- lift (layer_norm3 (norm m) x) ;;
       match distilled m with
       | None =>
           c <- lift (select 0 x) ;;
           f <- lift (apply_pre_logits (pre_logits m) c) ;;
           ret (Feat f)
       | Some _ =>
           c <- lift (select 0 x) ;;
           d <- lift (select 1 x) ;;
           ret (FeatPair c d)
       end
   end)%fwd.

(** [VisionTransformer.forward] (lines 252-263). *)
Definition forward (m : t) (training : bool) (x : t4) : M prediction :=
  (f <- forward_features m training x ;;
   match distilled m, f with
   | Some d, FeatPair c cd =>
       x <- lift (apply_head (head m) c) ;;
       x_dist <- lift (apply_head (head_dist d) cd) ;;
       if training then ret (LogitsPair x x_dist)
       else ret (Logits (map (map (fun e => div e (lit 2))) (add2 x x_dist)))
   | None, Feat c =>
       x <- lift (apply_head (head m) c) ;;
       ret (Logits x)
   | _, _ => raise TypeError
   end)%fwd.

End Defs.
End VisionTransformer.

(** * An interpretation for running the model on examples

    Exact rational arithmetic; the transcendental functions and the generator
    are simple stand-ins, which is enough to execute the control flow and the
    tensor plumbing on small inputs. *)

Definition Q_carrier : Carrier := {| scalar := Q; rng := nat |}.

Definition Q_numeric : @Numeric Q_carrier :=
  @Build_Numeric Q_carrier
    0%Q
    (fun a b : Q => Qred (a + b))
    (fun a b : Q => Qred (a - b))
    (fun a b : Q => Qred (a * b))
    (fun a b : Q => Qred (a / b))
    Qred
    (fun a : Q => Qred (1 + a * a))
    (fun a : Q => Qred (1 + a * a))
    (fun a : Q => a)
    (fun a : Q => a)
    (fun z : Z => Qred (1 / inject_Z z))
    (fun (_ : Q) (s : nat) => (if Nat.even s then 1%Q else 0%Q, S s)).

(** A weight is a 1x1 kernel when every kernel row has a single tap. *)
Definition kernel1 {Ty : Carrier} {NUM : Numeric} (w : t3) : Prop :=
  Forall (Forall (fun taps : t1 => length taps = 1)) w.

(** The weight with its two channel axes exchanged (the transposed map). *)
Definition transpose_channels {Ty : Carrier} {NUM : Numeric} (w : t3) : t3 :=
  map (fun c => map (fun wo : t2 => nth c wo []) w) (seq 0 (length (hd [] w))).

(** A one-patch embedding, a configuration of any depth over it, and an
    image with a single two-pixel channel. *)
Section Toy.
#[local] Existing Instance Q_carrier.
#[local] Existing Instance Q_numeric.

Definition toy_embed_layer (E : Z) : result VisionTransformer.PatchEmbed :=
  Ok {| VisionTransformer.num_patches := 1;
        VisionTransformer.pe_forward :=
          fun img => Ok (map (fun im => [firstn (Z.to_nat E) (flat3 im)]) img) |}.

Definition toy_config (depth : Z) : VisionTransformer.config :=
  {| VisionTransformer.cfg_num_classes := 2;
     VisionTransformer.cfg_embed_dim := 2;
     VisionTransformer.cfg_depth := depth;
     VisionTransformer.cfg_num_heads := 1;
     VisionTransformer.cfg_mlp_ratio := 1;
     VisionTransformer.cfg_qkv_bias := true;
     VisionTransformer.cfg_representation_size := None;
     VisionTransformer.cfg_distilled := false;
     VisionTransformer.cfg_drop_rate := 0;
     VisionTransformer.cfg_attn_drop_rate := 0;
     VisionTransformer.cfg_drop_path_rate := 0;
     VisionTransformer.cfg_embed_layer := toy_embed_layer;
     VisionTransformer.cfg_norm_eps := 1 # 1000000;
     VisionTransformer.cfg_act_layer := gelu;
     VisionTransformer.cfg_weight_init := EmptyString |}.

Definition toy_gen : nat -> scalar := fun _ => 0%Q.

Definition toy_image : t4 := [[[[1%Q; 2%Q]]]].

(** Parameters numbered in the order they are created. *)
Definition count_gen : nat -> scalar := fun n => inject_Z (Z.of_nat n).

(** Parameters that are 1 at position 1 and 0 elsewhere, and a configuration
    with the same sizes and [eps = 1] in the norms: small exact values. *)
Definition sparse_gen : nat -> scalar := fun n => if n =? 1 then 1%Q else 0%Q.

Definition small_config (depth : Z) : VisionTransformer.config :=
  {| VisionTransformer.cfg_num_classes := 2;
     VisionTransformer.cfg_embed_dim := 2;
     VisionTransformer.cfg_depth := depth;
     VisionTransformer.cfg_num_heads := 1;
     VisionTransformer.cfg_mlp_ratio := 1;
     VisionTransformer.cfg_qkv_bias := true;
     VisionTransformer.cfg_representation_size := None;
     VisionTransformer.cfg_distilled := false;
     VisionTransformer.cfg_drop_rate := 0;
     VisionTransformer.cfg_attn_drop_rate := 0;
     VisionTransformer.cfg_drop_path_rate := 0;
     VisionTransformer.cfg_embed_layer := toy_embed_layer;
     VisionTransformer.cfg_norm_eps := 1;
     VisionTransformer.cfg_act_layer := gelu;
     VisionTransformer.cfg_weight_init := EmptyString |}.

(** A sequence of two tokens of size 2 and a value tensor for one head. *)
Definition toy_tokens : t3 := [[[1%Q; 2%Q]; [3%Q; 4%Q]]].
Definition toy_v0 : t4 := [[[[1%Q; 0%Q]; [0%Q; 1%Q]]]].

End Toy.

(** The same model over another list of blocks. *)
Definition with_blocks {Ty : Carrier} {NUM : Numeric} (m : VisionTransformer.t) (bs : list Block.t)
  : VisionTransformer.t :=
  {| VisionTransformer.num_classes := VisionTransformer.num_classes m;
     VisionTransformer.num_features := VisionTransformer.num_features m;
     VisionTransformer.embed_dim := VisionTransformer.embed_dim m;
     VisionTransformer.num_tokens := VisionTransformer.num_tokens m;
     VisionTransformer.patch_embed := VisionTransformer.patch_embed m;
     VisionTransformer.cls_token := VisionTransformer.cls_token m;
     VisionTransformer.distilled := VisionTransformer.distilled m;
     VisionTransformer.pos_embed := VisionTransformer.pos_embed m;
     VisionTransformer.pos_drop := VisionTransformer.pos_drop m;
     VisionTransformer.blocks := bs;
     VisionTransformer.norm := VisionTransformer.norm m;
     VisionTransformer.pre_logits := VisionTransformer.pre_logits m;
     VisionTransformer.head := VisionTransformer.head m;
     VisionTransformer.reverse_head := VisionTransformer.reverse_head m |}.

(** * Properties *)

(** ** The convolution and its reversed-kernel application *)

Section ConvFacts.
Context {Ty : Carrier} {NUM : Numeric}.

Lemma flip2_nth (w : t3) (o c k : nat) :
  k < length (nth c (nth o w []) []) ->
  nth k (nth c (nth o (flip2 w) []) []) zero =
  nth (length (nth c (nth o w []) []) - 1 - k) (nth c (nth o w []) []) zero.
Proof.
  intros Hk. unfold flip2.
  change (nth o (map (map (@rev scalar)) w) [])
    with (nth o (map (map (@rev scalar)) w) (map (@rev scalar) [])).
  rewrite map_nth.
  change (nth c (map (@rev scalar) (nth o w [])) [])
    with (nth c (map (@rev scalar) (nth o w [])) (rev [])).
  rewrite map_nth.
  rewrite rev_nth by exact Hk.
  assert (E : forall n, n - S k = n - 1 - k) by (intros; lia).
  rewrite E. reflexivity.
Qed.

Lemma rev_single (A : Type) (l : list A) : length l = 1 -> rev l = l.
Proof.
  destruct l as [|a [|b l]]; simpl; intros H; try discriminate; reflexivity.
Qed.

Lemma flip2_kernel1 (w : t3) : kernel1 w -> flip2 w = w.
Proof.
  unfold kernel1, flip2. intros Hw.
  induction Hw as [|wo w Hwo _ IH]; simpl; [reflexivity|].
  f_equal; [|exact IH].
  induction Hwo as [|taps wo Ht _ IHo]; simpl; [reflexivity|].
  f_equal; [apply rev_single; exact Ht | exact IHo].
Qed.

Lemma adjoint_conv_kernel1 (conv : Conv1d) (input : t3) :
  kernel1 (cweight conv) -> cgroups conv = 1 ->
  Attention.adjoint_conv conv input = Conv1d_forward conv input.
Proof.
  intros Hk Hg. unfold Attention.adjoint_conv, Conv1d_forward.
  rewrite (flip2_kernel1 Hk), Hg. reflexivity.
Qed.

Lemma fill3_kernel1 (gen : nat -> scalar) (a r : nat) : kernel1 (fill3 gen a r 1).
Proof.
  unfold kernel1, fill3, fill2, fill1.
  apply Forall_forall. intros wo Hwo.
  apply in_map_iff in Hwo. destruct Hwo as [i [<- _]].
  apply Forall_forall. intros taps Ht.
  apply in_map_iff in Ht. destruct Ht as [j [<- _]].
  reflexivity.
Qed.

Lemma Conv1d_init_kernel1 (gen : nat -> scalar) (inc outc : Z) (conv : Conv1d) :
  Conv1d_init gen inc outc 1 = Ok conv ->
  kernel1 (cweight conv) /\ cgroups conv = 1 /\ cstride conv = 1
  /\ cpadding conv = 0 /\ cdilation conv = 1.
Proof.
  unfold Conv1d_init. destruct (_ && _)%bool; [|discriminate].
  intros H. injection H as <-. simpl.
  split; [apply fill3_kernel1 | repeat split].
Qed.

End ConvFacts.

(** ** Construction *)

Section InitFacts.
Context {Ty : Carrier} {NUM : Numeric}.

Definition probability (p : Q) : Prop := (0 <= p)%Q /\ (p <= 1)%Q.

Lemma Dropout_init_ok (p : Q) : probability p -> Dropout_init p = Ok p.
Proof.
  intros [H0 H1]. unfold Dropout_init.
  apply Qle_bool_iff in H0. apply Qle_bool_iff in H1.
  rewrite H0, H1. reflexivity.
Qed.

Lemma Linear_init_ok (gen : nat -> scalar) (inf outf : Z) (bias : bool) :
  (0 <= inf)%Z -> (0 <= outf)%Z ->
  exists l, Linear_init gen inf outf bias = Ok l
            /\ in_features l = Z.to_nat inf /\ out_features l = Z.to_nat outf.
Proof.
  intros Hi Ho. unfold Linear_init.
  apply Z.leb_le in Hi. apply Z.leb_le in Ho. rewrite Hi, Ho. simpl.
  eexists. split; [reflexivity|]. split; reflexivity.
Qed.

Lemma Conv1d_init_ok (gen : nat -> scalar) (inc outc : Z) :
  (0 <= inc)%Z -> (0 <= outc)%Z ->
  exists conv, Conv1d_init gen inc outc 1 = Ok conv.
Proof.
  intros Hi Ho. unfold Conv1d_init.
  apply Z.leb_le in Hi. apply Z.leb_le in Ho. rewrite Hi, Ho. simpl.
  eexists. reflexivity.
Qed.

Lemma LayerNorm_init_ok (dim : Z) (eps : Q) :
  (0 <= dim)%Z -> exists ln, LayerNorm_init dim eps = Ok ln.
Proof.
  intros Hd. unfold LayerNorm_init. apply Z.leb_le in Hd. rewrite Hd.
  eexists. reflexivity.
Qed.

Lemma head_dim_pos (dim num_heads : Z) :
  (0 < dim)%Z -> (0 < num_heads)%Z -> (dim mod num_heads = 0)%Z ->
  (0 < dim / num_heads)%Z.
Proof.
  intros Hd Hn Hm.
  apply Z.div_str_pos. split; [exact Hn|].
  apply Z.divide_pos_le; [exact Hd|].
  apply Z.mod_divide; [lia | exact Hm].
Qed.

Lemma Attention_init_ok (gen : nat -> scalar) (dim num_heads : Z) (qkv_bias : bool)
    (attn_drop proj_drop : Q) (layerth : option Z) :
  (0 < dim)%Z -> (0 < num_heads)%Z -> (dim mod num_heads = 0)%Z ->
  probability attn_drop -> probability proj_drop ->
  exists a, Attention.init gen dim num_heads qkv_bias attn_drop proj_drop layerth = Ok a
            /\ Attention.num_heads a = Z.to_nat num_heads
            /\ Attention.dim a = Z.to_nat dim
            /\ Attention.layerth a = layerth.
Proof.
  intros Hd Hn Hm Ha Hp.
  pose proof (head_dim_pos Hd Hn Hm) as Hh.
  unfold Attention.init, py_mod, py_floordiv, py_pow_neg_half.
  assert (En : (num_heads =? 0)%Z = false) by (apply Z.eqb_neq; lia).
  rewrite En. simpl. rewrite Hm. simpl.
  assert (Eh : (dim / num_heads =? 0)%Z = false) by (apply Z.eqb_neq; lia).
  rewrite Eh. simpl.
  destruct (@Linear_init_ok gen dim (dim * 3) qkv_bias) as [l1 [E1 _]]; try lia.
  rewrite E1. simpl.
  rewrite (Dropout_init_ok Ha). simpl.
  destruct (@Linear_init_ok gen dim dim true) as [l2 [E2 _]]; try lia.
  rewrite E2. simpl.
  rewrite (Dropout_init_ok Hp). simpl.
  destruct (@Conv1d_init_ok gen (dim / num_heads) (dim / num_heads)) as [cv E3]; try lia.
  rewrite E3. simpl.
  eexists. split; [reflexivity|]. repeat split; reflexivity.
Qed.

Lemma Attention_init_not_divisible (gen : nat -> scalar) (dim num_heads : Z)
    (qkv_bias : bool) (attn_drop proj_drop : Q) (layerth : option Z) :
  num_heads <> 0%Z -> (dim mod num_heads <> 0)%Z ->
  Attention.init gen dim num_heads qkv_bias attn_drop proj_drop layerth
  = Err AssertionError.
Proof.
  intros Hn Hm. unfold Attention.init, py_mod.
  apply Z.eqb_neq in Hn. rewrite Hn. simpl.
  apply Z.eqb_neq in Hm. rewrite Hm. reflexivity.
Qed.

End InitFacts.

(** ** Attention without the first-layer values *)

Section MissingV0.
Context {Ty : Carrier} {NUM : Numeric}.

Lemma residual_missing_v0 (a : Attention.t) (B N C : nat) (v : t4) (l : Z) :
  Attention.layerth a = Some l -> (0 < l)%Z ->
  Attention.residual a B N C v None = Err AttributeError.
Proof.
  intros Hl Hpos. unfold Attention.residual. rewrite Hl.
  apply Z.gtb_lt in Hpos. rewrite Hpos. reflexivity.
Qed.

Lemma residual_first_layer (a : Attention.t) (B N C : nat) (v : t4) (v0 : option t4) (l : Z) :
  Attention.layerth a = Some l -> (l <= 0)%Z ->
  Attention.residual a B N C v v0 = Ok None.
Proof.
  intros Hl Hpos. unfold Attention.residual. rewrite Hl.
  destruct (l >? 0)%Z eqn:E; [apply Z.gtb_lt in E; lia | reflexivity].
Qed.

Lemma forward_missing_v0 (a : Attention.t) (training : bool) (x : t3) (s : rng) (l : Z) :
  Attention.layerth a = Some l -> (0 < l)%Z ->
  exists e, Attention.forward a training x None s = Err e.
Proof.
  intros Hl Hpos. unfold Attention.forward.
  destruct (dims3 x) as [[B N] C]. unfold bind, lift.
  destruct (linear3 (Attention.qkv a) x) as [y|e]; [|eauto].
  destruct (floordiv C (Attention.num_heads a)) as [D|e]; [|eauto].
  destruct (guard _ _) as [u|e]; [|eauto].
  destruct (dropout4 _ _ _ s) as [[attn s']|e]; [|eauto].
  rewrite (residual_missing_v0 a B N C _ Hl Hpos). eauto.
Qed.

End MissingV0.

(** ** The block loop of [forward_features] *)

Section LoopFacts.
Context {Ty : Carrier} {NUM : Numeric}.

Import VisionTransformer.

Lemma for_each_app {S : Type} (body : S -> nat -> M S) (l1 l2 : list nat) (x : S) (s : rng) :
  for_each body (l1 ++ l2) x s =
  match for_each body l1 x s with
  | Ok (x', s') => for_each body l2 x' s'
  | Err e => Err e
  end.
Proof.
  revert x s. induction l1 as [|i l1 IH]; intros x s; simpl; [reflexivity|].
  unfold bind. destruct (body x i s) as [[x' s']|e]; [apply IH | reflexivity].
Qed.

Lemma for_each_ext {S : Type} (body1 body2 : S -> nat -> M S) (l : list nat) :
  (forall i, In i l -> forall x s, body1 x i s = body2 x i s) ->
  forall x s, for_each body1 l x s = for_each body2 l x s.
Proof.
  induction l as [|i l IH]; intros Hb x s; simpl; [reflexivity|].
  unfold bind. rewrite (Hb i (or_introl eq_refl)).
  destruct (body2 x i s) as [[x' s']|e]; [|reflexivity].
  apply IH. intros j Hj. apply Hb. right. exact Hj.
Qed.

Lemma loop_body_out_of_range (m : t) (training : bool) (v0 : t4) (x : t3) (i : nat) (s : rng) :
  length (blocks m) <= i ->
  loop_body m training v0 x i s = Err (IndexError i).
Proof.
  intros Hi. unfold loop_body, bind, lift, get_block.
  apply nth_error_None in Hi. rewrite Hi. reflexivity.
Qed.

(** Once the loop reaches an index with no block, the pass has failed. *)
Lemma for_each_hits_missing (m : t) (training : bool) (v0 : t4) (l : list nat) (i : nat) :
  In i l -> length (blocks m) <= i ->
  forall x s, exists e, for_each (loop_body m training v0) l x s = Err e.
Proof.
  intros Hin Hi. induction l as [|j l IH]; [contradiction|].
  intros x s. simpl. unfold bind.
  destruct Hin as [->|Hin].
  - rewrite (loop_body_out_of_range m training v0 x s Hi). eauto.
  - destruct (loop_body m training v0 x j s) as [[x' s']|e]; [|eauto].
    apply (IH Hin).
Qed.

Lemma seq_split (start len k : nat) :
  k < len -> seq start len = seq start k ++ (start + k) :: seq (start + k + 1) (len - k - 1).
Proof.
  intros Hk.
  replace len with (k + S (len - k - 1)) at 1 by lia.
  rewrite seq_app. simpl. f_equal. f_equal. f_equal. lia.
Qed.

(** The first index without a block is where the loop stops, with the
    index error of the block list. *)
Lemma loop_stops_at_depth (m : t) (training : bool) (v0 : t4) (x x' : t3) (s s' : rng) :
  let depth := length (blocks m) in
  1 <= depth <= 10 ->
  for_each (loop_body m training v0) (seq 1 (depth - 1)) x s = Ok (x', s') ->
  for_each (loop_body m training v0) (seq 1 10) x s = Err (IndexError depth).
Proof.
  intros depth Hd Hrun.
  rewrite (@seq_split 1 10 (depth - 1)) by lia.
  rewrite for_each_app, Hrun.
  replace (1 + (depth - 1)) with depth by lia.
  simpl. unfold bind.
  rewrite loop_body_out_of_range by (unfold depth; lia). reflexivity.
Qed.

Lemma forward_features_short (m : t) (training : bool) (x : t4) (s : rng) :
  length (blocks m) < 11 ->
  exists e, forward_features m training x s = Err e.
Proof.
  intros Hd. unfold forward_features, bind.
  destruct (embed m training x s) as [[x1 s1]|e]; [|eauto].
  unfold lift at 1, get_block.
  destruct (nth_error (blocks m) 0) as [b0|] eqn:E0; [|eauto].
  destruct (Block.forward b0 training x1 None s1) as [[[xs|x2 v0] s2]|e];
    [unfold raise; eauto | | eauto].
  assert (Hlen : 1 <= length (blocks m)).
  { destruct (blocks m); [discriminate | simpl; lia]. }
  destruct (@for_each_hits_missing m training v0 (seq 1 10) (length (blocks m)))
    with (x := x2) (s := s2) as [e He].
  - apply in_seq. lia.
  - lia.
  - rewrite He. eauto.
Qed.

End LoopFacts.

(** ** Which blocks the forward pass runs *)

Section DepthFacts.
Context {Ty : Carrier} {NUM : Numeric}.

Import VisionTransformer.

Lemma nth_error_firstn_app {A : Type} (l tail : list A) (n i : nat) :
  i < n -> n <= length l -> nth_error (firstn n l ++ tail) i = nth_error l i.
Proof.
  intros Hi Hn.
  rewrite nth_error_app1 by (rewrite length_firstn; lia).
  rewrite nth_error_firstn.
  destruct (i <? n) eqn:E; [reflexivity | apply Nat.ltb_ge in E; lia].
Qed.

Lemma loop_body_with_blocks (m : t) (bs : list Block.t) (training : bool) (v0 : t4)
    (x : t3) (i : nat) (s : rng) :
  nth_error bs i = nth_error (blocks m) i ->
  loop_body (with_blocks m bs) training v0 x i s = loop_body m training v0 x i s.
Proof.
  intros Hi. unfold loop_body, get_block, feedback. simpl. rewrite Hi. reflexivity.
Qed.

Lemma forward_features_with_blocks (m : t) (bs : list Block.t) (training : bool)
    (x : t4) (s : rng) :
  (forall i, i < 11 -> nth_error bs i = nth_error (blocks m) i) ->
  forward_features (with_blocks m bs) training x s = forward_features m training x s.
Proof.
  intros Hbs. unfold forward_features, bind.
  change (embed (with_blocks m bs) training x s) with (embed m training x s).
  destruct (embed m training x s) as [[x1 s1]|e]; [|reflexivity].
  unfold get_block. simpl blocks. rewrite (Hbs 0) by lia.
  destruct (lift _ s1) as [[b0 s1']|e]; [|reflexivity].
  destruct (Block.forward b0 training x1 None s1') as [[[xs|x2 v0] s2]|e];
    try reflexivity.
  rewrite for_each_ext with (body2 := loop_body m training v0).
  - reflexivity.
  - intros i Hi x' s'. apply loop_body_with_blocks. apply Hbs.
    apply in_seq in Hi. lia.
Qed.

End DepthFacts.

(** ** Statements about the convolution pair *)

(** C8: [adjoint_conv] is the functional 1-d convolution applied with the
    weight of the given convolution reversed along its kernel axis (entry [k]
    of every kernel row is entry [K - 1 - k] of the original row), and with
    the bias, stride, padding and dilation that the forward application
    [Conv1d_forward] of the same convolution uses. *)
Theorem adjoint_conv_uses_reversed_kernel {Ty : Carrier} {NUM : Numeric} (conv : Conv1d) (input : t3) :
  Attention.adjoint_conv conv input
  = conv1d input (flip2 (cweight conv)) (cbias conv)
           (cstride conv) (cpadding conv) (cdilation conv) 1
  /\ Conv1d_forward conv input
     = conv1d input (cweight conv) (cbias conv)
              (cstride conv) (cpadding conv) (cdilation conv) (cgroups conv)
  /\ length (flip2 (cweight conv)) = length (cweight conv)
  /\ (forall o c k,
        k < length (nth c (nth o (cweight conv) []) []) ->
        nth k (nth c (nth o (flip2 (cweight conv)) []) []) zero
        = nth (length (nth c (nth o (cweight conv) []) []) - 1 - k)
              (nth c (nth o (cweight conv) []) []) zero).
Proof.
  split; [reflexivity|]. split; [reflexivity|]. split.
  - unfold flip2. apply length_map.
  - intros o c k Hk. apply flip2_nth. exact Hk.
Qed.

(** C10: the convolution that [Attention.__init__] creates has kernel size 1,
    so reversing its weight changes nothing and [adjoint_conv] of it is the
    forward application itself, on every input. *)
Theorem adjoint_conv_is_forward_conv {Ty : Carrier} {NUM : Numeric} (gen : nat -> scalar)
    (dim num_heads : Z) (qkv_bias : bool) (attn_drop proj_drop : Q)
    (layerth : option Z) (a : Attention.t) (x : t3) :
  Attention.init gen dim num_heads qkv_bias attn_drop proj_drop layerth = Ok a ->
  flip2 (cweight (Attention.g_conv a)) = cweight (Attention.g_conv a)
  /\ Attention.adjoint_conv (Attention.g_conv a) x
     = Conv1d_forward (Attention.g_conv a) x.
Proof.
  unfold Attention.init. intros H.
  destruct (py_mod dim num_heads) as [r|]; [|discriminate]. cbn [rbind] in H.
  destruct (guard (r =? 0)%Z AssertionError); [|discriminate]. cbn [rbind] in H.
  destruct (py_floordiv dim num_heads) as [hd|]; [|discriminate]. cbn [rbind] in H.
  destruct (py_pow_neg_half hd); [|discriminate]. cbn [rbind] in H.
  destruct (Linear_init gen dim (dim * 3) qkv_bias); [|discriminate]. cbn [rbind] in H.
  destruct (Dropout_init attn_drop); [|discriminate]. cbn [rbind] in H.
  destruct (Linear_init gen dim dim true); [|discriminate]. cbn [rbind] in H.
  destruct (Dropout_init proj_drop); [|discriminate]. cbn [rbind] in H.
  destruct (Conv1d_init gen hd hd 1) as [conv|] eqn:Ec; [|discriminate].
  cbn [rbind] in H. injection H as <-. cbn [Attention.g_conv].
  destruct (Conv1d_init_kernel1 _ _ _ Ec) as [Hk [Hg _]].
  split; [apply flip2_kernel1; exact Hk | apply adjoint_conv_kernel1; assumption].
Qed.

Section ConvExamples.
#[local] Existing Instance Q_carrier.
#[local] Existing Instance Q_numeric.

(** On two channels with the weight rows (0 1) and (2 3) and the bias (0 1),
    the reversed-kernel application agrees with the forward one and differs
    from the application of the channel-transposed weight. *)
Lemma adjoint_conv_is_forward_conv_example :
  exists a,
    Attention.init count_gen 2 1 false 0 0 (Some 1%Z) = Ok a
    /\ Attention.adjoint_conv (Attention.g_conv a) [[[1%Q; 0%Q]; [0%Q; 0%Q]]]
       = Conv1d_forward (Attention.g_conv a) [[[1%Q; 0%Q]; [0%Q; 0%Q]]]
    /\ Attention.adjoint_conv (Attention.g_conv a) [[[1%Q; 0%Q]; [0%Q; 0%Q]]]
       = Ok [[[0%Q; 0%Q]; [3%Q; 1%Q]]]
    /\ conv1d [[[1%Q; 0%Q]; [0%Q; 0%Q]]]
              (transpose_channels (cweight (Attention.g_conv a)))
              (cbias (Attention.g_conv a)) 1 0 1 1
       = Ok [[[0%Q; 0%Q]; [2%Q; 1%Q]]].
Proof.
  eexists. split; [vm_compute; reflexivity|]. split.
  - eapply (adjoint_conv_is_forward_conv count_gen 2 1 false 0 0 (Some 1%Z)).
    vm_compute. reflexivity.
  - split; vm_compute; reflexivity.
Defined.

End ConvExamples.

(** ** Statements about construction and the missing [v0] *)

(** C7 (amended): for positive [dim] and [num_heads] and dropout rates that
    are probabilities, [Attention.__init__] succeeds when [dim % num_heads]
    is 0, and so does [Block.__init__] for a non-negative [mlp_ratio]; when
    [dim % num_heads] is not 0 both fail with the assertion error of line 23,
    at construction time. *)
Theorem construction_checks_divisibility {Ty : Carrier} {NUM : Numeric} (gen : nat -> scalar)
    (dim num_heads : Z) (qkv_bias : bool) (attn_drop drop : Q) (layerth : option Z) :
  (0 < dim)%Z -> (0 < num_heads)%Z -> probability attn_drop -> probability drop ->
  ((dim mod num_heads = 0)%Z ->
     (exists a, Attention.init gen dim num_heads qkv_bias attn_drop drop layerth = Ok a)
     /\ (forall mlp_ratio drop_path act_layer eps,
           (0 <= mlp_ratio)%Q ->
           exists b, Block.init gen dim num_heads mlp_ratio qkv_bias drop attn_drop
                                drop_path act_layer eps layerth = Ok b))
  /\ ((dim mod num_heads <> 0)%Z ->
        Attention.init gen dim num_heads qkv_bias attn_drop drop layerth
        = Err AssertionError
        /\ (forall mlp_ratio drop_path act_layer eps,
              Block.init gen dim num_heads mlp_ratio qkv_bias drop attn_drop
                         drop_path act_layer eps layerth = Err AssertionError)).
Proof.
  intros Hd Hn Ha Hp. split.
  - intros Hm.
    destruct (Attention_init_ok gen qkv_bias layerth Hd Hn Hm Ha Hp) as [a [Ea _]].
    split; [exists a; exact Ea|].
    intros mlp_ratio drop_path act_layer eps Hr.
    unfold Block.init.
    destruct (@LayerNorm_init_ok _ _ dim eps) as [ln Eln]; [lia|].
    rewrite Eln, Ea. cbn [rbind].
    unfold Block.Mlp_init.
    set (hidden := if (Block.py_int (inject_Z dim * mlp_ratio) =? 0)%Z then dim
                   else Block.py_int (inject_Z dim * mlp_ratio)).
    assert (Hh : (0 <= hidden)%Z).
    { unfold hidden. destruct (_ =? 0)%Z; [lia|].
      unfold Block.py_int. apply Z.quot_pos; [|lia].
      simpl. unfold Qle in Hr. simpl in Hr. nia. }
    destruct (@Linear_init_ok _ gen dim hidden true) as [l1 [E1 _]]; try lia.
    destruct (@Linear_init_ok _ gen hidden dim true) as [l2 [E2 _]]; try lia.
    rewrite E1, E2, (Dropout_init_ok Hp). cbn [rbind].
    eexists. reflexivity.
  - intros Hm.
    assert (Ea : Attention.init gen dim num_heads qkv_bias attn_drop drop layerth
                 = Err AssertionError).
    { apply Attention_init_not_divisible; [lia | exact Hm]. }
    split; [exact Ea|].
    intros mlp_ratio drop_path act_layer eps.
    unfold Block.init.
    destruct (@LayerNorm_init_ok _ _ dim eps) as [ln Eln]; [lia|].
    rewrite Eln, Ea. reflexivity.
Qed.

(** C6: an attention layer whose index is positive fails when it is called
    without [v0]; no run of it returns a value. *)
Theorem attention_requires_v0 {Ty : Carrier} {NUM : Numeric} (a : Attention.t) (l : Z)
    (training : bool) (x : t3) (s : rng) :
  Attention.layerth a = Some l -> (0 < l)%Z ->
  (exists e, Attention.forward a training x None s = Err e)
  /\ (forall v, Attention.residual a (length x) (length (hd [] x))
                  (length (hd [] (hd [] x))) v None = Err AttributeError).
Proof.
  intros Hl Hpos. split.
  - apply (forward_missing_v0 a training x s Hl Hpos).
  - intros v. apply (residual_missing_v0 a _ _ _ v Hl Hpos).
Qed.

Section InitExamples.
#[local] Existing Instance Q_carrier.
#[local] Existing Instance Q_numeric.

Lemma zero_dim_fails_after_the_assertion :
  (0 mod 8 = 0)%Z
  /\ Attention.init toy_gen 0 8 false 0 0 None = Err ZeroDivisionError.
Proof. split; vm_compute; reflexivity. Qed.

(** C7, as stated, fails at [dim = 0], [num_heads = 8]: the assertion holds
    and [head_dim ** -0.5] divides by zero. *)
Lemma divisible_pair_that_fails :
  ~ (forall dim num_heads : Z,
       (dim mod num_heads = 0)%Z ->
       exists a, Attention.init toy_gen dim num_heads false 0 0 None = Ok a).
Proof.
  intros H. destruct (H 0%Z 8%Z eq_refl) as [a Ha].
  destruct zero_dim_fails_after_the_assertion as [_ E].
  rewrite E in Ha. discriminate.
Qed.

Lemma probability_zero : probability 0.
Proof. split; discriminate. Qed.

Lemma construction_checks_divisibility_example :
  (exists a, Attention.init toy_gen 64 8 false 0 0 (Some 0%Z) = Ok a)
  /\ Attention.init toy_gen 65 8 false 0 0 (Some 0%Z) = Err AssertionError.
Proof.
  split.
  - apply (@construction_checks_divisibility Q_carrier Q_numeric toy_gen 64%Z 8%Z false 0%Q 0%Q (Some 0%Z));
      [reflexivity | reflexivity | exact probability_zero | exact probability_zero
      | reflexivity].
  - apply (@construction_checks_divisibility Q_carrier Q_numeric toy_gen 65%Z 8%Z false 0%Q 0%Q (Some 0%Z));
      [reflexivity | reflexivity | exact probability_zero | exact probability_zero
      | discriminate].
Defined.

Lemma attention_requires_v0_example :
  exists a,
    Attention.init toy_gen 2 1 false 0 0 (Some 3%Z) = Ok a
    /\ (exists e, Attention.forward a true [[[1%Q; 2%Q]]] None 0 = Err e)
    /\ Attention.forward a true [[[1%Q; 2%Q]]] None 0 = Err AttributeError.
Proof.
  eexists. split; [vm_compute; reflexivity|]. split.
  - eapply (@attention_requires_v0 Q_carrier Q_numeric _ 3%Z true [[[1%Q; 2%Q]]] 0%nat);
      [reflexivity | reflexivity].
  - vm_compute. reflexivity.
Defined.

End InitExamples.

(** ** Statements about the depth of the stack *)

(** C1 (what the code does): with at least eleven blocks, [forward_features]
    reads the blocks of index 0 to 10 only; whatever stands at index 11 and
    beyond can be replaced, or dropped, without changing its result. *)
Theorem blocks_beyond_index_10_never_run {Ty : Carrier} {NUM : Numeric} (m : VisionTransformer.t)
    (tail : list Block.t) (training : bool) (x : t4) (s : rng) :
  11 <= length (VisionTransformer.blocks m) ->
  VisionTransformer.forward_features
    (with_blocks m (firstn 11 (VisionTransformer.blocks m) ++ tail)) training x s
  = VisionTransformer.forward_features m training x s.
Proof.
  intros Hd. apply forward_features_with_blocks.
  intros i Hi. apply nth_error_firstn_app; assumption.
Qed.

(** C4 (amended): with fewer than eleven blocks [forward_features] fails.
    The loop over the indices 1 to 10 stops at the first index without a
    block, which is the depth, with the index error of the block list; with
    no block at all the failure is at index 0. *)
Theorem forward_features_fails_below_depth_11 {Ty : Carrier} {NUM : Numeric} (m : VisionTransformer.t)
    (training : bool) (x : t4) (s : rng) :
  length (VisionTransformer.blocks m) < 11 ->
  (exists e, VisionTransformer.forward_features m training x s = Err e)
  /\ (forall v0 x1 x' s1 s',
        1 <= length (VisionTransformer.blocks m) ->
        VisionTransformer.for_each (VisionTransformer.loop_body m training v0)
          (seq 1 (length (VisionTransformer.blocks m) - 1)) x1 s1 = Ok (x', s') ->
        VisionTransformer.for_each (VisionTransformer.loop_body m training v0)
          (seq 1 10) x1 s1 = Err (IndexError (length (VisionTransformer.blocks m))))
  /\ (forall x1 s1,
        length (VisionTransformer.blocks m) = 0 ->
        VisionTransformer.embed m training x s = Ok (x1, s1) ->
        VisionTransformer.forward_features m training x s = Err (IndexError 0)).
Proof.
  intros Hd. split; [apply forward_features_short; exact Hd|]. split.
  - intros v0 x1 x' s1 s' H1 Hrun.
    apply (loop_stops_at_depth m training v0 x1 s1 (x' := x') (s' := s')); [lia|].
    exact Hrun.
  - intros x1 s1 H0 He.
    unfold VisionTransformer.forward_features, bind. rewrite He.
    unfold lift, VisionTransformer.get_block.
    destruct (VisionTransformer.blocks m); [reflexivity | discriminate].
Qed.

Section DepthExamples.
#[local] Existing Instance Q_carrier.
#[local] Existing Instance Q_numeric.

(** With twelve blocks the result is that of the first eleven. *)
Lemma blocks_beyond_index_10_never_run_example :
  exists m,
    VisionTransformer.init toy_gen (toy_config 12) = Ok m
    /\ length (VisionTransformer.blocks m) = 12
    /\ VisionTransformer.forward_features
         (with_blocks m (firstn 11 (VisionTransformer.blocks m) ++ [])) false toy_image 0
       = VisionTransformer.forward_features m false toy_image 0
    /\ value (VisionTransformer.forward_features m false toy_image 0)
       = Ok (VisionTransformer.Feat [[0%Q; 0%Q]]).
Proof.
  eexists. split; [vm_compute; reflexivity|]. split; [reflexivity|]. split.
  - apply (@blocks_beyond_index_10_never_run Q_carrier Q_numeric _ [] false toy_image 0%nat).
    vm_compute. repeat constructor.
  - vm_compute. reflexivity.
Defined.

Lemma depth_11_completes :
  exists m,
    VisionTransformer.init toy_gen (toy_config 11) = Ok m
    /\ length (VisionTransformer.blocks m) = 11
    /\ value (VisionTransformer.forward_features m false toy_image 0)
       = Ok (VisionTransformer.Feat [[0%Q; 0%Q]]).
Proof.
  eexists. split; [vm_compute; reflexivity|]. split; vm_compute; reflexivity.
Qed.

(** C4, as stated, fails at depth 11: every index of the loop has a block. *)
Lemma depth_11_is_below_12_and_completes :
  ~ (forall (m : VisionTransformer.t) (training : bool) (x : t4) (s : rng),
       length (VisionTransformer.blocks m) < 12 ->
       exists e, VisionTransformer.forward_features m training x s = Err e).
Proof.
  intros H. destruct depth_11_completes as [m [_ [Hlen Hrun]]].
  destruct (H m false toy_image 0%nat) as [e He]; [rewrite Hlen; lia|].
  rewrite He in Hrun. discriminate.
Qed.

Lemma forward_features_fails_below_depth_11_example :
  exists m,
    VisionTransformer.init toy_gen (toy_config 10) = Ok m
    /\ length (VisionTransformer.blocks m) = 10
    /\ (exists e, VisionTransformer.forward_features m false toy_image 0 = Err e)
    /\ VisionTransformer.forward_features m false toy_image 0 = Err (IndexError 10).
Proof.
  eexists. split; [vm_compute; reflexivity|]. split; [reflexivity|]. split.
  - apply (@forward_features_fails_below_depth_11 Q_carrier Q_numeric _ false toy_image 0%nat).
    vm_compute. repeat constructor.
  - vm_compute. reflexivity.
Defined.

End DepthExamples.

(** ** Runs that do not touch the generator *)

Section Determinism.
Context {Ty : Carrier} {NUM : Numeric}.

(** A computation is [constant] when it is a fixed result whatever the
    generator state, and leaves that state alone. *)
Definition constant {A : Type} (c : M A) : Prop :=
  exists r : result A, forall s, c s = lift r s.

(** A dropout layer draws nothing in eval mode or at rate 0. *)
Definition quiet (training : bool) (p : Q) : Prop :=
  training = false \/ Qeq_bool p 0 = true.

Definition quiet_path (training : bool) (dp : option Q) : Prop :=
  match dp with
  | Some p => quiet training p
  | None => True
  end.

Definition quiet_attention (training : bool) (a : Attention.t) : Prop :=
  quiet training (Attention.attn_drop a) /\ quiet training (Attention.proj_drop a).

Definition quiet_block (training : bool) (b : Block.t) : Prop :=
  quiet_attention training (Block.attn b)
  /\ quiet_path training (Block.drop_path_p b)
  /\ quiet training (mlp_drop (Block.mlp b)).

Definition quiet_model (training : bool) (m : VisionTransformer.t) : Prop :=
  quiet training (VisionTransformer.pos_drop m)
  /\ Forall (quiet_block training) (VisionTransformer.blocks m).

(** Every dropout probability of the model is 0. *)
Definition dropout_free (m : VisionTransformer.t) : Prop := quiet_model true m.

Lemma constant_ret {A : Type} (a : A) : constant (ret a).
Proof. exists (Ok a). reflexivity. Qed.

Lemma constant_lift {A : Type} (r : result A) : constant (lift r).
Proof. exists r. reflexivity. Qed.

Lemma constant_raise {A : Type} (e : error) : constant (@raise _ A e).
Proof. exists (Err e). reflexivity. Qed.

Lemma constant_bind {A B : Type} (c : M A) (k : A -> M B) :
  constant c -> (forall a, constant (k a)) -> constant (bind c k).
Proof.
  intros [r Hr] Hk. destruct r as [a|e].
  - destruct (Hk a) as [r' Hr']. exists r'. intros s.
    unfold bind. rewrite Hr. simpl. apply Hr'.
  - exists (Err e). intros s. unfold bind. rewrite Hr. reflexivity.
Qed.

Lemma constant_value {A : Type} (c : M A) (s1 s2 : rng) :
  constant c -> value (c s1) = value (c s2).
Proof.
  intros [r Hr]. rewrite !Hr. destruct r; reflexivity.
Qed.

Lemma quiet_test (training : bool) (p : Q) :
  quiet training p -> (Qeq_bool p 0 || negb training)%bool = true.
Proof.
  intros [-> | ->]; [apply orb_true_r | reflexivity].
Qed.

Lemma dropout3_constant (training : bool) (p : Q) (x : t3) :
  quiet training p -> constant (dropout3 p training x).
Proof.
  intros Hq. unfold dropout3. rewrite (quiet_test Hq). apply constant_ret.
Qed.

Lemma dropout4_constant (training : bool) (p : Q) (x : t4) :
  quiet training p -> constant (dropout4 p training x).
Proof.
  intros Hq. unfold dropout4. rewrite (quiet_test Hq). apply constant_ret.
Qed.

Lemma drop_path_constant (training : bool) (dp : option Q) (x : t3) :
  quiet_path training dp -> constant (drop_path dp training x).
Proof.
  destruct dp as [p|]; simpl; intros Hq; [|apply constant_ret].
  rewrite (quiet_test Hq). apply constant_ret.
Qed.

Lemma Mlp_forward_constant (training : bool) (m : Mlp) (x : t3) :
  quiet training (mlp_drop m) -> constant (Mlp_forward m training x).
Proof.
  intros Hq. unfold Mlp_forward.
  apply constant_bind; [apply constant_lift | intros y].
  apply constant_bind; [apply dropout3_constant; exact Hq | intros z].
  apply constant_bind; [apply constant_lift | intros w].
  apply dropout3_constant; exact Hq.
Qed.

Lemma Attention_forward_constant (training : bool) (a : Attention.t) (x : t3)
    (v0 : option t4) :
  quiet_attention training a -> constant (Attention.forward a training x v0).
Proof.
  intros [Ha Hp]. unfold Attention.forward.
  destruct (dims3 x) as [[B N] C].
  apply constant_bind; [apply constant_lift | intros y].
  apply constant_bind; [apply constant_lift | intros D].
  apply constant_bind; [apply constant_lift | intros u].
  apply constant_bind; [apply dropout4_constant; exact Ha | intros attn].
  apply constant_bind; [apply constant_lift | intros res].
  apply constant_bind; [apply constant_lift | intros x1].
  apply constant_bind; [apply constant_lift | intros x2].
  apply constant_bind; [apply dropout3_constant; exact Hp | intros x3].
  destruct (Attention.layerth a) as [[|l|l]|]; apply constant_ret.
Qed.

Lemma Block_forward_constant (training : bool) (b : Block.t) (x : t3) (v0 : option t4) :
  quiet_block training b -> constant (Block.forward b training x v0).
Proof.
  intros [Ha [Hd Hm]]. unfold Block.forward.
  apply constant_bind; [apply constant_lift | intros n].
  apply constant_bind.
  { destruct (Block.is_first (Block.layerth b));
      (apply constant_bind; [apply Attention_forward_constant; exact Ha | intros o]);
      destruct o; first [apply constant_ret | apply constant_raise]. }
  intros xv.
  apply constant_bind; [apply drop_path_constant; exact Hd | intros d].
  apply constant_bind; [apply constant_lift | intros n2].
  apply constant_bind; [apply Mlp_forward_constant; exact Hm | intros h].
  apply constant_bind; [apply drop_path_constant; exact Hd | intros d2].
  destruct (Block.is_first (Block.layerth b)); [|apply constant_ret].
  destruct (snd xv); [apply constant_ret | apply constant_raise].
Qed.

End Determinism.

Section ModelDeterminism.
Context {Ty : Carrier} {NUM : Numeric}.

Import VisionTransformer.

Lemma quiet_block_at (training : bool) (m : t) (i : nat) (b : Block.t) :
  quiet_model training m -> nth_error (blocks m) i = Some b ->
  quiet_block training b.
Proof.
  intros [_ Hall] Hi. rewrite Forall_forall in Hall.
  apply Hall. apply nth_error_In with i. exact Hi.
Qed.

Lemma constant_bind_lift {A B : Type} (r : result A) (k : A -> M B) :
  (forall a, r = Ok a -> constant (k a)) -> constant (bind (lift r) k).
Proof.
  intros Hk. destruct r as [a|e].
  - destruct (Hk a eq_refl) as [r' Hr']. exists r'. intros s. apply Hr'.
  - exists (Err e). reflexivity.
Qed.

Lemma loop_body_constant (training : bool) (m : t) (v0 : t4) (x : t3) (i : nat) :
  quiet_model training m -> constant (loop_body m training v0 x i).
Proof.
  intros Hq. unfold loop_body.
  apply constant_bind_lift. intros b Hb.
  assert (Hi : nth_error (blocks m) i = Some b).
  { unfold get_block in Hb. destruct (nth_error (blocks m) i); congruence. }
  apply constant_bind.
  - apply Block_forward_constant. apply (quiet_block_at i Hq Hi).
  - intros o. destruct o; [apply constant_lift | apply constant_raise].
Qed.

Lemma for_each_constant {S : Type} (body : S -> nat -> M S) (l : list nat) :
  (forall x i, constant (body x i)) -> forall x, constant (for_each body l x).
Proof.
  intros Hb. induction l as [|i l IH]; intros x; simpl.
  - apply constant_ret.
  - apply constant_bind; [apply Hb | exact IH].
Qed.

Lemma embed_constant (training : bool) (m : t) (x : t4) :
  quiet_model training m -> constant (embed m training x).
Proof.
  intros [Hp _]. unfold embed.
  apply constant_bind; [apply constant_lift | intros y].
  apply constant_bind; [apply constant_lift | intros z].
  apply dropout3_constant. exact Hp.
Qed.

Lemma forward_features_constant (training : bool) (m : t) (x : t4) :
  quiet_model training m -> constant (forward_features m training x).
Proof.
  intros Hq. unfold forward_features.
  apply constant_bind; [apply embed_constant; exact Hq | intros x1].
  apply constant_bind_lift. intros b0 Hb.
  assert (H0 : nth_error (blocks m) 0 = Some b0).
  { unfold get_block in Hb. destruct (nth_error (blocks m) 0); congruence. }
  apply constant_bind.
  - apply Block_forward_constant. apply (quiet_block_at 0 Hq H0).
  - intros o. destruct o as [xs|x2 v0]; [apply constant_raise|].
    apply constant_bind.
    + apply for_each_constant. intros x' i. apply loop_body_constant. exact Hq.
    + intros x3.
      apply constant_bind; [apply constant_lift | intros x4].
      destruct (distilled m) as [dist|].
      * apply constant_bind; [apply constant_lift | intros c].
        apply constant_bind; [apply constant_lift | intros cd].
        apply constant_ret.
      * apply constant_bind; [apply constant_lift | intros c].
        apply constant_bind; [apply constant_lift | intros f].
        apply constant_ret.
Qed.

Lemma forward_constant (training : bool) (m : t) (x : t4) :
  quiet_model training m -> constant (forward m training x).
Proof.
  intros Hq. unfold forward.
  apply constant_bind; [apply forward_features_constant; exact Hq | intros f].
  destruct (distilled m) as [d|]; destruct f as [c|c cd];
    try apply constant_raise.
  - apply constant_bind; [apply constant_lift | intros y].
    apply constant_bind; [apply constant_lift | intros z].
    destruct training; apply constant_ret.
  - apply constant_bind; [apply constant_lift | intros y].
    apply constant_ret.
Qed.

Lemma quiet_model_eval (m : t) : quiet_model false m.
Proof.
  split; [left; reflexivity|].
  apply Forall_forall. intros b _.
  split; [split; left; reflexivity|].
  split; [destruct (Block.drop_path_p b); simpl; [left; reflexivity | exact I]
         | left; reflexivity].
Qed.

End ModelDeterminism.

(** C9: in eval mode, or with every dropout probability at 0, two runs of
    [forward] on the same input with the same parameters give the same
    result (the same logits, or the same error) whatever the state of the
    random generator at the start of each run. *)
Theorem forward_is_deterministic_without_dropout {Ty : Carrier} {NUM : Numeric}
    (m : VisionTransformer.t) (training : bool) (x : t4) (s1 s2 : rng) :
  training = false \/ dropout_free m ->
  value (VisionTransformer.forward m training x s1)
  = value (VisionTransformer.forward m training x s2).
Proof.
  intros Hq. apply constant_value. apply forward_constant.
  destruct Hq as [-> | Hfree].
  - apply quiet_model_eval.
  - destruct training; [exact Hfree | apply quiet_model_eval].
Qed.

Section DeterminismExamples.
#[local] Existing Instance Q_carrier.
#[local] Existing Instance Q_numeric.

(** In training mode a positive rate does make the result depend on the
    generator: the model of dropout is not constant by construction. *)
Lemma dropout_draws_in_training :
  value (dropout3 (1 # 2) true [[[1%Q]]] 0) = Ok [[[2%Q]]]
  /\ value (dropout3 (1 # 2) true [[[1%Q]]] 1) = Ok [[[0%Q]]].
Proof. split; vm_compute; reflexivity. Qed.

Lemma forward_is_deterministic_without_dropout_example :
  exists m,
    VisionTransformer.init toy_gen (toy_config 11) = Ok m
    /\ dropout_free m
    /\ value (VisionTransformer.forward m true toy_image 0)
       = value (VisionTransformer.forward m true toy_image 7)
    /\ value (VisionTransformer.forward m false toy_image 3)
       = value (VisionTransformer.forward m false toy_image 4)
    /\ value (VisionTransformer.forward m true toy_image 0)
       = Ok (VisionTransformer.Logits [[0%Q; 0%Q]]).
Proof.
  eexists. split; [vm_compute; reflexivity|].
  assert (Hfree : forall m' : VisionTransformer.t,
             VisionTransformer.init toy_gen (toy_config 11) = Ok m' -> dropout_free m').
  { intros m' Hm'. vm_compute in Hm'. injection Hm' as <-.
    unfold dropout_free, quiet_model. simpl.
    repeat (first [ apply Forall_cons | apply Forall_nil | apply conj
                  | (right; reflexivity) | exact I ]). }
  split; [apply Hfree; vm_compute; reflexivity|]. split.
  - apply (@forward_is_deterministic_without_dropout Q_carrier Q_numeric _ true
             toy_image 0%nat 7%nat).
    right. apply Hfree. vm_compute. reflexivity.
  - split.
    + apply (@forward_is_deterministic_without_dropout Q_carrier Q_numeric _ false
               toy_image 3%nat 4%nat).
      left. reflexivity.
    + vm_compute. reflexivity.
Defined.

End DeterminismExamples.

(** ** Shapes of the library layers *)

Section ShapeFacts.
Context {Ty : Carrier} {NUM : Numeric}.

Lemma rmapM_map {A B : Type} (f : A -> result B) (g : A -> B) (l : list A) :
  (forall a, In a l -> f a = Ok (g a)) -> rmapM f l = Ok (map g l).
Proof.
  induction l as [|a l IH]; intros Hf; simpl; [reflexivity|].
  rewrite (Hf a (or_introl eq_refl)), IH; [reflexivity|].
  intros b Hb. apply Hf. right. exact Hb.
Qed.

Lemma length_map2 {A B D : Type} (f : A -> B -> D) (l : list A) (l' : list B) :
  length (map2 f l l') = Nat.min (length l) (length l').
Proof.
  revert l'. induction l as [|a l IH]; intros [|b l']; simpl; try reflexivity.
  rewrite IH. reflexivity.
Qed.

Lemma nth_map2 {A B D : Type} (f : A -> B -> D) (l : list A) (l' : list B)
    (i : nat) (da : A) (db : B) (dd : D) :
  i < length l -> i < length l' ->
  nth i (map2 f l l') dd = f (nth i l da) (nth i l' db).
Proof.
  revert l' i. induction l as [|a l IH]; intros [|b l'] [|i]; simpl; intros H1 H2;
    try lia; [reflexivity|].
  apply IH; lia.
Qed.

Lemma Forall_map2 {A B D : Type} (f : A -> B -> D) (P : D -> Prop)
    (l : list A) (l' : list B) :
  (forall a b, In a l -> In b l' -> P (f a b)) -> Forall P (map2 f l l').
Proof.
  revert l'. induction l as [|a l IH]; intros [|b l'] Hf; simpl; try constructor.
  - apply Hf; left; reflexivity.
  - apply IH. intros a' b' Ha Hb. apply Hf; right; assumption.
Qed.

Lemma shape2_in (a b : nat) (x : t2) (row : t1) :
  shape2 a b x -> In row x -> length row = b.
Proof.
  intros [_ Hall] Hin. rewrite Forall_forall in Hall. apply (Hall row Hin).
Qed.

Lemma shape3_in (a b c : nat) (x : t3) (xb : t2) :
  shape3 a b c x -> In xb x -> shape2 b c xb.
Proof.
  intros [_ Hall] Hin. rewrite Forall_forall in Hall. apply (Hall xb Hin).
Qed.

Lemma shape4_in (a b c d : nat) (x : t4) (xb : t3) :
  shape4 a b c d x -> In xb x -> shape3 b c d xb.
Proof.
  intros [_ Hall] Hin. rewrite Forall_forall in Hall. apply (Hall xb Hin).
Qed.

Lemma shape2_map {A : Type} (f : A -> t1) (l : list A) (b : nat) :
  (forall a, In a l -> length (f a) = b) -> shape2 (length l) b (map f l).
Proof.
  intros Hf. split; [apply length_map|].
  apply Forall_forall. intros row Hrow.
  apply in_map_iff in Hrow. destruct Hrow as [a [<- Ha]]. apply Hf. exact Ha.
Qed.

Lemma shape3_map {A : Type} (f : A -> t2) (l : list A) (b c : nat) :
  (forall a, In a l -> shape2 b c (f a)) -> shape3 (length l) b c (map f l).
Proof.
  intros Hf. split; [apply length_map|].
  apply Forall_forall. intros xb Hxb.
  apply in_map_iff in Hxb. destruct Hxb as [a [<- Ha]]. apply Hf. exact Ha.
Qed.

Lemma shape4_map {A : Type} (f : A -> t3) (l : list A) (b c d : nat) :
  (forall a, In a l -> shape3 b c d (f a)) -> shape4 (length l) b c d (map f l).
Proof.
  intros Hf. split; [apply length_map|].
  apply Forall_forall. intros xb Hxb.
  apply in_map_iff in Hxb. destruct Hxb as [a [<- Ha]]. apply Hf. exact Ha.
Qed.

End ShapeFacts.

Section LayerShapes.
Context {Ty : Carrier} {NUM : Numeric}.

(** A linear layer from [i] to [o] features whose parameters have the sizes
    its constructor gives them. *)
Definition linear_ok (l : Linear) (i o : nat) : Prop :=
  in_features l = i /\ length (lweight l) = o
  /\ match lbias l with Some b => length b = o | None => True end.

(** A head: a linear layer, or the identity (which needs [i = o]). *)
Definition head_maps (h : option Linear) (i o : nat) : Prop :=
  match h with
  | Some l => linear_ok l i o
  | None => i = o
  end.

Definition ln_ok (ln : LayerNorm) (e : nat) : Prop :=
  normalized_shape ln = e /\ length (ln_weight ln) = e /\ length (ln_bias ln) = e.

(** The values of a linear layer and of a layer norm on one row. *)
Definition linear_out (l : Linear) (row : t1) : t1 :=
  match lbias l with
  | Some b => map2 add (map (dot row) (lweight l)) b
  | None => map (dot row) (lweight l)
  end.

Definition layer_norm_out (ln : LayerNorm) (row : t1) : t1 :=
  let n := of_nat (length row) in
  let mean := div (sum row) n in
  let centred := map (fun e => sub e mean) row in
  let var := div (sum (map (fun e => mul e e) centred)) n in
  let denom := sqrt (add var (lit (ln_eps ln))) in
  map2 add (map2 mul (map (fun e => div e denom) centred) (ln_weight ln)) (ln_bias ln).

Lemma linear_row_ok (l : Linear) (i o : nat) (row : t1) :
  linear_ok l i o -> length row = i ->
  linear_row l row = Ok (linear_out l row) /\ length (linear_out l row) = o.
Proof.
  intros [Hi [Ho Hb]] Hrow. unfold linear_row, linear_out.
  rewrite Hrow, Hi, Nat.eqb_refl. split; [reflexivity|].
  destruct (lbias l) as [b|].
  - rewrite length_map2, length_map, Ho, Hb. apply Nat.min_id.
  - rewrite length_map. exact Ho.
Qed.

Lemma linear2_ok (l : Linear) (i o a : nat) (x : t2) :
  linear_ok l i o -> shape2 a i x ->
  linear2 l x = Ok (map (linear_out l) x) /\ shape2 a o (map (linear_out l) x).
Proof.
  intros Hl Hx. split.
  - apply rmapM_map. intros row Hrow.
    eapply linear_row_ok; [exact Hl | eapply shape2_in; eassumption].
  - destruct Hx as [Hlen Hall]. rewrite <- Hlen. apply shape2_map.
    intros row Hrow. rewrite Forall_forall in Hall.
    eapply linear_row_ok; [exact Hl | exact (Hall row Hrow)].
Qed.

Lemma linear3_ok (l : Linear) (i o a b : nat) (x : t3) :
  linear_ok l i o -> shape3 a b i x ->
  linear3 l x = Ok (map (map (linear_out l)) x)
  /\ shape3 a b o (map (map (linear_out l)) x).
Proof.
  intros Hl Hx. split.
  - apply rmapM_map. intros xb Hxb.
    eapply linear2_ok; [exact Hl | eapply shape3_in; eassumption].
  - destruct Hx as [Hlen Hall]. rewrite <- Hlen. apply shape3_map.
    intros xb Hxb. rewrite Forall_forall in Hall.
    eapply linear2_ok; [exact Hl | exact (Hall xb Hxb)].
Qed.

Lemma layer_norm_row_ok (ln : LayerNorm) (e : nat) (row : t1) :
  ln_ok ln e -> length row = e ->
  layer_norm_row ln row = Ok (layer_norm_out ln row)
  /\ length (layer_norm_out ln row) = e.
Proof.
  intros [Hn [Hw Hb]] Hrow. unfold layer_norm_row, layer_norm_out.
  rewrite Hrow, Hn, Nat.eqb_refl. split; [reflexivity|].
  rewrite !length_map2, !length_map, Hrow, Hw, Hb, !Nat.min_id. reflexivity.
Qed.

Lemma layer_norm3_ok (ln : LayerNorm) (a b e : nat) (x : t3) :
  ln_ok ln e -> shape3 a b e x ->
  layer_norm3 ln x = Ok (map (map (layer_norm_out ln)) x)
  /\ shape3 a b e (map (map (layer_norm_out ln)) x).
Proof.
  intros Hl Hx. split.
  - apply rmapM_map. intros xb Hxb.
    apply rmapM_map. intros row Hrow.
    eapply layer_norm_row_ok; [exact Hl | eapply shape2_in; [eapply shape3_in|]; eassumption].
  - destruct Hx as [Hlen Hall]. rewrite <- Hlen. apply shape3_map.
    intros xb Hxb. rewrite Forall_forall in Hall.
    destruct (Hall xb Hxb) as [Hlb Hrows]. rewrite <- Hlb. apply shape2_map.
    intros row Hrow. rewrite Forall_forall in Hrows.
    eapply layer_norm_row_ok; [exact Hl | exact (Hrows row Hrow)].
Qed.

End LayerShapes.

(** ** The class-token rewrite *)

Section Feedback.
Context {Ty : Carrier} {NUM : Numeric}.

Import VisionTransformer.

(** The final norm and the three heads fit an embedding of size [e]. *)
Definition feedback_ready (m : t) (e : nat) : Prop :=
  exists f k, ln_ok (norm m) e /\ head_maps (pre_logits m) e f
              /\ head_maps (head m) f k /\ head_maps (reverse_head m) k e.

(** [x] with the first token of every sample replaced by the rows of [r]. *)
Definition rewrite_cls (x : t3) (r : t2) : t3 :=
  map2 (fun (tokens : t2) (cls : t1) => cls :: tl tokens) x r.

Lemma select0_ok (a n e : nat) (x : t3) :
  shape3 a (S n) e x ->
  select 0 x = Ok (map (hd []) x) /\ shape2 a e (map (hd []) x).
Proof.
  intros Hx. split.
  - apply rmapM_map. intros xb Hxb.
    destruct (shape3_in xb Hx Hxb) as [Hlen _].
    destruct xb; [discriminate | reflexivity].
  - destruct Hx as [Hlen Hall]. rewrite <- Hlen. apply shape2_map.
    intros xb Hxb. rewrite Forall_forall in Hall.
    destruct (Hall xb Hxb) as [Hl Hrows].
    destruct xb as [|row rest]; [discriminate|]. simpl.
    inversion Hrows; assumption.
Qed.

Lemma apply_head_ok (h : option Linear) (i o a : nat) (x : t2) :
  head_maps h i o -> shape2 a i x ->
  exists y, apply_head h x = Ok y /\ shape2 a o y.
Proof.
  destruct h as [l|]; simpl; intros Hh Hx.
  - destruct (@linear2_ok _ _ l i o a x Hh Hx) as [E S]. eauto.
  - subst o. eauto.
Qed.

Lemma apply_pre_logits_ok (pl : option Linear) (i o a : nat) (x : t2) :
  head_maps pl i o -> shape2 a i x ->
  exists y, apply_pre_logits pl x = Ok y /\ shape2 a o y.
Proof.
  destruct pl as [l|]; simpl; intros Hh Hx.
  - destruct (@linear2_ok _ _ l i o a x Hh Hx) as [E [Sl Sr]].
    rewrite E. simpl. eexists. split; [reflexivity|].
    split; [rewrite length_map; exact Sl|].
    apply Forall_forall. intros row Hrow.
    apply in_map_iff in Hrow. destruct Hrow as [row' [<- Hrow']].
    unfold shape1. rewrite length_map.
    rewrite Forall_forall in Sr. apply (Sr row' Hrow').
  - subst o. eauto.
Qed.

Lemma set_cls_ok (a n e : nat) (x : t3) (r : t2) :
  shape3 a (S n) e x -> shape2 a e r ->
  set_cls x r = Ok (rewrite_cls x r).
Proof.
  intros [Hlx Hx] [Hlr Hr]. unfold set_cls, rewrite_cls.
  rewrite Hlx, Hlr, Nat.eqb_refl.
  clear Hlx Hlr. revert r Hr.
  induction Hx as [|xb x Hxb _ IH]; intros r Hr.
  - destruct r; reflexivity.
  - destruct r as [|cls r]; [reflexivity|].
    inversion Hr as [|? ? Hcls Hr']; subst.
    simpl. destruct Hxb as [Hn Hrows].
    destruct xb as [|row rest]; [discriminate|]. simpl.
    inversion Hrows as [|? ? Hrow _]; subst.
    unfold shape1 in Hrow, Hcls. rewrite Hrow, Hcls, Nat.eqb_refl.
    rewrite (IH r Hr'). reflexivity.
Qed.

Lemma rewrite_cls_shape (a n e : nat) (x : t3) (r : t2) :
  shape3 a (S n) e x -> shape2 a e r -> shape3 a (S n) e (rewrite_cls x r).
Proof.
  intros [Hlx Hx] [Hlr Hr]. unfold rewrite_cls. split.
  - rewrite length_map2, Hlx, Hlr. apply Nat.min_id.
  - apply Forall_map2. intros xb cls Hxb Hcls.
    rewrite Forall_forall in Hx, Hr.
    destruct (Hx xb Hxb) as [Hn Hrows]. specialize (Hr cls Hcls).
    destruct xb as [|row rest]; [discriminate|]. simpl in *.
    split; [simpl; lia|].
    inversion Hrows; subst. constructor; assumption.
Qed.

Lemma rewrite_cls_tokens (x : t3) (r : t2) (b j : nat) :
  b < length x -> b < length r ->
  nth 0 (nth b (rewrite_cls x r) []) [] = nth b r []
  /\ nth (S j) (nth b (rewrite_cls x r) []) [] = nth (S j) (nth b x []) [].
Proof.
  unfold rewrite_cls. revert r b.
  induction x as [|xb x IH]; intros [|cls r] [|b] Hx Hr; simpl in *; try lia.
  - split; [reflexivity|]. destruct xb; [destruct j|]; reflexivity.
  - apply IH; lia.
Qed.

Lemma feedback_ok (m : t) (a n e : nat) (x : t3) :
  feedback_ready m e -> shape3 a (S n) e x ->
  exists c p mid r,
    layer_norm3 (norm m) x = Ok (map (map (layer_norm_out (norm m))) x)
    /\ select 0 (map (map (layer_norm_out (norm m))) x) = Ok c
    /\ apply_pre_logits (pre_logits m) c = Ok p
    /\ apply_head (head m) p = Ok mid
    /\ apply_head (reverse_head m) mid = Ok r
    /\ shape2 a e r
    /\ feedback m x = Ok (rewrite_cls x r).
Proof.
  intros [f [k [Hln [Hpl [Hh Hrh]]]]] Hx.
  destruct (layer_norm3_ok Hln Hx) as [En Sn].
  destruct (select0_ok Sn) as [Ec Sc].
  destruct (@apply_pre_logits_ok _ _ _ _ _ Hpl Sc) as [p [Ep Sp]].
  destruct (@apply_head_ok _ _ _ _ _ Hh Sp) as [mid [Em Sm]].
  destruct (@apply_head_ok _ _ _ _ _ Hrh Sm) as [r [Er Sr]].
  exists (map (hd []) (map (map (layer_norm_out (norm m))) x)), p, mid, r.
  split; [exact En|]. split; [exact Ec|]. split; [exact Ep|].
  split; [exact Em|]. split; [exact Er|]. split; [exact Sr|].
  unfold feedback. rewrite En. cbn [rbind]. rewrite Ec. cbn [rbind].
  rewrite Ep. cbn [rbind]. rewrite Em. cbn [rbind]. rewrite Er. cbn [rbind].
  apply (set_cls_ok Hx Sr).
Qed.

End Feedback.

(** C2: for an index [i] from 1 to [min (depth - 1) 10], once block [i] has
    returned its sequence [xb], the loop body computes the provisional
    logits [mid = head (pre_logits (norm xb)[:, 0])] and continues with [xb]
    whose token 0 is replaced, sample by sample, by the rows of
    [reverse_head mid]; every other token of every sample is the one block
    [i] returned, and this rewritten sequence is what the remaining
    iterations start from. *)
Theorem feedback_rewrites_class_token_only {Ty : Carrier} {NUM : Numeric}
    (m : VisionTransformer.t) (training : bool) (v0 : t4) (x xb : t3) (i : nat)
    (b : Block.t) (s s' : rng) (B N E : nat) :
  1 <= i <= Nat.min (length (VisionTransformer.blocks m) - 1) 10 ->
  nth_error (VisionTransformer.blocks m) i = Some b ->
  Block.forward b training x (Some v0) s = Ok (Block.Single xb, s') ->
  shape3 B (S N) E xb ->
  feedback_ready m E ->
  In i (seq 1 10)
  /\ exists n c p mid r,
       layer_norm3 (VisionTransformer.norm m) xb = Ok n
       /\ VisionTransformer.select 0 n = Ok c
       /\ VisionTransformer.apply_pre_logits (VisionTransformer.pre_logits m) c = Ok p
       /\ VisionTransformer.apply_head (VisionTransformer.head m) p = Ok mid
       /\ VisionTransformer.apply_head (VisionTransformer.reverse_head m) mid = Ok r
       /\ VisionTransformer.loop_body m training v0 x i s = Ok (rewrite_cls xb r, s')
       /\ shape3 B (S N) E (rewrite_cls xb r)
       /\ (forall bi, bi < B -> nth 0 (nth bi (rewrite_cls xb r) []) [] = nth bi r [])
       /\ (forall bi j, 1 <= j ->
             nth j (nth bi (rewrite_cls xb r) []) [] = nth j (nth bi xb []) [])
       /\ (forall rest,
             VisionTransformer.for_each (VisionTransformer.loop_body m training v0)
               (i :: rest) x s
             = VisionTransformer.for_each (VisionTransformer.loop_body m training v0)
                 rest (rewrite_cls xb r) s').
Proof.
  intros Hi Hb Hrun Hxb Hready.
  split; [apply in_seq; lia|].
  destruct (feedback_ok Hready Hxb) as [c [p [mid [r [En [Ec [Ep [Em [Er [Sr Ef]]]]]]]]]].
  exists (map (map (layer_norm_out (VisionTransformer.norm m))) xb), c, p, mid, r.
  split; [exact En|]. split; [exact Ec|]. split; [exact Ep|].
  split; [exact Em|]. split; [exact Er|].
  assert (Hbody : VisionTransformer.loop_body m training v0 x i s
                  = Ok (rewrite_cls xb r, s')).
  { unfold VisionTransformer.loop_body, VisionTransformer.get_block, bind.
    rewrite Hb. unfold lift at 1. rewrite Hrun.
    unfold lift. rewrite Ef. reflexivity. }
  split; [exact Hbody|].
  split; [apply (rewrite_cls_shape Hxb Sr)|].
  destruct Hxb as [Hlx _]. destruct Sr as [Hlr _].
  split; [|split].
  - intros bi Hbi. apply (rewrite_cls_tokens xb r 0); lia.
  - intros bi [|j] Hj; [lia|].
    destruct (Nat.lt_ge_cases bi B) as [Hlt|Hge].
    + apply (rewrite_cls_tokens xb r j); lia.
    + assert (H1 : nth bi (rewrite_cls xb r) [] = []).
      { apply nth_overflow. unfold rewrite_cls. rewrite length_map2. lia. }
      assert (H2 : nth bi xb [] = []) by (apply nth_overflow; lia).
      rewrite H1, H2. reflexivity.
  - intros rest. simpl. unfold bind. rewrite Hbody. reflexivity.
Qed.

Section FeedbackExamples.
#[local] Existing Instance Q_carrier.
#[local] Existing Instance Q_numeric.

(** Block 1 of a small model returns the tokens (13/5, 4) and (23/5, 6);
    the loop body continues with (1, 1) and (23/5, 6). *)
Lemma feedback_rewrites_class_token_only_example :
  exists m b xb,
    VisionTransformer.init sparse_gen (small_config 11) = Ok m
    /\ nth_error (VisionTransformer.blocks m) 1 = Some b
    /\ Block.forward b false toy_tokens (Some toy_v0) 0 = Ok (Block.Single xb, 0)
    /\ xb = [[[(13 # 5)%Q; 4%Q]; [(23 # 5)%Q; 6%Q]]]
    /\ VisionTransformer.loop_body m false toy_v0 toy_tokens 1 0
       = Ok ([[[1%Q; 1%Q]; [(23 # 5)%Q; 6%Q]]], 0)
    /\ exists r,
         VisionTransformer.loop_body m false toy_v0 toy_tokens 1 0
         = Ok (rewrite_cls xb r, 0)
         /\ (forall bi j, 1 <= j ->
               nth j (nth bi (rewrite_cls xb r) []) [] = nth j (nth bi xb []) []).
Proof.
  eexists. eexists. eexists.
  split; [vm_compute; reflexivity|].
  split; [vm_compute; reflexivity|].
  split; [vm_compute; reflexivity|].
  split; [reflexivity|].
  split; [vm_compute; reflexivity|].
  refine (match @feedback_rewrites_class_token_only Q_carrier Q_numeric
                  _ false toy_v0 toy_tokens _ 1 _ 0%nat 0%nat 1 1 2 _ _ _ _ _
          with
          | conj _ (ex_intro _ n (ex_intro _ c (ex_intro _ p (ex_intro _ mid
              (ex_intro _ r (conj _ (conj _ (conj _ (conj _ (conj _
                 (conj Hbody (conj _ (conj _ (conj Hrest _)))))))))))))) =>
              ex_intro _ r (conj Hbody Hrest)
          end).
  - vm_compute. repeat constructor.
  - vm_compute. reflexivity.
  - vm_compute. reflexivity.
  - vm_compute. repeat constructor.
  - exists 2, 2. vm_compute. repeat constructor.
Defined.

End FeedbackExamples.

(** ** Reshaping: flattening, chunking and transposition *)

Unset Implicit Arguments.

(** Tensor types are abbreviations of nested lists: unfolding them makes
    lengths of the same list syntactically equal. *)
Ltac norm_types := cbv [t1 t2 t3 t4] in *.

Section Reshape.
Context {Ty : Carrier} {NUM : Numeric}.

Lemma map_nth_seq {A : Type} (l : list A) (d : A) :
  map (fun i => nth i l d) (seq 0 (length l)) = l.
Proof.
  induction l as [|a l IH]; simpl; [reflexivity|].
  f_equal. rewrite <- seq_shift, map_map. exact IH.
Qed.

Lemma firstn_app_exact {A : Type} (l rest : list A) (n : nat) :
  length l = n -> firstn n (l ++ rest) = l.
Proof.
  intros <-. rewrite firstn_app, Nat.sub_diag, firstn_all. simpl.
  apply app_nil_r.
Qed.

Lemma skipn_app_exact {A : Type} (l rest : list A) (n : nat) :
  length l = n -> skipn n (l ++ rest) = rest.
Proof.
  intros <-. rewrite skipn_app, Nat.sub_diag, skipn_all. reflexivity.
Qed.

Lemma chunks_concat {A : Type} (ls : list (list A)) (n : nat) :
  Forall (fun l => length l = n) ls -> chunks (length ls) n (concat ls) = ls.
Proof.
  induction 1 as [|l ls Hl _ IH]; simpl; [reflexivity|].
  rewrite (firstn_app_exact l _ n Hl), (skipn_app_exact l _ n Hl), IH. reflexivity.
Qed.

Lemma length_concat_uniform {A : Type} (ls : list (list A)) (n : nat) :
  Forall (fun l => length l = n) ls -> length (concat ls) = length ls * n.
Proof.
  induction 1 as [|l ls Hl _ IH]; simpl; [reflexivity|].
  rewrite length_app, Hl, IH. reflexivity.
Qed.

Lemma length_flat2 (a b : nat) (x : t2) : shape2 a b x -> length (flat2 x) = a * b.
Proof.
  intros [Hl Hall]. unfold flat2. norm_types.
  rewrite (length_concat_uniform x b Hall), Hl. reflexivity.
Qed.

Lemma length_flat3 (a b c : nat) (x : t3) :
  shape3 a b c x -> length (flat3 x) = a * b * c.
Proof.
  intros [Hl Hall]. unfold flat3. norm_types.
  rewrite length_concat_uniform with (n := b * c).
  - rewrite length_map, Hl. lia.
  - apply Forall_forall. intros l Hin. apply in_map_iff in Hin.
    destruct Hin as [xb [<- Hxb]]. rewrite Forall_forall in Hall.
    apply length_flat2. apply (Hall xb Hxb).
Qed.

Lemma length_flat4 (a b c d : nat) (x : t4) :
  shape4 a b c d x -> length (flat4 x) = a * b * c * d.
Proof.
  intros [Hl Hall]. unfold flat4. norm_types.
  rewrite length_concat_uniform with (n := b * c * d).
  - rewrite length_map, Hl. lia.
  - apply Forall_forall. intros l Hin. apply in_map_iff in Hin.
    destruct Hin as [xb [<- Hxb]]. rewrite Forall_forall in Hall.
    apply length_flat3. apply (Hall xb Hxb).
Qed.

Lemma unflat2_flat2 (a b : nat) (x : t2) : shape2 a b x -> unflat2 a b (flat2 x) = x.
Proof.
  intros [Hl Hall]. unfold unflat2, flat2. norm_types. rewrite <- Hl.
  apply chunks_concat. exact Hall.
Qed.

Lemma unflat3_flat3 (a b c : nat) (x : t3) :
  shape3 a b c x -> unflat3 a b c (flat3 x) = x.
Proof.
  intros [Hl Hall]. unfold unflat3, flat3.
  rewrite <- Hl, <- (length_map flat2 x). norm_types.
  rewrite chunks_concat with (n := b * c).
  - rewrite map_map. rewrite <- (map_id x) at 2. apply map_ext_in.
    intros xb Hxb. rewrite Forall_forall in Hall.
    apply unflat2_flat2. apply (Hall xb Hxb).
  - apply Forall_forall. intros l Hin. apply in_map_iff in Hin.
    destruct Hin as [xb [<- Hxb]]. rewrite Forall_forall in Hall.
    apply length_flat2. apply (Hall xb Hxb).
Qed.

Lemma unflat4_flat4 (a b c d : nat) (x : t4) :
  shape4 a b c d x -> unflat4 a b c d (flat4 x) = x.
Proof.
  intros [Hl Hall]. unfold unflat4, flat4.
  rewrite <- Hl, <- (length_map flat3 x). norm_types.
  rewrite chunks_concat with (n := b * c * d).
  - rewrite map_map. rewrite <- (map_id x) at 2. apply map_ext_in.
    intros xb Hxb. rewrite Forall_forall in Hall.
    apply unflat3_flat3. apply (Hall xb Hxb).
  - apply Forall_forall. intros l Hin. apply in_map_iff in Hin.
    destruct Hin as [xb [<- Hxb]]. rewrite Forall_forall in Hall.
    apply length_flat3. apply (Hall xb Hxb).
Qed.

End Reshape.

Section Transposition.
Context {Ty : Carrier} {NUM : Numeric}.

Lemma nth_map_lt {A B : Type} (f : A -> B) (l : list A) (i : nat) (d : A) (d' : B) :
  i < length l -> nth i (map f l) d' = f (nth i l d).
Proof.
  intros Hi. rewrite (nth_indep (map f l) d' (f d)) by (rewrite length_map; exact Hi).
  apply map_nth.
Qed.

Lemma map_seq_nth {A B : Type} (f : A -> B) (l : list A) (d : A) :
  map (fun i => f (nth i l d)) (seq 0 (length l)) = map f l.
Proof.
  rewrite <- (map_map (fun i => nth i l d) f). rewrite map_nth_seq. reflexivity.
Qed.

Lemma map2_map_r {A B B' D : Type} (f : A -> B -> D) (g : B' -> B)
    (l : list A) (l' : list B') :
  map2 f l (map g l') = map2 (fun a b => f a (g b)) l l'.
Proof.
  revert l'. induction l as [|a l IH]; intros [|b l']; simpl; try reflexivity.
  rewrite IH. reflexivity.
Qed.

Lemma map2_ext_in {A B D : Type} (f g : A -> B -> D) (l : list A) (l' : list B) :
  (forall a b, In a l -> In b l' -> f a b = g a b) -> map2 f l l' = map2 g l l'.
Proof.
  revert l'. induction l as [|a l IH]; intros [|b l'] H; simpl; try reflexivity.
  rewrite H by (left; reflexivity). f_equal.
  apply IH. intros a' b' Ha Hb. apply H; right; assumption.
Qed.

Lemma map_map2 {A B D E : Type} (g : D -> E) (f : A -> B -> D) (l : list A) (l' : list B) :
  map g (map2 f l l') = map2 (fun a b => g (f a b)) l l'.
Proof.
  revert l'. induction l as [|a l IH]; intros [|b l']; simpl; try reflexivity.
  rewrite IH. reflexivity.
Qed.

Lemma map2_map_both {A A' B B' D : Type} (f : A -> B -> D) (g : A' -> A) (h : B' -> B)
    (l : list A') (l' : list B') :
  map2 f (map g l) (map h l') = map2 (fun a b => f (g a) (h b)) l l'.
Proof.
  revert l'. induction l as [|a l IH]; intros [|b l']; simpl; try reflexivity.
  rewrite IH. reflexivity.
Qed.

Lemma shape2_nth (n d : nat) (m : t2) (i : nat) :
  shape2 n d m -> i < n -> length (nth i m []) = d.
Proof.
  intros [Hl Hall] Hi. rewrite Forall_forall in Hall.
  apply Hall. apply nth_In. norm_types. lia.
Qed.

Lemma transpose_shape (cols : nat) (m : t2) :
  shape2 cols (length m) (transpose cols m).
Proof.
  unfold transpose. split.
  - rewrite length_map, length_seq. reflexivity.
  - apply Forall_forall. intros row Hrow. apply in_map_iff in Hrow.
    destruct Hrow as [j [<- _]]. unfold shape1. apply length_map.
Qed.

Lemma column_of_transpose (n d : nat) (m : t2) (i : nat) :
  shape2 n d m -> i < n ->
  map (fun column => nth i column zero) (transpose d m) = nth i m [].
Proof.
  intros Hm Hi. unfold transpose. rewrite map_map.
  rewrite (map_ext_in _ (fun j => nth j (nth i m []) zero)).
  - rewrite <- (shape2_nth n d m i Hm Hi) at 1. apply map_nth_seq.
  - intros j _. apply (nth_map_lt (fun row : t1 => nth j row zero) m i [] zero).
    destruct Hm as [Hl _]. norm_types. lia.
Qed.

Lemma transpose_transpose (n d : nat) (m : t2) :
  shape2 n d m -> transpose n (transpose d m) = m.
Proof.
  intros Hm. unfold transpose at 1.
  rewrite (map_ext_in _ (fun i => nth i m [])).
  - destruct Hm as [<- _]. apply map_nth_seq.
  - intros i Hi. apply in_seq in Hi.
    apply (column_of_transpose n d m i Hm). lia.
Qed.

Lemma dims3_shape (a b c : nat) (x : t3) :
  shape3 a b c x -> 0 < a -> 0 < b -> dims3 x = (a, b, c).
Proof.
  intros [Hl Hall] Ha Hb. unfold dims3.
  destruct x as [|xb x]; [simpl in Hl; lia|].
  inversion Hall as [|? ? [Hlb Hrows] _]; subst. simpl.
  destruct xb as [|row xb]; [simpl in Hb; lia|].
  inversion Hrows as [|? ? Hrow _]; subst. simpl.
  unfold shape1 in Hrow. rewrite Hrow. reflexivity.
Qed.

Lemma permute021_shape (a b c : nat) (x : t3) :
  shape3 a b c x -> 0 < a -> 0 < b ->
  permute021 x = map (transpose c) x /\ shape3 a c b (map (transpose c) x).
Proof.
  intros Hx Ha Hb. split.
  - unfold permute021. rewrite (dims3_shape a b c x Hx Ha Hb). reflexivity.
  - destruct Hx as [Hl Hall]. rewrite <- Hl. apply shape3_map.
    intros xb Hxb. rewrite Forall_forall in Hall.
    destruct (Hall xb Hxb) as [Hlb _]. rewrite <- Hlb. apply transpose_shape.
Qed.

End Transposition.

(** ** The 1x1 convolution as a map on the channel axis *)

Section ChannelMap.
Context {Ty : Carrier} {NUM : Numeric}.

(** A convolution over [d] channels as [Attention.__init__] creates it. *)
Definition conv_ok (g : Conv1d) (d : nat) : Prop :=
  shape3 d d 1 (cweight g)
  /\ (exists b, cbias g = Some b /\ length b = d)
  /\ cstride g = 1 /\ cpadding g = 0 /\ cdilation g = 1 /\ cgroups g = 1.

(** The value of the convolution on the channel vector [u] of one position:
    entry [o] is [sum_c W[o][c][0] * u[c]] plus the bias [b[o]]. *)
Definition conv_token (g : Conv1d) (u : t1) : t1 :=
  map (fun o => with_bias (cbias g) o
                  (sum (map2 (fun taps e => dot taps [e]) (nth o (cweight g) []) u)))
      (seq 0 (length (cweight g))).

Lemma length_conv_token (g : Conv1d) (u : t1) :
  length (conv_token g u) = length (cweight g).
Proof. unfold conv_token. rewrite length_map, length_seq. reflexivity. Qed.

Lemma window_single (t : nat) (xc : t1) : window 1 1 1 t xc = [nth t xc zero].
Proof.
  unfold window. simpl. rewrite Nat.mul_1_r, Nat.add_0_r. reflexivity.
Qed.

Lemma pad_zero (row : t1) : pad 0 row = row.
Proof. unfold pad. simpl. apply app_nil_r. Qed.

Lemma combine_seq_nth {A : Type} (l : list A) (d : A) (start : nat) :
  combine (seq start (length l)) l
  = map (fun i => (start + i, nth i l d)) (seq 0 (length l)).
Proof.
  revert start. induction l as [|a l IH]; intros start; simpl; [reflexivity|].
  rewrite Nat.add_0_r. f_equal.
  rewrite IH, <- seq_shift, map_map.
  apply map_ext. intros i. rewrite Nat.add_succ_r. reflexivity.
Qed.

Lemma conv_point_on_transpose (n d : nat) (wo : t2) (m : t2) (t : nat) :
  shape2 n d m -> t < n ->
  conv_point wo (transpose d m) 1 1 1 t
  = sum (map2 (fun taps e => dot taps [e]) wo (nth t m [])).
Proof.
  intros Hm Ht. unfold conv_point. f_equal.
  rewrite <- (column_of_transpose n d m t Hm Ht).
  rewrite map2_map_r. apply map2_ext_in.
  intros taps xc _ _. rewrite window_single. reflexivity.
Qed.

Lemma conv1d_sample_on_transpose (g : Conv1d) (n d : nat) (m : t2) :
  length (cweight g) = d -> kernel_size (cweight g) = 1 -> 0 < d ->
  shape2 n d m ->
  conv1d_sample (cweight g) (cbias g) 1 0 1 1 n (transpose d m)
  = transpose d (map (conv_token g) m).
Proof.
  intros Hw Hk Hd Hm. unfold conv1d_sample.
  rewrite Hk, Hw, !Nat.div_1_r.
  destruct (transpose_shape d m) as [Hlt _]. norm_types. rewrite Hlt.
  rewrite (map_ext (pad 0) (fun row => row) pad_zero), map_id.
  assert (Hc : combine (seq 0 d) (cweight g)
               = map (fun i => (0 + i, nth i (cweight g) [])) (seq 0 d)).
  { rewrite <- Hw. apply combine_seq_nth. }
  norm_types. rewrite Hc. clear Hc.
  unfold transpose at 2. rewrite map_map.
  apply map_ext_in. intros o Ho. apply in_seq in Ho. simpl fst. simpl snd.
  rewrite Nat.div_small by lia. rewrite Nat.mul_0_l. simpl skipn.
  rewrite firstn_all2 by (rewrite Hlt; lia).
  destruct Hm as [Hlm Hall].
  rewrite <- Hlm, (map_map (conv_token g)).
  transitivity (map (fun i => nth o (conv_token g (nth i m [])) zero)
                    (seq 0 (length m)));
    [|apply (map_seq_nth (fun row => nth o (conv_token g row) zero) m [])].
  apply map_ext_in. intros t Ht. apply in_seq in Ht.
  rewrite (conv_point_on_transpose (length m) d _ m t);
    [|split; [reflexivity|exact Hall]|lia].
  f_equal.
  unfold conv_token.
  rewrite (nth_map_lt _ (seq 0 (length (cweight g))) o 0 zero)
    by (rewrite length_seq; norm_types; lia).
  rewrite seq_nth by (norm_types; lia). reflexivity.
Qed.

End ChannelMap.

Section ChannelConv.
Context {Ty : Carrier} {NUM : Numeric}.

Lemma conv_ok_kernel1 (g : Conv1d) (d : nat) : conv_ok g d -> kernel1 (cweight g).
Proof.
  intros [[_ Hw] _]. unfold kernel1.
  apply Forall_forall. intros wo Hwo. rewrite Forall_forall in Hw.
  destruct (Hw wo Hwo) as [_ Hrows]. exact Hrows.
Qed.

Lemma conv1d_on_channels (g : Conv1d) (d a n : nat) (x : t3) :
  conv_ok g d -> shape3 a n d x -> 0 < a -> 0 < n -> 0 < d ->
  Conv1d_forward g (map (transpose d) x)
  = Ok (map (transpose d) (map (map (conv_token g)) x)).
Proof.
  intros Hg Hx Ha Hn Hd.
  destruct Hg as [Hw [[b [Hb Hlb]] [Hs [Hp [Hdil Hgr]]]]].
  destruct (permute021_shape a n d x Hx Ha Hn) as [_ Hin].
  pose proof (dims3_shape a d n _ Hin Ha Hd) as Din.
  pose proof (dims3_shape d d 1 _ Hw Hd Hd) as Dw.
  unfold dims3 in Din, Dw.
  injection Din as _ Hcin Hlen. injection Dw as Hlw Hlw0 Hk.
  unfold Conv1d_forward, conv1d.
  rewrite Hs, Hp, Hdil, Hgr, Hb.
  unfold kernel_size. norm_types. rewrite Hcin, Hlen, Hk, Hlw, Hlw0, Hlb.
  rewrite Nat.mod_1_r, Nat.mul_1_l, !Nat.eqb_refl.
  replace (1 * (1 - 1) + 1 <=? n + 2 * 0) with true
    by (symmetry; apply Nat.leb_le; simpl; lia).
  replace ((n + 2 * 0 - (1 * (1 - 1) + 1)) / 1 + 1) with n
    by (rewrite Nat.div_1_r; simpl; lia).
  simpl. f_equal. rewrite !map_map.
  apply map_ext_in. intros xb Hxb.
  rewrite <- Hb.
  destruct Hx as [_ Hall]. rewrite Forall_forall in Hall.
  apply (conv1d_sample_on_transpose g n d xb Hlw Hk Hd (Hall xb Hxb)).
Qed.

Lemma adjoint_conv_on_channels (g : Conv1d) (d a n : nat) (x : t3) :
  conv_ok g d -> shape3 a n d x -> 0 < a -> 0 < n -> 0 < d ->
  Attention.adjoint_conv g (map (transpose d) x)
  = Ok (map (transpose d) (map (map (conv_token g)) x)).
Proof.
  intros Hg Hx Ha Hn Hd.
  rewrite adjoint_conv_kernel1.
  - apply (conv1d_on_channels g d a n x Hg Hx Ha Hn Hd).
  - apply (conv_ok_kernel1 g d Hg).
  - destruct Hg as [_ [_ [_ [_ [_ Hgr]]]]]. exact Hgr.
Qed.

Lemma conv_token_shape (g : Conv1d) (d a n : nat) (x : t3) :
  length (cweight g) = d -> shape3 a n d x ->
  shape3 a n d (map (map (conv_token g)) x).
Proof.
  intros Hw [Hl Hall]. rewrite <- Hl. apply shape3_map.
  intros xb Hxb. rewrite Forall_forall in Hall.
  destruct (Hall xb Hxb) as [Hlb _]. rewrite <- Hlb. apply shape2_map.
  intros row _. rewrite length_conv_token. exact Hw.
Qed.

End ChannelConv.

Section HeadsAsBatch.
Context {Ty : Carrier} {NUM : Numeric}.

Lemma flat3_app (x y : t3) : flat3 (x ++ y) = flat3 x ++ flat3 y.
Proof. unfold flat3. rewrite map_app, concat_app. reflexivity. Qed.

Lemma flat4_concat (v : t4) : flat4 v = flat3 (concat v).
Proof.
  unfold flat4. induction v as [|vb v IH]; simpl; [reflexivity|].
  rewrite flat3_app, IH. reflexivity.
Qed.

Lemma concat_shape (a b c d : nat) (v : t4) :
  shape4 a b c d v -> shape3 (a * b) c d (concat v).
Proof.
  intros [Hl Hall]. split.
  - norm_types. rewrite length_concat_uniform with (n := b).
    + rewrite Hl. reflexivity.
    + apply Forall_forall. intros vb Hvb. rewrite Forall_forall in Hall.
      destruct (Hall vb Hvb) as [Hlb _]. exact Hlb.
  - apply Forall_forall. intros m Hm. apply in_concat in Hm.
    destruct Hm as [vb [Hvb Hin]]. rewrite Forall_forall in Hall.
    destruct (Hall vb Hvb) as [_ Hrows]. rewrite Forall_forall in Hrows.
    apply (Hrows m Hin).
Qed.

Lemma reshape3_heads (a b c d : nat) (v : t4) :
  shape4 a b c d v -> reshape3 (a * b) c d (flat4 v) = Ok (concat v).
Proof.
  intros Hv. unfold reshape3.
  rewrite (length_flat4 a b c d v Hv), Nat.eqb_refl.
  rewrite flat4_concat, (unflat3_flat3 (a * b) c d _ (concat_shape a b c d v Hv)).
  reflexivity.
Qed.

Lemma reshape4_heads (a b c d : nat) (v : t4) :
  shape4 a b c d v -> reshape4 a b c d (flat3 (concat v)) = Ok v.
Proof.
  intros Hv. unfold reshape4. rewrite <- flat4_concat.
  rewrite (length_flat4 a b c d v Hv), Nat.eqb_refl.
  rewrite (unflat4_flat4 a b c d v Hv). reflexivity.
Qed.

Lemma map2_app {A B D : Type} (f : A -> B -> D) (l1 l2 : list A) (k1 k2 : list B) :
  length l1 = length k1 ->
  map2 f (l1 ++ l2) (k1 ++ k2) = map2 f l1 k1 ++ map2 f l2 k2.
Proof.
  revert k1. induction l1 as [|a l1 IH]; intros [|b k1] H; simpl in *;
    try discriminate; [reflexivity|].
  rewrite IH by lia. reflexivity.
Qed.

Lemma concat_map2 {A B D : Type} (f : A -> B -> D) (n : nat)
    (ls : list (list A)) (ks : list (list B)) :
  Forall (fun l => length l = n) ls -> Forall (fun k => length k = n) ks ->
  concat (map2 (map2 f) ls ks) = map2 f (concat ls) (concat ks).
Proof.
  intros Hls. revert ks. induction Hls as [|l ls Hl _ IH]; intros ks Hks.
  - destruct ks; reflexivity.
  - destruct ks as [|k ks]; simpl.
    + destruct (l ++ concat ls); reflexivity.
    + inversion Hks as [|? ? Hk Hks']; subst.
      rewrite map2_app by lia. rewrite (IH ks Hks'). reflexivity.
Qed.

Lemma map2_diag {A D : Type} (f : A -> A -> D) (l : list A) :
  map2 f l l = map (fun a => f a a) l.
Proof. induction l as [|a l IH]; simpl; [reflexivity | rewrite IH; reflexivity]. Qed.

(** Transposition commutes with elementwise operations. *)
Lemma transpose_map2 (f : scalar -> scalar -> scalar) (n d : nat) (x y : t2) :
  shape2 n d x -> shape2 n d y ->
  map2 (map2 f) (transpose d x) (transpose d y) = transpose d (map2 (map2 f) x y).
Proof.
  intros Hx Hy. unfold transpose.
  rewrite map2_map_both, map2_diag.
  apply map_ext_in. intros j Hj. apply in_seq in Hj.
  rewrite map2_map_both, map_map2.
  apply map2_ext_in. intros r r' Hr Hr'.
  symmetry. apply nth_map2.
  - rewrite (shape2_in r Hx Hr). lia.
  - rewrite (shape2_in r' Hy Hr'). lia.
Qed.

Lemma transpose_map (f : scalar -> scalar) (n d : nat) (x : t2) :
  shape2 n d x ->
  map (map f) (transpose d x) = transpose d (map (map f) x).
Proof.
  intros Hx. unfold transpose. rewrite map_map.
  apply map_ext_in. intros j Hj. apply in_seq in Hj.
  rewrite !map_map. apply map_ext_in. intros r Hr.
  symmetry. apply (nth_map_lt f r j zero zero).
  rewrite (shape2_in r Hx Hr). lia.
Qed.

End HeadsAsBatch.

Section Elementwise.
Context {Ty : Carrier} {NUM : Numeric}.

Lemma shape1_map2 (f : scalar -> scalar -> scalar) (c : nat) (x y : t1) :
  length x = c -> length y = c -> length (map2 f x y) = c.
Proof. intros Hx Hy. rewrite length_map2, Hx, Hy. apply Nat.min_id. Qed.

Lemma shape2_rows_map2 (f : t1 -> t1 -> t1) (b c c' : nat) (x y : t2) :
  shape2 b c x -> shape2 b c y ->
  (forall u u', length u = c -> length u' = c -> length (f u u') = c') ->
  shape2 b c' (map2 f x y).
Proof.
  intros [Hlx Hx] [Hly Hy] Hf. split.
  - rewrite length_map2. norm_types. rewrite Hlx, Hly. apply Nat.min_id.
  - apply Forall_map2. intros u u' Hu Hu'.
    rewrite Forall_forall in Hx, Hy. apply Hf; [apply (Hx u Hu) | apply (Hy u' Hu')].
Qed.

Lemma shape3_rows_map2 (f : t1 -> t1 -> t1) (a b c c' : nat) (x y : t3) :
  shape3 a b c x -> shape3 a b c y ->
  (forall u u', length u = c -> length u' = c -> length (f u u') = c') ->
  shape3 a b c' (map2 (map2 f) x y).
Proof.
  intros [Hlx Hx] [Hly Hy] Hf. split.
  - rewrite length_map2. norm_types. rewrite Hlx, Hly. apply Nat.min_id.
  - apply Forall_map2. intros u u' Hu Hu'.
    rewrite Forall_forall in Hx, Hy.
    apply (shape2_rows_map2 f b c c' u u' (Hx u Hu) (Hy u' Hu') Hf).
Qed.

Lemma shape4_rows_map2 (f : t1 -> t1 -> t1) (a b c d d' : nat) (x y : t4) :
  shape4 a b c d x -> shape4 a b c d y ->
  (forall u u', length u = d -> length u' = d -> length (f u u') = d') ->
  shape4 a b c d' (map2 (map2 (map2 f)) x y).
Proof.
  intros [Hlx Hx] [Hly Hy] Hf. split.
  - rewrite length_map2. norm_types. rewrite Hlx, Hly. apply Nat.min_id.
  - apply Forall_map2. intros u u' Hu Hu'.
    rewrite Forall_forall in Hx, Hy.
    apply (shape3_rows_map2 f b c d d' u u' (Hx u Hu) (Hy u' Hu') Hf).
Qed.

Lemma sub3_shape (a b c : nat) (x y : t3) :
  shape3 a b c x -> shape3 a b c y -> shape3 a b c (sub3 x y).
Proof.
  intros Hx Hy. unfold sub3.
  apply (shape3_rows_map2 (map2 sub) a b c c x y Hx Hy).
  intros u u'. apply shape1_map2.
Qed.

Lemma sub3_channels (a n d : nat) (x y : t3) :
  shape3 a n d x -> shape3 a n d y ->
  sub3 (map (transpose d) x) (map (transpose d) y)
  = map (transpose d) (sub3 x y).
Proof.
  intros [_ Hx] [_ Hy]. unfold sub3.
  rewrite map2_map_both, map_map2.
  apply map2_ext_in. intros p q Hp Hq.
  rewrite Forall_forall in Hx, Hy.
  apply (transpose_map2 sub n d p q (Hx p Hp) (Hy q Hq)).
Qed.

Lemma scale3_channels (alpha : scalar) (a n d : nat) (x : t3) :
  shape3 a n d x ->
  scale3 alpha (map (transpose d) x) = map (transpose d) (scale3 alpha x).
Proof.
  intros [_ Hx]. unfold scale3. rewrite !map_map.
  apply map_ext_in. intros p Hp. rewrite Forall_forall in Hx.
  apply (transpose_map (mul alpha) n d p (Hx p Hp)).
Qed.

Lemma scale3_shape (alpha : scalar) (a b c : nat) (x : t3) :
  shape3 a b c x -> shape3 a b c (scale3 alpha x).
Proof.
  intros [Hl Hall]. unfold scale3. rewrite <- Hl. apply shape3_map.
  intros xb Hxb. rewrite Forall_forall in Hall.
  destruct (Hall xb Hxb) as [Hlb Hrows]. rewrite <- Hlb. apply shape2_map.
  intros row Hrow. rewrite length_map. rewrite Forall_forall in Hrows.
  apply (Hrows row Hrow).
Qed.

Lemma unpermute_channels (a n d : nat) (x : t3) :
  shape3 a n d x -> 0 < a -> 0 < d ->
  permute021 (map (transpose d) x) = x.
Proof.
  intros Hx Ha Hd.
  assert (Hin : shape3 a d n (map (transpose d) x)).
  { destruct Hx as [Hl Hall]. rewrite <- Hl. apply shape3_map.
    intros xb Hxb. rewrite Forall_forall in Hall.
    destruct (Hall xb Hxb) as [Hlb _]. rewrite <- Hlb. apply transpose_shape. }
  destruct (permute021_shape a d n _ Hin Ha Hd) as [E _]. rewrite E.
  rewrite map_map. rewrite <- (map_id x) at 2.
  apply map_ext_in. intros xb Hxb.
  destruct Hx as [_ Hall]. rewrite Forall_forall in Hall.
  apply (transpose_transpose n d xb (Hall xb Hxb)).
Qed.

End Elementwise.

(** ** The value-residual term, token by token *)

Section Residual.
Context {Ty : Carrier} {NUM : Numeric}.

(** The correction of one token of one head: [alpha * G (u0 - G u)], where
    [G] is the 1x1 convolution acting on the [head_dim] entries of a value
    vector, [u0] the first-layer value and [u] the current one. *)
Definition correction (a : Attention.t) (u0 u : t1) : t1 :=
  map (mul (Attention.alpha a))
      (conv_token (Attention.g_conv a)
         (map2 sub u0 (conv_token (Attention.g_conv a) u))).

Lemma length_correction (a : Attention.t) (u0 u : t1) :
  length (correction a u0 u) = length (cweight (Attention.g_conv a)).
Proof. unfold correction. rewrite length_map. apply length_conv_token. Qed.

Lemma correction_batch (a : Attention.t) (x0 x : t3) :
  scale3 (Attention.alpha a)
    (map (map (conv_token (Attention.g_conv a)))
       (sub3 x0 (map (map (conv_token (Attention.g_conv a))) x)))
  = map2 (map2 (correction a)) x0 x.
Proof.
  unfold scale3, sub3, correction.
  rewrite map_map, map2_map_r, map_map2.
  apply map2_ext_in. intros p q _ _.
  rewrite map_map, map2_map_r, map_map2. reflexivity.
Qed.

Lemma floordiv_ok (c h : nat) : 0 < h -> floordiv c h = Ok (c / h).
Proof.
  intros Hh. unfold floordiv.
  destruct (h =? 0) eqn:E; [apply Nat.eqb_eq in E; lia | reflexivity].
Qed.

Lemma residual_value (a : Attention.t) (l : Z) (B H N D C : nat) (v v0 : t4) :
  Attention.layerth a = Some l -> (0 < l)%Z ->
  Attention.num_heads a = H -> C / H = D ->
  conv_ok (Attention.g_conv a) D ->
  shape4 B H N D v0 -> shape4 B H N D v ->
  0 < B -> 0 < H -> 0 < N -> 0 < D ->
  Attention.residual a B N C v (Some v0)
  = Ok (Some (map2 (map2 (map2 (correction a))) v0 v)).
Proof.
  intros Hl Hpos HH HD Hg Hv0 Hv HB HHp HN HDp.
  assert (HBH : 0 < B * H) by nia.
  pose proof (concat_shape B H N D v0 Hv0) as S0.
  pose proof (concat_shape B H N D v Hv) as S.
  assert (Hw : length (cweight (Attention.g_conv a)) = D).
  { destruct Hg as [[Hw _] _]. exact Hw. }
  pose proof (conv_token_shape (Attention.g_conv a) D _ N _ Hw S) as SG.
  pose proof (sub3_shape _ _ _ _ _ S0 SG) as SZ.
  pose proof (conv_token_shape (Attention.g_conv a) D _ N _ Hw SZ) as SGZ.
  pose proof (scale3_shape (Attention.alpha a) _ _ _ _ SGZ) as SW.
  unfold Attention.residual. rewrite Hl.
  apply Z.gtb_lt in Hpos. rewrite Hpos, HH.
  rewrite (floordiv_ok C H HHp), HD. cbn [rbind].
  rewrite (reshape3_heads B H N D v0 Hv0). cbn [rbind].
  rewrite (reshape3_heads B H N D v Hv). cbn [rbind].
  destruct (permute021_shape (B * H) N D _ S0 HBH HN) as [E0 P0].
  destruct (permute021_shape (B * H) N D _ S HBH HN) as [E1 P1].
  rewrite E0, E1.
  rewrite (conv1d_on_channels _ D (B * H) N _ Hg S HBH HN HDp). cbn [rbind].
  assert (Esub : sub3_same (map (transpose D) (concat v0))
                   (map (transpose D)
                      (map (map (conv_token (Attention.g_conv a))) (concat v)))
                 = Ok (map (transpose D)
                         (sub3 (concat v0)
                            (map (map (conv_token (Attention.g_conv a))) (concat v))))).
  { unfold sub3_same.
    destruct (permute021_shape (B * H) N D _ SG HBH HN) as [_ PG].
    rewrite (dims3_shape _ _ _ _ P0 HBH HDp), (dims3_shape _ _ _ _ PG HBH HDp).
    rewrite !Nat.eqb_refl. simpl.
    rewrite (sub3_channels (B * H) N D _ _ S0 SG). reflexivity. }
  rewrite Esub. cbn [rbind].
  rewrite (adjoint_conv_on_channels _ D (B * H) N _ Hg SZ HBH HN HDp). cbn [rbind].
  rewrite (scale3_channels _ (B * H) N D _ SGZ).
  rewrite (unpermute_channels (B * H) N D _ SW HBH HDp).
  rewrite correction_batch.
  assert (SV : shape4 B H N D (map2 (map2 (map2 (correction a))) v0 v)).
  { apply (shape4_rows_map2 (correction a) B H N D D v0 v Hv0 Hv).
    intros u u' _ _. rewrite length_correction. exact Hw. }
  assert (Ecat : map2 (map2 (correction a)) (concat v0) (concat v)
                 = concat (map2 (map2 (map2 (correction a))) v0 v)).
  { symmetry. apply (concat_map2 (map2 (correction a)) H v0 v).
    - destruct Hv0 as [_ Hall]. apply Forall_forall. intros vb Hvb.
      rewrite Forall_forall in Hall. destruct (Hall vb Hvb) as [Hlb _]. exact Hlb.
    - destruct Hv as [_ Hall]. apply Forall_forall. intros vb Hvb.
      rewrite Forall_forall in Hall. destruct (Hall vb Hvb) as [Hlb _]. exact Hlb. }
  pose proof (reshape4_heads B H N D _ SV) as Er.
  norm_types. rewrite Ecat, Er. reflexivity.
Qed.

End Residual.

(** ** Shapes inside the attention layer *)

Section AttentionShapes.
Context {Ty : Carrier} {NUM : Numeric}.

Lemma dims4_shape (a b c d : nat) (x : t4) :
  shape4 a b c d x -> 0 < a -> 0 < b -> 0 < c -> dims4 x = (a, b, c, d).
Proof.
  intros [Hl Hall] Ha Hb Hc. unfold dims4.
  destruct x as [|xb x]; [simpl in Hl; lia|].
  inversion Hall as [|? ? Hxb _]; subst. simpl hd.
  pose proof (dims3_shape b c d xb Hxb Hb Hc) as E. unfold dims3 in E.
  injection E as E1 E2 E3. norm_types. rewrite E1, E2, E3.
  reflexivity.
Qed.

Lemma shape4_maps (f : t1 -> t1) (a b c d d' : nat) (x : t4) :
  shape4 a b c d x -> (forall u, length u = d -> length (f u) = d') ->
  shape4 a b c d' (map (map (map f)) x).
Proof.
  intros [Hl Hall] Hf. rewrite <- Hl. apply shape4_map.
  intros xb Hxb. rewrite Forall_forall in Hall.
  destruct (Hall xb Hxb) as [Hlb Hb]. rewrite <- Hlb. apply shape3_map.
  intros xh Hxh. rewrite Forall_forall in Hb.
  destruct (Hb xh Hxh) as [Hlh Hh]. rewrite <- Hlh. apply shape2_map.
  intros u Hu. rewrite Forall_forall in Hh. apply Hf. apply (Hh u Hu).
Qed.

Lemma shape3_map_seq (f : nat -> t2) (n b c : nat) :
  (forall i, i < n -> shape2 b c (f i)) -> shape3 n b c (map f (seq 0 n)).
Proof.
  intros Hf. split; [rewrite length_map, length_seq; reflexivity|].
  apply Forall_forall. intros m Hm. apply in_map_iff in Hm.
  destruct Hm as [i [<- Hi]]. apply in_seq in Hi. apply Hf. lia.
Qed.

Lemma length_softmax (row : t1) : length (softmax row) = length row.
Proof. unfold softmax. rewrite !length_map. reflexivity. Qed.

Lemma head_slice_length (H D s h : nat) (row : t1) :
  length row = 3 * (H * D) -> s < 3 -> h < H ->
  length (head_slice H D s h row) = D.
Proof.
  intros Hrow Hs Hh. unfold head_slice.
  rewrite length_firstn, length_skipn, Hrow. nia.
Qed.

Lemma unbind_qkv_shape (B N H D s : nat) (y : t3) :
  shape3 B N (3 * (H * D)) y -> s < 3 ->
  shape4 B H N D (unbind_qkv H D s y).
Proof.
  intros [Hl Hall] Hs. unfold unbind_qkv. rewrite <- Hl. apply shape4_map.
  intros yb Hyb. rewrite Forall_forall in Hall.
  destruct (Hall yb Hyb) as [Hlb Hrows].
  apply shape3_map_seq. intros h Hh.
  rewrite <- Hlb. apply shape2_map.
  intros row Hrow. rewrite Forall_forall in Hrows.
  apply head_slice_length; [apply (Hrows row Hrow) | exact Hs | lia].
Qed.

Lemma matmul_shape (cols : nat) (a b : t2) :
  shape2 (length a) cols (matmul cols a b).
Proof.
  unfold matmul. apply shape2_map. intros row _.
  rewrite length_map. destruct (transpose_shape cols b) as [E _]. exact E.
Qed.

Lemma matmul4_shape (B H N K D : nat) (a b : t4) :
  shape4 B H N K a -> shape4 B H K D b -> 0 < B -> 0 < H -> 0 < K ->
  shape4 B H N D (matmul4 a b).
Proof.
  intros [Hla Ha] Hb HB HH HK. unfold matmul4.
  rewrite (dims4_shape B H K D b Hb HB HH HK).
  destruct Hb as [Hlb Hb]. split.
  - rewrite length_map2. norm_types. rewrite Hla, Hlb. apply Nat.min_id.
  - apply Forall_map2. intros ab bb Hab Hbb.
    rewrite Forall_forall in Ha, Hb.
    destruct (Ha ab Hab) as [Hlab Hah]. destruct (Hb bb Hbb) as [Hlbb _].
    split.
    + rewrite length_map2. norm_types. rewrite Hlab, Hlbb. apply Nat.min_id.
    + apply Forall_map2. intros am bm Ham _.
      rewrite Forall_forall in Hah. destruct (Hah am Ham) as [Hlam _].
      rewrite <- Hlam. apply matmul_shape.
Qed.

Lemma transpose_last_shape (B H N D : nat) (x : t4) :
  shape4 B H N D x -> 0 < B -> 0 < H -> 0 < N ->
  shape4 B H D N (transpose_last x).
Proof.
  intros Hx HB HH HN. unfold transpose_last.
  rewrite (dims4_shape B H N D x Hx HB HH HN).
  destruct Hx as [Hl Hall]. rewrite <- Hl. apply shape4_map.
  intros xb Hxb. rewrite Forall_forall in Hall.
  destruct (Hall xb Hxb) as [Hlb Hb]. rewrite <- Hlb. apply shape3_map.
  intros xh Hxh. rewrite Forall_forall in Hb.
  destruct (Hb xh Hxh) as [Hlh _]. rewrite <- Hlh. apply transpose_shape.
Qed.

Lemma transpose12_shape (B H N D : nat) (x : t4) :
  shape4 B H N D x -> 0 < B -> 0 < H -> 0 < N ->
  shape4 B N H D (transpose12 x).
Proof.
  intros Hx HB HH HN. unfold transpose12.
  rewrite (dims4_shape B H N D x Hx HB HH HN).
  destruct Hx as [Hl Hall]. rewrite <- Hl. apply shape4_map.
  intros xb Hxb. rewrite Forall_forall in Hall.
  destruct (Hall xb Hxb) as [Hlb Hb].
  apply shape3_map_seq. intros i Hi.
  rewrite <- Hlb. apply shape2_map.
  intros xh Hxh. rewrite Forall_forall in Hb.
  apply (shape2_nth N D xh i (Hb xh Hxh)). lia.
Qed.

End AttentionShapes.

Section DropoutShapes.
Context {Ty : Carrier} {NUM : Numeric}.

Lemma chunks_shape {A : Type} (count size : nat) (l : list A) :
  length l = count * size ->
  length (chunks count size l) = count
  /\ Forall (fun c => length c = size) (chunks count size l).
Proof.
  revert l. induction count as [|count IH]; intros l Hl; simpl.
  - split; [reflexivity | constructor].
  - destruct (IH (skipn size l)) as [E F].
    { rewrite length_skipn, Hl. simpl. lia. }
    split; [rewrite E; reflexivity|].
    constructor; [|exact F].
    rewrite length_firstn, Hl. simpl. lia.
Qed.

Lemma unflat3_shape (a b c : nat) (l : t1) :
  length l = a * b * c -> shape3 a b c (unflat3 a b c l).
Proof.
  intros Hl. unfold unflat3, unflat2.
  destruct (chunks_shape a (b * c) l) as [E F]; [lia|].
  rewrite <- E at 1. apply shape3_map.
  intros ch Hch. rewrite Forall_forall in F.
  destruct (chunks_shape b c ch (F ch Hch)) as [E' F']. split; assumption.
Qed.

(** A traversal with a step that always succeeds succeeds, and relates the
    elements pairwise. *)
Lemma mapM_total {A B : Type} (f : A -> M B) (P : A -> B -> Prop) :
  (forall a s, exists b s', f a s = Ok (b, s') /\ P a b) ->
  forall l s, exists bs s', mapM f l s = Ok (bs, s') /\ Forall2 P l bs.
Proof.
  intros Hf. induction l as [|a l IH]; intros s; simpl.
  - exists [], s. split; [reflexivity | constructor].
  - destruct (Hf a s) as [b [s1 [E1 Pb]]].
    destruct (IH s1) as [bs [s2 [E2 Pbs]]].
    exists (b :: bs), s2. unfold bind. rewrite E1, E2.
    split; [reflexivity | constructor; assumption].
Qed.

Lemma Forall2_length_rel {A B : Type} (P : A -> B -> Prop) (l : list A) (k : list B) :
  Forall2 P l k -> length k = length l.
Proof. induction 1; simpl; congruence. Qed.

Lemma Forall2_Forall_r {A B : Type} (P : A -> B -> Prop) (Q : A -> Prop) (R : B -> Prop)
    (l : list A) (k : list B) :
  Forall2 P l k -> (forall a b, P a b -> Q a -> R b) -> Forall Q l -> Forall R k.
Proof.
  intros H HPQ. induction H as [|a b l k Hab _ IH]; intros HQ; constructor;
    inversion HQ; subst; [apply (HPQ a b Hab); assumption | apply IH; assumption].
Qed.

Definition keeps_length (u u' : t1) : Prop := length u' = length u.
Definition keeps_shape2 (m m' : t2) : Prop := forall a b, shape2 a b m -> shape2 a b m'.
Definition keeps_shape3 (x x' : t3) : Prop :=
  forall a b c, shape3 a b c x -> shape3 a b c x'.
Definition keeps_shape4 (x x' : t4) : Prop :=
  forall a b c d, shape4 a b c d x -> shape4 a b c d x'.

Lemma drop_row_total (p : Q) (u : t1) (s : rng) :
  exists u' s', mapM (drop_elem p) u s = Ok (u', s') /\ keeps_length u u'.
Proof.
  destruct (mapM_total (drop_elem p) (fun _ _ => True)) with (l := u) (s := s)
    as [u' [s' [E F]]].
  - intros e s0. unfold drop_elem. destruct (bernoulli (1 - p) s0) as [m s1].
    eauto.
  - exists u', s'. split; [exact E|]. apply (Forall2_length_rel _ _ _ F).
Qed.

Lemma drop_matrix_total (p : Q) (m : t2) (s : rng) :
  exists m' s', mapM (mapM (drop_elem p)) m s = Ok (m', s') /\ keeps_shape2 m m'.
Proof.
  destruct (mapM_total (mapM (drop_elem p)) keeps_length (drop_row_total p))
    with (l := m) (s := s) as [m' [s' [E F]]].
  exists m', s'. split; [exact E|].
  intros a b [Hl Hall]. split.
  - pose proof (Forall2_length_rel _ _ _ F) as EL. norm_types. lia.
  - apply (Forall2_Forall_r keeps_length (shape1 b) (shape1 b) m m' F); [|exact Hall].
    intros u u' Hk Hu. unfold shape1, keeps_length in *. congruence.
Qed.

Lemma drop_tensor3_total (p : Q) (x : t3) (s : rng) :
  exists x' s', mapM (mapM (mapM (drop_elem p))) x s = Ok (x', s')
                /\ keeps_shape3 x x'.
Proof.
  destruct (mapM_total (mapM (mapM (drop_elem p))) keeps_shape2 (drop_matrix_total p))
    with (l := x) (s := s) as [x' [s' [E F]]].
  exists x', s'. split; [exact E|].
  intros a b c [Hl Hall]. split.
  - pose proof (Forall2_length_rel _ _ _ F) as EL. norm_types. lia.
  - apply (Forall2_Forall_r keeps_shape2 (shape2 b c) (shape2 b c) x x' F);
      [|exact Hall].
    intros m m' Hk Hm. apply Hk. exact Hm.
Qed.

Lemma drop_tensor4_total (p : Q) (x : t4) (s : rng) :
  exists x' s', mapM (mapM (mapM (mapM (drop_elem p)))) x s = Ok (x', s')
                /\ keeps_shape4 x x'.
Proof.
  destruct (mapM_total (mapM (mapM (mapM (drop_elem p)))) keeps_shape3
              (drop_tensor3_total p)) with (l := x) (s := s) as [x' [s' [E F]]].
  exists x', s'. split; [exact E|].
  intros a b c d [Hl Hall]. split.
  - pose proof (Forall2_length_rel _ _ _ F) as EL. norm_types. lia.
  - apply (Forall2_Forall_r keeps_shape3 (shape3 b c d) (shape3 b c d) x x' F);
      [|exact Hall].
    intros m m' Hk Hm. apply Hk. exact Hm.
Qed.

Lemma dropout3_total (p : Q) (training : bool) (x : t3) (s : rng) :
  exists x' s', dropout3 p training x s = Ok (x', s') /\ keeps_shape3 x x'.
Proof.
  unfold dropout3. destruct (Qeq_bool p 0 || negb training)%bool.
  - exists x, s. split; [reflexivity | intros a b c Hx; exact Hx].
  - destruct (Qeq_bool p 1).
    + exists (scale3 zero x), s. split; [reflexivity|].
      intros a b c Hx. apply scale3_shape. exact Hx.
    + apply drop_tensor3_total.
Qed.

Lemma dropout4_total (p : Q) (training : bool) (x : t4) (s : rng) :
  exists x' s', dropout4 p training x s = Ok (x', s') /\ keeps_shape4 x x'.
Proof.
  unfold dropout4. destruct (Qeq_bool p 0 || negb training)%bool.
  - exists x, s. split; [reflexivity | intros a b c d Hx; exact Hx].
  - destruct (Qeq_bool p 1).
    + exists (scale4 zero x), s. split; [reflexivity|].
      intros a b c d [Hl Hall]. unfold scale4. rewrite <- Hl. apply shape4_map.
      intros xb Hxb. rewrite Forall_forall in Hall.
      apply scale3_shape. apply (Hall xb Hxb).
    + apply drop_tensor4_total.
Qed.

End DropoutShapes.

(** ** Runs of the attention layer *)

Section AttentionRuns.
Context {Ty : Carrier} {NUM : Numeric}.

(** An attention layer over [C = H * D] features with [H] heads, whose
    parameters have the sizes its constructor gives them. *)
Definition attention_ok (a : Attention.t) (C H D : nat) : Prop :=
  Attention.num_heads a = H /\ 0 < H /\ 0 < D /\ C = H * D
  /\ linear_ok (Attention.qkv a) C (3 * C)
  /\ linear_ok (Attention.proj a) C C
  /\ conv_ok (Attention.g_conv a) D.

(** The value tensor [v] that [forward] computes from [x]. *)
Definition value_tensor (a : Attention.t) (D : nat) (x : t3) : t4 :=
  unbind_qkv (Attention.num_heads a) D 2 (map (map (linear_out (Attention.qkv a))) x).

(** The tuple or tensor that [forward] returns, by layer index. *)
Definition returned (a : Attention.t) (out : t3) (v : t4) : Attention.output :=
  match Attention.layerth a with
  | Some 0%Z => Attention.Pair out v
  | _ => Attention.Single out
  end.

Lemma add_residual_shape (B H N D : nat) (av : t4) (res : option t4) :
  shape4 B H N D av ->
  (forall r, res = Some r -> shape4 B H N D r) ->
  shape4 B H N D (Attention.add_residual av res).
Proof.
  intros Hav Hres. destruct res as [r|]; simpl.
  - unfold add4, add3, add2, add1.
    apply (shape4_rows_map2 (map2 add) B H N D D av r Hav (Hres r eq_refl)).
    intros u u'. apply shape1_map2.
  - unfold add_scalar4. apply (shape4_maps _ B H N D D av Hav).
    intros u Hu. rewrite length_map. exact Hu.
Qed.

Lemma forward_ok (a : Attention.t) (training : bool) (B N C H D : nat)
    (x : t3) (v0 : option t4) (res : option t4) (s : rng) :
  attention_ok a C H D -> shape3 B N C x -> 0 < B -> 0 < N ->
  Attention.residual a B N C (value_tensor a D x) v0 = Ok res ->
  (forall r, res = Some r -> shape4 B H N D r) ->
  shape4 B H N D (value_tensor a D x)
  /\ exists out s',
       Attention.forward a training x v0 s
       = Ok (returned a out (value_tensor a D x), s')
       /\ shape3 B N C out.
Proof.
  intros [HH [HHp [HDp [HC [Hqkv [Hproj _]]]]]] Hx HB HN Hres Hshape.
  destruct (linear3_ok Hqkv Hx) as [Ey Sy].
  assert (Sy' : shape3 B N (3 * (H * D)) (map (map (linear_out (Attention.qkv a))) x))
    by (rewrite <- HC; exact Sy).
  assert (Sq : forall i, i < 3 ->
             shape4 B H N D (unbind_qkv H D i
                               (map (map (linear_out (Attention.qkv a))) x))).
  { intros i Hi. apply (unbind_qkv_shape B N H D i _ Sy' Hi). }
  assert (Sv : shape4 B H N D (value_tensor a D x)).
  { unfold value_tensor. rewrite HH. apply Sq. lia. }
  split; [exact Sv|].
  assert (ED : C / H = D) by (rewrite HC, Nat.mul_comm; apply Nat.div_mul; lia).
  unfold Attention.forward.
  rewrite (dims3_shape B N C x Hx HB HN). cbv beta iota.
  unfold bind at 1. unfold lift at 1. rewrite Ey.
  unfold bind at 1. unfold lift at 1. rewrite HH, (floordiv_ok C H HHp), ED.
  unfold bind at 1. unfold lift at 1.
  rewrite (length_flat3 B N (3 * C) _ Sy).
  replace (B * N * (3 * C) =? B * N * 3 * H * D) with true
    by (symmetry; apply Nat.eqb_eq; rewrite HC; lia).
  cbn [guard].
  set (q := unbind_qkv H D 0 _). set (k := unbind_qkv H D 1 _).
  set (v := unbind_qkv H D 2 _).
  assert (Ev : v = value_tensor a D x) by (unfold v, value_tensor; rewrite HH; reflexivity).
  assert (Sattn : shape4 B H N N
                    (softmax4 (mul_scalar4 (matmul4 q (transpose_last k))
                                 (Attention.scale a)))).
  { unfold softmax4, mul_scalar4.
    apply (shape4_maps softmax B H N N N); [|intros u Hu; rewrite length_softmax; exact Hu].
    apply (shape4_maps _ B H N N N); [|intros u Hu; rewrite length_map; exact Hu].
    apply (matmul4_shape B H N D N); try assumption.
    - apply Sq. lia.
    - apply transpose_last_shape; try assumption. apply Sq. lia. }
  destruct (dropout4_total (Attention.attn_drop a) training
              (softmax4 (mul_scalar4 (matmul4 q (transpose_last k))
                           (Attention.scale a))) s)
    as [attn [s1 [Edrop Keep]]].
  unfold bind at 1. rewrite Edrop.
  unfold bind at 1. unfold lift at 1. rewrite Ev, Hres.
  assert (So : shape4 B H N D
                 (Attention.add_residual (matmul4 attn (value_tensor a D x)) res)).
  { apply add_residual_shape; [|exact Hshape].
    apply (matmul4_shape B H N N D); try assumption.
    apply Keep. exact Sattn. }
  pose proof (transpose12_shape B H N D _ So HB HHp HN) as St.
  unfold bind at 1. unfold lift at 1. unfold reshape3.
  rewrite (length_flat4 B N H D _ St).
  replace (B * N * H * D =? B * N * C) with true
    by (symmetry; apply Nat.eqb_eq; rewrite HC; lia).
  assert (Sr : shape3 B N C
                 (unflat3 B N C
                    (flat4 (transpose12
                              (Attention.add_residual
                                 (matmul4 attn (value_tensor a D x)) res))))).
  { apply unflat3_shape. rewrite (length_flat4 B N H D _ St), HC. lia. }
  destruct (linear3_ok Hproj Sr) as [Ep Sp].
  unfold bind at 1. unfold lift at 1. rewrite Ep.
  destruct (dropout3_total (Attention.proj_drop a) training
              (map (map (linear_out (Attention.proj a)))
                 (unflat3 B N C
                    (flat4 (transpose12
                              (Attention.add_residual
                                 (matmul4 attn (value_tensor a D x)) res))))) s1)
    as [out [s2 [Edrop2 Keep2]]].
  unfold bind at 1. rewrite Edrop2.
  exists out, s2. split.
  - unfold returned. destruct (Attention.layerth a) as [[|l|l]|]; reflexivity.
  - apply Keep2. exact Sp.
Qed.

End AttentionRuns.

(** ** What the constructors establish *)

Section InitInvariants.
Context {Ty : Carrier} {NUM : Numeric}.

Lemma length_fill1 (gen : nat -> scalar) (n : nat) : length (fill1 gen n) = n.
Proof. unfold fill1. rewrite length_map, length_seq. reflexivity. Qed.

Lemma fill2_shape (gen : nat -> scalar) (r c : nat) : shape2 r c (fill2 gen r c).
Proof.
  unfold fill2. split; [rewrite length_map, length_seq; reflexivity|].
  apply Forall_forall. intros row Hrow. apply in_map_iff in Hrow.
  destruct Hrow as [i [<- _]]. apply length_fill1.
Qed.

Lemma fill3_shape (gen : nat -> scalar) (a r c : nat) : shape3 a r c (fill3 gen a r c).
Proof.
  unfold fill3. split; [rewrite length_map, length_seq; reflexivity|].
  apply Forall_forall. intros m Hm. apply in_map_iff in Hm.
  destruct Hm as [i [<- _]]. apply fill2_shape.
Qed.

Lemma Linear_init_wf (gen : nat -> scalar) (inf outf : Z) (bias : bool) (l : Linear) :
  Linear_init gen inf outf bias = Ok l ->
  (0 <= inf)%Z /\ (0 <= outf)%Z /\ linear_ok l (Z.to_nat inf) (Z.to_nat outf).
Proof.
  unfold Linear_init. destruct (0 <=? inf)%Z eqn:Ei; [|discriminate].
  destruct (0 <=? outf)%Z eqn:Eo; [|discriminate]. simpl.
  intros E. injection E as <-.
  apply Z.leb_le in Ei. apply Z.leb_le in Eo.
  split; [exact Ei|]. split; [exact Eo|].
  unfold linear_ok. simpl. split; [reflexivity|]. split.
  - destruct (fill2_shape gen (Z.to_nat outf) (Z.to_nat inf)) as [E _]. exact E.
  - destruct bias; [apply length_fill1 | exact I].
Qed.

Lemma Conv1d_init_wf (gen : nat -> scalar) (c : Z) (g : Conv1d) :
  Conv1d_init gen c c 1 = Ok g -> (0 <= c)%Z /\ conv_ok g (Z.to_nat c).
Proof.
  unfold Conv1d_init. destruct (0 <=? c)%Z eqn:Ec; [|discriminate]. simpl.
  intros E. injection E as <-. apply Z.leb_le in Ec.
  split; [exact Ec|]. unfold conv_ok. simpl.
  split; [apply (fill3_shape gen (Z.to_nat c) (Z.to_nat c) 1)|].
  split; [exists (fill1 gen (Z.to_nat c)); split; [reflexivity | apply length_fill1]|].
  repeat split.
Qed.

Lemma LayerNorm_init_wf (dim : Z) (eps : Q) (ln : LayerNorm) :
  LayerNorm_init dim eps = Ok ln -> ln_ok ln (Z.to_nat dim).
Proof.
  unfold LayerNorm_init. destruct (0 <=? dim)%Z; [|discriminate].
  intros E. injection E as <-. unfold ln_ok. simpl.
  rewrite !repeat_length. repeat split.
Qed.

Lemma Attention_init_wf (gen : nat -> scalar) (dim num_heads : Z) (qkv_bias : bool)
    (attn_drop proj_drop : Q) (layerth : option Z) (a : Attention.t) :
  Attention.init gen dim num_heads qkv_bias attn_drop proj_drop layerth = Ok a ->
  (0 < dim)%Z /\ (0 < num_heads)%Z /\ (dim mod num_heads = 0)%Z
  /\ Attention.layerth a = layerth
  /\ attention_ok a (Z.to_nat dim) (Z.to_nat num_heads) (Z.to_nat (dim / num_heads)).
Proof.
  unfold Attention.init, py_mod, py_floordiv, py_pow_neg_half. intros H.
  destruct (num_heads =? 0)%Z eqn:En; [discriminate|]. cbn [rbind] in H.
  unfold guard in H.
  destruct (dim mod num_heads =? 0)%Z eqn:Em; [|discriminate]. cbn [rbind] in H.
  destruct (dim / num_heads =? 0)%Z eqn:Eh; [discriminate|]. cbn [rbind] in H.
  destruct (Linear_init gen dim (dim * 3) qkv_bias) as [qkv|] eqn:Eq; [|discriminate].
  cbn [rbind] in H.
  destruct (Dropout_init attn_drop) as [pa|]; [|discriminate]. cbn [rbind] in H.
  destruct (Linear_init gen dim dim true) as [proj|] eqn:Ep; [|discriminate].
  cbn [rbind] in H.
  destruct (Dropout_init proj_drop) as [pp|]; [|discriminate]. cbn [rbind] in H.
  destruct (Conv1d_init gen (dim / num_heads) (dim / num_heads) 1) as [g|] eqn:Eg;
    [|discriminate].
  cbn [rbind] in H. injection H as <-.
  apply Z.eqb_neq in En. apply Z.eqb_eq in Em. apply Z.eqb_neq in Eh.
  destruct (Linear_init_wf _ _ _ _ _ Eq) as [Hd [_ Hq]].
  destruct (Linear_init_wf _ _ _ _ _ Ep) as [_ [_ Hp]].
  destruct (Conv1d_init_wf _ _ _ Eg) as [Hhd Hg].
  assert (Hn : (0 < num_heads)%Z).
  { destruct (Z.lt_trichotomy num_heads 0) as [Hneg|[Hz|Hpos]]; [|lia|exact Hpos].
    exfalso. pose proof (Z.div_le_upper_bound dim (-num_heads) 0) as Hb.
    assert (Hq0 : (dim / num_heads <= 0)%Z).
    { rewrite <- (Z.opp_involutive num_heads) at 1.
      rewrite <- (Z.opp_involutive dim).
      rewrite Z.div_opp_opp by lia.
      apply Z.div_le_upper_bound; lia. }
    lia. }
  assert (Hdim : dim = (num_heads * (dim / num_heads))%Z).
  { pose proof (Z.div_mod dim num_heads En). lia. }
  assert (Hdp : (0 < dim)%Z) by nia.
  split; [exact Hdp|]. split; [exact Hn|]. split; [exact Em|].
  split; [reflexivity|].
  unfold attention_ok. cbn [Attention.num_heads Attention.qkv Attention.proj Attention.g_conv].
  split; [reflexivity|]. split; [lia|]. split; [lia|].
  split; [rewrite <- Z2Nat.inj_mul by lia; rewrite <- Hdim; reflexivity|].
  split; [|split; [exact Hp | exact Hg]].
  replace (3 * Z.to_nat dim) with (Z.to_nat (dim * 3)) by lia. exact Hq.
Qed.

End InitInvariants.

(** ** Runs of a block *)

Section BlockRuns.
Context {Ty : Carrier} {NUM : Numeric}.

Definition mlp_ok (m : Mlp) (C : nat) : Prop :=
  exists hidden, linear_ok (fc1 m) C hidden /\ linear_ok (fc2 m) hidden C.

Definition block_ok (b : Block.t) (C H D : nat) : Prop :=
  ln_ok (Block.norm1 b) C
  /\ attention_ok (Block.attn b) C H D
  /\ ln_ok (Block.norm2 b) C
  /\ mlp_ok (Block.mlp b) C
  /\ Block.layerth b = Attention.layerth (Block.attn b).

Lemma add3_shape (a b c : nat) (x y : t3) :
  shape3 a b c x -> shape3 a b c y -> shape3 a b c (add3 x y).
Proof.
  intros Hx Hy. unfold add3, add2, add1.
  apply (shape3_rows_map2 (map2 add) a b c c x y Hx Hy).
  intros u u'. apply shape1_map2.
Qed.

Lemma drop_path_total (dp : option Q) (training : bool) (x : t3) (s : rng) :
  exists x' s', drop_path dp training x s = Ok (x', s') /\ keeps_shape3 x x'.
Proof.
  unfold drop_path. destruct dp as [p|].
  - destruct (Qeq_bool p 0 || negb training)%bool.
    + exists x, s. split; [reflexivity | intros a b c Hx; exact Hx].
    + destruct (mapM_total (drop_sample p) keeps_shape2) with (l := x) (s := s)
        as [x' [s' [E F]]].
      * intros xb s0. unfold drop_sample.
        destruct (bernoulli (1 - p) s0) as [m s1].
        eexists. eexists. split; [reflexivity|].
        intros a b [Hl Hall]. rewrite <- Hl. apply shape2_map.
        intros row Hrow. rewrite length_map. rewrite Forall_forall in Hall.
        apply (Hall row Hrow).
      * exists x', s'. split; [exact E|].
        intros a b c [Hl Hall]. split.
        -- pose proof (Forall2_length_rel _ _ _ F) as EL. norm_types. lia.
        -- apply (Forall2_Forall_r keeps_shape2 (shape2 b c) (shape2 b c) x x' F);
             [|exact Hall].
           intros m m' Hk Hm. apply Hk. exact Hm.
  - exists x, s. split; [reflexivity | intros a b c Hx; exact Hx].
Qed.

Lemma Mlp_forward_total (m : Mlp) (training : bool) (B N C : nat) (x : t3) (s : rng) :
  mlp_ok m C -> shape3 B N C x ->
  exists y s', Mlp_forward m training x s = Ok (y, s') /\ shape3 B N C y.
Proof.
  intros [hidden [H1 H2]] Hx. unfold Mlp_forward.
  destruct (linear3_ok H1 Hx) as [E1 S1].
  unfold bind at 1. unfold lift at 1. rewrite E1.
  assert (Sa : shape3 B N hidden
                 (map (map (map (act m))) (map (map (linear_out (fc1 m))) x))).
  { destruct S1 as [Hl Hall]. rewrite <- Hl. apply shape3_map.
    intros xb Hxb. rewrite Forall_forall in Hall.
    destruct (Hall xb Hxb) as [Hlb Hrows]. rewrite <- Hlb. apply shape2_map.
    intros row Hrow. rewrite length_map. rewrite Forall_forall in Hrows.
    apply (Hrows row Hrow). }
  destruct (dropout3_total (mlp_drop m) training
              (map (map (map (act m))) (map (map (linear_out (fc1 m))) x)) s)
    as [x1 [s1 [Ed1 K1]]].
  unfold bind at 1. rewrite Ed1.
  destruct (linear3_ok H2 (K1 _ _ _ Sa)) as [E2 S2].
  unfold bind at 1. unfold lift at 1. rewrite E2.
  destruct (dropout3_total (mlp_drop m) training
              (map (map (linear_out (fc2 m))) x1) s1) as [x2 [s2 [Ed2 K2]]].
  exists x2, s2. split; [exact Ed2 | apply K2; exact S2].
Qed.

(** The tail of [Block.forward]: the two residual connections, followed by
    the packaging [f] of the result. *)
Lemma block_tail_ok (b : Block.t) (training : bool) (B N C H D : nat)
    (x x_ : t3) (f : t3 -> Block.output) (s : rng) :
  block_ok b C H D -> shape3 B N C x -> shape3 B N C x_ ->
  exists out s',
    (d <- drop_path (Block.drop_path_p b) training x_ ;;
     n <- lift (layer_norm3 (Block.norm2 b) (add3 x d)) ;;
     h <- Mlp_forward (Block.mlp b) training n ;;
     d2 <- drop_path (Block.drop_path_p b) training h ;;
     ret (f (add3 (add3 x d) d2)))%fwd s = Ok (f out, s')
    /\ shape3 B N C out.
Proof.
  intros [_ [_ [Hn2 [Hmlp _]]]] Hx Hx_.
  destruct (drop_path_total (Block.drop_path_p b) training x_ s) as [d [s1 [E1 K1]]].
  unfold bind at 1. rewrite E1.
  pose proof (add3_shape B N C x d Hx (K1 _ _ _ Hx_)) as S1.
  destruct (layer_norm3_ok Hn2 S1) as [E2 S2].
  unfold bind at 1. unfold lift at 1. rewrite E2.
  destruct (Mlp_forward_total (Block.mlp b) training B N C _ s1 Hmlp S2)
    as [h [s2 [E3 S3]]].
  unfold bind at 1. rewrite E3.
  destruct (drop_path_total (Block.drop_path_p b) training h s2) as [d2 [s3 [E4 K4]]].
  unfold bind at 1. rewrite E4.
  exists (add3 (add3 x d) d2), s3. split; [reflexivity|].
  apply add3_shape; [exact S1 | apply K4; exact S3].
Qed.

(** The value tensor the attention of block [b] computes from [x]. *)
Definition block_values (b : Block.t) (D : nat) (x : t3) : t4 :=
  value_tensor (Block.attn b) D (map (map (layer_norm_out (Block.norm1 b))) x).

Lemma Block_forward_first (b : Block.t) (training : bool) (B N C H D : nat)
    (x : t3) (v0 : option t4) (s : rng) :
  block_ok b C H D -> Block.layerth b = Some 0%Z ->
  shape3 B N C x -> 0 < B -> 0 < N ->
  shape4 B H N D (block_values b D x)
  /\ exists out s',
       Block.forward b training x v0 s = Ok (Block.Pair out (block_values b D x), s')
       /\ shape3 B N C out.
Proof.
  intros Hb Hl Hx HB HN. pose proof Hb as [Hn1 [Ha [_ [_ Hsame]]]].
  destruct (layer_norm3_ok Hn1 Hx) as [E1 S1].
  assert (Hla : Attention.layerth (Block.attn b) = Some 0%Z) by congruence.
  assert (Hres : Attention.residual (Block.attn b) B N C
                   (value_tensor (Block.attn b) D
                      (map (map (layer_norm_out (Block.norm1 b))) x)) None
                 = Ok None).
  { apply (@residual_first_layer _ _ _ _ _ _ _ _ 0%Z Hla). lia. }
  destruct (forward_ok (Block.attn b) training B N C H D _ None None s Ha S1 HB HN Hres)
    as [Sv [x_ [s1 [Ef Sx_]]]]; [discriminate|].
  split; [exact Sv|].
  destruct (block_tail_ok b training B N C H D x x_
              (fun y => Block.Pair y (block_values b D x)) s1 Hb Hx Sx_)
    as [out [s2 [Et So]]].
  exists out, s2. split; [|exact So].
  unfold Block.forward.
  unfold bind at 1. unfold lift at 1. rewrite E1.
  rewrite Hl. cbn [Block.is_first Z.eqb].
  unfold bind at 1. unfold bind at 1. rewrite Ef.
  unfold returned. rewrite Hla. cbn [ret fst snd].
  exact Et.
Qed.

Lemma Block_forward_later (b : Block.t) (training : bool) (l : Z) (B N C H D : nat)
    (x : t3) (v0 : t4) (s : rng) :
  block_ok b C H D -> Block.layerth b = Some l -> (0 < l)%Z ->
  shape3 B N C x -> shape4 B H N D v0 -> 0 < B -> 0 < N ->
  exists out s',
    Block.forward b training x (Some v0) s = Ok (Block.Single out, s')
    /\ shape3 B N C out.
Proof.
  intros Hb Hl Hpos Hx Hv0 HB HN. pose proof Hb as [Hn1 [Ha [_ [_ Hsame]]]].
  destruct (layer_norm3_ok Hn1 Hx) as [E1 S1].
  assert (Hla : Attention.layerth (Block.attn b) = Some l) by congruence.
  pose proof Ha as [HH [HHp [HDp [HC [Hqkv [_ Hg]]]]]].
  assert (ED : C / H = D) by (rewrite HC, Nat.mul_comm; apply Nat.div_mul; lia).
  destruct (forward_ok (Block.attn b) training B N C H D _ (Some v0)
              (Some (map2 (map2 (map2 (correction (Block.attn b)))) v0
                       (value_tensor (Block.attn b) D
                          (map (map (layer_norm_out (Block.norm1 b))) x))))
              s Ha S1 HB HN) as [Sv [x_ [s1 [Ef Sx_]]]].
  - apply (residual_value (Block.attn b) l B H N D C); try assumption.
    destruct (linear3_ok Hqkv S1) as [_ Sy].
    unfold value_tensor. rewrite HH.
    apply (unbind_qkv_shape B N H D 2); [rewrite <- HC; exact Sy | lia].
  - intros r Hr. injection Hr as <-.
    apply (shape4_rows_map2 (correction (Block.attn b)) B H N D D); try assumption.
    + destruct (linear3_ok Hqkv S1) as [_ Sy].
      unfold value_tensor. rewrite HH.
      apply (unbind_qkv_shape B N H D 2); [rewrite <- HC; exact Sy | lia].
    + intros u u' _ _. rewrite length_correction.
      destruct Hg as [[Hw _] _]. exact Hw.
  - destruct (block_tail_ok b training B N C H D x x_ Block.Single s1 Hb Hx Sx_)
      as [out [s2 [Et So]]].
    exists out, s2. split; [|exact So].
    unfold Block.forward.
    unfold bind at 1. unfold lift at 1. rewrite E1.
    rewrite Hl.
    assert (Enf : Block.is_first (Some l) = false).
    { simpl. apply Z.eqb_neq. lia. }
    rewrite Enf.
    unfold bind at 1. unfold bind at 1. rewrite Ef.
    unfold returned. rewrite Hla.
    destruct l as [|l'|l']; try lia. cbn [ret fst snd].
    exact Et.
Qed.

End BlockRuns.

(** ** Runs of the whole model *)

Section ModelRuns.
Context {Ty : Carrier} {NUM : Numeric}.

Import VisionTransformer.

(** A model without distillation token over embeddings of size [E], with
    [P] patches, heads from [E] to [F] to [K] classes and back to [E], whose
    block [i] carries the layer index [i]. *)
Definition model_ok (m : t) (E H D P F K : nat) : Prop :=
  distilled m = None
  /\ shape3 1 1 E (cls_token m)
  /\ shape3 1 (P + 1) E (pos_embed m)
  /\ Forall (fun b => block_ok b E H D) (blocks m)
  /\ (forall i b, nth_error (blocks m) i = Some b ->
                  Block.layerth b = Some (Z.of_nat i))
  /\ ln_ok (norm m) E
  /\ head_maps (pre_logits m) E F
  /\ head_maps (head m) F K
  /\ head_maps (reverse_head m) K E.

Lemma model_ok_feedback_ready (m : t) (E H D P F K : nat) :
  model_ok m E H D P F K -> feedback_ready m E.
Proof.
  intros [_ [_ [_ [_ [_ [Hn [Hp [Hh Hr]]]]]]]]. exists F, K.
  split; [exact Hn|]. split; [exact Hp|]. split; [exact Hh | exact Hr].
Qed.

Lemma model_ok_block (m : t) (E H D P F K : nat) (i : nat) (b : Block.t) :
  model_ok m E H D P F K -> nth_error (blocks m) i = Some b ->
  block_ok b E H D /\ Block.layerth b = Some (Z.of_nat i).
Proof.
  intros [_ [_ [_ [Hall [Hidx _]]]]] Hb. split; [|apply (Hidx i b Hb)].
  rewrite Forall_forall in Hall. apply Hall. apply (nth_error_In _ _ Hb).
Qed.

Lemma cat_cls_shape (P E : nat) (crow : t1) (x0 : t3) :
  shape1 E crow -> Forall (shape2 P E) x0 ->
  Forall (shape2 (S P) E) (map2 (@app t1) (repeat [crow] (length x0)) x0).
Proof.
  intros Hc Hall. induction Hall as [|y ys [Hly Hy] _ IH]; simpl; [constructor|].
  constructor; [|exact IH].
  split; [simpl; rewrite Hly; reflexivity|]. constructor; assumption.
Qed.

Lemma embed_ok (m : t) (training : bool) (E H D P F K B : nat)
    (img : t4) (x0 : t3) (s : rng) :
  model_ok m E H D P F K ->
  pe_forward (patch_embed m) img = Ok x0 -> shape3 B P E x0 ->
  exists x s', embed m training img s = Ok (x, s') /\ shape3 B (S P) E x.
Proof.
  intros [Hdist [Hcls [Hpos _]]] Hpe Hx0.
  unfold embed. unfold bind at 1. unfold lift at 1. rewrite Hpe, Hdist.
  destruct Hcls as [Hlc Hcls]. destruct Hpos as [Hlp Hpos].
  destruct (cls_token m) as [|c0 [|]]; try discriminate.
  destruct (pos_embed m) as [|p0 [|]]; try discriminate.
  inversion Hcls as [|? ? Hc0 _]; subst. inversion Hpos as [|? ? Hp0 _]; subst.
  destruct Hc0 as [Hlc0 Hc0]. destruct c0 as [|crow [|]]; try discriminate.
  inversion Hc0 as [|? ? Hcrow _]; subst.
  assert (Scat : forall xb, In xb (cat1 (expand (length x0) [[crow]]) x0) ->
                            shape2 (S P) E xb).
  { intros xb Hin. unfold cat1, expand in Hin. simpl hd in Hin.
    destruct Hx0 as [Hl0 Hall0]. clear Hl0.
    pose proof (cat_cls_shape P E crow x0 Hcrow Hall0) as G.
    rewrite Forall_forall in G. apply (G xb Hin). }
  assert (Lcat : length (cat1 (expand (length x0) [[crow]]) x0) = B).
  { unfold cat1, expand. simpl hd. rewrite length_map2, repeat_length.
    destruct Hx0 as [Hl0 _]. norm_types. rewrite Hl0. apply Nat.min_id. }
  assert (Eadd : add_pos (cat1 (expand (length x0) [[crow]]) x0) [p0]
                 = Ok (map (fun xb => add2 xb p0)
                           (cat1 (expand (length x0) [[crow]]) x0))).
  { unfold add_pos. simpl hd. apply rmapM_map. intros xb Hin.
    destruct (Scat xb Hin) as [Hlx Hrows]. destruct Hp0 as [Hlp0 Hprows].
    replace (P + 1) with (S P) in Hlp0 by lia.
    norm_types. rewrite Hlx, Hlp0, Nat.eqb_refl.
    destruct xb as [|r0 xb]; [discriminate|]. destruct p0 as [|q0 p0]; [discriminate|].
    inversion Hrows as [|? ? Hr0 _]; subst. inversion Hprows as [|? ? Hq0 _]; subst.
    simpl hd. unfold shape1 in Hr0, Hq0. rewrite Hr0, Hq0, Nat.eqb_refl.
    reflexivity. }
  unfold bind at 1. unfold lift at 1. norm_types. rewrite Eadd.
  destruct (dropout3_total (pos_drop m) training
              (map (fun xb => add2 xb p0) (cat1 (expand (length x0) [[crow]]) x0)) s)
    as [x [s' [Ed Keep]]].
  exists x, s'. split; [exact Ed|]. apply Keep.
  rewrite <- Lcat. apply shape3_map. intros xb Hin.
  unfold add2, add1.
  apply (shape2_rows_map2 (map2 add) (S P) E E xb p0 (Scat xb Hin)).
  - replace (S P) with (P + 1) by lia. exact Hp0.
  - intros u u'. apply shape1_map2.
Qed.

Lemma loop_body_ok (m : t) (training : bool) (E H D P F K B : nat)
    (v0 : t4) (x : t3) (i : nat) (s : rng) :
  model_ok m E H D P F K -> 1 <= i < length (blocks m) ->
  shape3 B (S P) E x -> shape4 B H (S P) D v0 -> 0 < B ->
  exists x' s', loop_body m training v0 x i s = Ok (x', s')
                /\ shape3 B (S P) E x'.
Proof.
  intros Hm Hi Hx Hv0 HB.
  destruct (nth_error (blocks m) i) as [b|] eqn:Eb;
    [|apply nth_error_None in Eb; lia].
  destruct (model_ok_block m E H D P F K i b Hm Eb) as [Hb Hl].
  destruct (Block_forward_later b training (Z.of_nat i) B (S P) E H D x v0 s
              Hb Hl ltac:(lia) Hx Hv0 HB ltac:(lia)) as [xb [s1 [Ef Sxb]]].
  destruct (feedback_ok (model_ok_feedback_ready m E H D P F K Hm) Sxb)
    as [c [p [mid [r [_ [_ [_ [_ [_ [Sr Efb]]]]]]]]]].
  exists (rewrite_cls xb r), s1. split.
  - unfold loop_body, get_block.
    unfold bind at 1. unfold lift at 1. rewrite Eb.
    unfold bind at 1. rewrite Ef. unfold lift. rewrite Efb. reflexivity.
  - apply (rewrite_cls_shape Sxb Sr).
Qed.

Lemma loop_ok (m : t) (training : bool) (E H D P F K B : nat) (v0 : t4) (l : list nat) :
  model_ok m E H D P F K ->
  (forall i, In i l -> 1 <= i < length (blocks m)) ->
  shape4 B H (S P) D v0 -> 0 < B ->
  forall x s, shape3 B (S P) E x ->
  exists x' s', for_each (loop_body m training v0) l x s = Ok (x', s')
                /\ shape3 B (S P) E x'.
Proof.
  intros Hm Hl Hv0 HB. induction l as [|i l IH]; intros x s Hx; simpl.
  - exists x, s. split; [reflexivity | exact Hx].
  - destruct (loop_body_ok m training E H D P F K B v0 x i s Hm
                (Hl i (or_introl eq_refl)) Hx Hv0 HB) as [x1 [s1 [E1 S1]]].
    unfold bind. rewrite E1.
    apply IH; [|exact S1]. intros j Hj. apply Hl. right. exact Hj.
Qed.

Lemma forward_features_ok (m : t) (training : bool) (E H D P F K B : nat)
    (img : t4) (x0 : t3) (s : rng) :
  model_ok m E H D P F K -> 11 <= length (blocks m) ->
  pe_forward (patch_embed m) img = Ok x0 -> shape3 B P E x0 -> 0 < B ->
  exists f s', forward_features m training img s = Ok (Feat f, s')
               /\ shape2 B F f.
Proof.
  intros Hm Hd Hpe Hx0 HB.
  destruct (embed_ok m training E H D P F K B img x0 s Hm Hpe Hx0) as [x1 [s1 [Ee S1]]].
  destruct (nth_error (blocks m) 0) as [b0|] eqn:Eb;
    [|apply nth_error_None in Eb; lia].
  destruct (model_ok_block m E H D P F K 0 b0 Hm Eb) as [Hb Hl].
  destruct (Block_forward_first b0 training B (S P) E H D x1 None s1 Hb Hl S1 HB
              ltac:(lia)) as [Sv [x2 [s2 [Ef S2]]]].
  destruct (loop_ok m training E H D P F K B (block_values b0 D x1) (seq 1 10) Hm)
    with (x := x2) (s := s2) as [x3 [s3 [El S3]]]; try assumption.
  { intros i Hi. apply in_seq in Hi. lia. }
  pose proof Hm as [Hdist [_ [_ [_ [_ [Hn [Hp _]]]]]]].
  destruct (layer_norm3_ok Hn S3) as [En Sn].
  destruct (select0_ok Sn) as [Ec Sc].
  destruct (@apply_pre_logits_ok _ _ _ _ _ _ _ Hp Sc) as [f [Ep Sf]].
  exists f, s3. split; [|exact Sf].
  unfold forward_features, get_block.
  unfold bind at 1. rewrite Ee.
  unfold bind at 1. unfold lift at 1. rewrite Eb.
  unfold bind at 1. rewrite Ef.
  unfold bind at 1. rewrite El.
  unfold bind at 1. unfold lift at 1. rewrite En.
  rewrite Hdist.
  unfold bind at 1. unfold lift at 1. rewrite Ec.
  unfold bind at 1. unfold lift at 1. rewrite Ep.
  reflexivity.
Qed.

Lemma model_forward_ok (m : t) (training : bool) (E H D P F K B : nat)
    (img : t4) (x0 : t3) (s : rng) :
  model_ok m E H D P F K -> 11 <= length (blocks m) ->
  pe_forward (patch_embed m) img = Ok x0 -> shape3 B P E x0 -> 0 < B ->
  exists logits s', forward m training img s = Ok (Logits logits, s')
                    /\ shape2 B K logits.
Proof.
  intros Hm Hd Hpe Hx0 HB.
  destruct (forward_features_ok m training E H D P F K B img x0 s Hm Hd Hpe Hx0 HB)
    as [f [s1 [Ef Sf]]].
  pose proof Hm as [Hdist [_ [_ [_ [_ [_ [_ [Hh _]]]]]]]].
  destruct (@apply_head_ok _ _ _ _ _ _ _ Hh Sf) as [y [Ey Sy]].
  exists y, s1. split; [|exact Sy].
  unfold forward. unfold bind at 1. rewrite Ef, Hdist.
  unfold bind at 1. unfold lift at 1. rewrite Ey. reflexivity.
Qed.

End ModelRuns.

(** ** What [VisionTransformer.__init__] establishes *)

Section ModelInit.
Context {Ty : Carrier} {NUM : Numeric}.

Import VisionTransformer.

Lemma rmapM_inv {A B : Type} (f : A -> result B) (l : list A) (bs : list B) :
  rmapM f l = Ok bs -> Forall2 (fun a b => f a = Ok b) l bs.
Proof.
  revert bs. induction l as [|a l IH]; simpl; intros bs H.
  - injection H as <-. constructor.
  - destruct (f a) as [b|] eqn:Ea; [|discriminate].
    destruct (rmapM f l) as [bs'|]; [|discriminate].
    injection H as <-. constructor; [exact Ea | apply IH; reflexivity].
Qed.

Lemma Forall2_nth_error {A B : Type} (P : A -> B -> Prop) (l : list A) (k : list B)
    (i : nat) (b : B) :
  Forall2 P l k -> nth_error k i = Some b ->
  exists a, nth_error l i = Some a /\ P a b.
Proof.
  intros H. revert i. induction H as [|a0 b0 l k Hab _ IH]; intros [|i] Hi;
    simpl in *; try discriminate.
  - injection Hi as <-. exists a0. split; [reflexivity | exact Hab].
  - apply IH. exact Hi.
Qed.

Lemma Mlp_init_wf (gen : nat -> scalar) (dim hidden : Z) (act_layer : scalar -> scalar)
    (drop : Q) (m : Mlp) :
  Block.Mlp_init gen dim hidden act_layer drop = Ok m -> mlp_ok m (Z.to_nat dim).
Proof.
  unfold Block.Mlp_init.
  set (h := if (hidden =? 0)%Z then dim else hidden).
  destruct (Linear_init gen dim h true) as [l1|] eqn:E1; [|discriminate].
  cbn [rbind].
  destruct (Linear_init gen h dim true) as [l2|] eqn:E2; [|discriminate].
  cbn [rbind].
  destruct (Dropout_init drop) as [p|]; [|discriminate]. cbn [rbind].
  intros E. injection E as <-.
  destruct (Linear_init_wf _ _ _ _ _ E1) as [_ [_ H1]].
  destruct (Linear_init_wf _ _ _ _ _ E2) as [_ [_ H2]].
  exists (Z.to_nat h). split; assumption.
Qed.

Lemma Block_init_wf (gen : nat -> scalar) (dim num_heads : Z) (mlp_ratio : Q)
    (qkv_bias : bool) (drop attn_drop drop_path : Q) (act_layer : scalar -> scalar)
    (eps : Q) (layerth : option Z) (b : Block.t) :
  Block.init gen dim num_heads mlp_ratio qkv_bias drop attn_drop drop_path
             act_layer eps layerth = Ok b ->
  block_ok b (Z.to_nat dim) (Z.to_nat num_heads) (Z.to_nat (dim / num_heads))
  /\ Block.layerth b = layerth.
Proof.
  unfold Block.init.
  destruct (LayerNorm_init dim eps) as [ln|] eqn:En; [|discriminate]. cbn [rbind].
  destruct (Attention.init gen dim num_heads qkv_bias attn_drop drop layerth)
    as [a|] eqn:Ea; [|discriminate]. cbn [rbind].
  destruct (Block.Mlp_init gen dim _ act_layer drop) as [mlp|] eqn:Em; [|discriminate].
  cbn [rbind]. intros E. injection E as <-.
  destruct (Attention_init_wf _ _ _ _ _ _ _ _ Ea) as [_ [_ [_ [Hl Ha]]]].
  split; [|reflexivity]. unfold block_ok. simpl.
  split; [apply (LayerNorm_init_wf _ _ _ En)|]. split; [exact Ha|].
  split; [apply (LayerNorm_init_wf _ _ _ En)|].
  split; [apply (Mlp_init_wf _ _ _ _ _ _ Em) | symmetry; exact Hl].
Qed.

Lemma new_param3_wf (gen : nat -> scalar) (a b c : Z) (x : t3) :
  new_param3 a b c gen = Ok x -> shape3 (Z.to_nat a) (Z.to_nat b) (Z.to_nat c) x.
Proof.
  unfold new_param3. destruct (_ && _)%bool; [|discriminate].
  intros E. injection E as <-. apply fill3_shape.
Qed.

Lemma head_init_wf (gen : nat -> scalar) (inf outf k : Z) (h : option Linear) :
  head_init gen inf outf k = Ok h -> (0 < k)%Z ->
  head_maps h (Z.to_nat inf) (Z.to_nat outf).
Proof.
  unfold head_init. intros E Hk. apply Z.ltb_lt in Hk. rewrite Hk in E.
  destruct (Linear_init gen inf outf true) as [l|] eqn:El; [|discriminate].
  cbn [rbind] in E. injection E as <-.
  destruct (Linear_init_wf _ _ _ _ _ El) as [_ [_ Hl]]. exact Hl.
Qed.

Lemma init_blocks (gen : nat -> scalar) (c : config) (bs : list Block.t) :
  rmapM (fun i =>
           Block.init gen (cfg_embed_dim c) (cfg_num_heads c) (cfg_mlp_ratio c)
             (cfg_qkv_bias c) (cfg_drop_rate c) (cfg_attn_drop_rate c)
             (linspace (cfg_drop_path_rate c) (cfg_depth c) i)
             (cfg_act_layer c) (cfg_norm_eps c) (Some (Z.of_nat i)))
        (seq 0 (Z.to_nat (cfg_depth c))) = Ok bs ->
  length bs = Z.to_nat (cfg_depth c)
  /\ Forall (fun b => block_ok b (Z.to_nat (cfg_embed_dim c))
                        (Z.to_nat (cfg_num_heads c))
                        (Z.to_nat (cfg_embed_dim c / cfg_num_heads c))) bs
  /\ (forall i b, nth_error bs i = Some b -> Block.layerth b = Some (Z.of_nat i)).
Proof.
  intros E. apply rmapM_inv in E.
  split; [rewrite (Forall2_length_rel _ _ _ E); apply length_seq|]. split.
  - apply (Forall2_Forall_r _ (fun _ => True) _ _ _ E).
    + intros i b Hb _. apply (Block_init_wf _ _ _ _ _ _ _ _ _ _ _ _ Hb).
    + apply Forall_forall. intros; exact I.
  - intros i b Hi.
    destruct (Forall2_nth_error _ _ _ i b E Hi) as [j [Hj Hb]].
    assert (j = i).
    { pose proof (nth_error_nth _ _ 0 Hj) as Hn.
      rewrite seq_nth in Hn; [lia|].
      assert (Hlt : i < length (seq 0 (Z.to_nat (cfg_depth c)))).
      { apply nth_error_Some. rewrite Hj. discriminate. }
      rewrite length_seq in Hlt. exact Hlt. }
    subst j. apply (Block_init_wf _ _ _ _ _ _ _ _ _ _ _ _ Hb).
Qed.

Lemma init_finish (gen : nat -> scalar) (c : config) (pe : PatchEmbed)
    (cls pos : t3) (pd : Q) (bs : list Block.t) (ln : LayerNorm)
    (pl : option Linear) (nf : Z) (m : t) :
  (0 < cfg_num_classes c)%Z ->
  shape3 1 1 (Z.to_nat (cfg_embed_dim c)) cls ->
  shape3 1 (num_patches pe + 1) (Z.to_nat (cfg_embed_dim c)) pos ->
  Forall (fun b => block_ok b (Z.to_nat (cfg_embed_dim c))
                     (Z.to_nat (cfg_num_heads c))
                     (Z.to_nat (cfg_embed_dim c / cfg_num_heads c))) bs ->
  (forall i b, nth_error bs i = Some b -> Block.layerth b = Some (Z.of_nat i)) ->
  ln_ok ln (Z.to_nat (cfg_embed_dim c)) ->
  head_maps pl (Z.to_nat (cfg_embed_dim c)) (Z.to_nat nf) ->
  (h <- head_init gen nf (cfg_num_classes c) (cfg_num_classes c) ;;
   rh <- head_init gen (cfg_num_classes c) (cfg_embed_dim c) (cfg_num_classes c) ;;
   dist <- Ok None ;;
   guard (existsb (String.eqb (cfg_weight_init c))
            ["jax"; "jax_nlhb"; "nlhb"; EmptyString]%string) AssertionError ;;
   Ok {| num_classes := cfg_num_classes c; num_features := nf;
         embed_dim := cfg_embed_dim c; num_tokens := 1;
         patch_embed := pe; cls_token := cls; distilled := dist;
         pos_embed := pos; pos_drop := pd; blocks := bs; norm := ln;
         pre_logits := pl; head := h; reverse_head := rh |})%result = Ok m ->
  blocks m = bs /\ patch_embed m = pe
  /\ model_ok m (Z.to_nat (cfg_embed_dim c)) (Z.to_nat (cfg_num_heads c))
       (Z.to_nat (cfg_embed_dim c / cfg_num_heads c))
       (num_patches (patch_embed m)) (Z.to_nat (num_features m))
       (Z.to_nat (cfg_num_classes c)).
Proof.
  intros Hk Scls Spos Hall Hidx Hln Hpl Hrest.
  destruct (head_init gen nf _ _) as [h|] eqn:Eh; [|discriminate].
  cbn [rbind] in Hrest.
  destruct (head_init gen (cfg_num_classes c) _ _) as [rh|] eqn:Erh; [|discriminate].
  cbn [rbind] in Hrest.
  destruct (guard _ AssertionError); [|discriminate].
  cbn [rbind] in Hrest. injection Hrest as <-. simpl.
  split; [reflexivity|]. split; [reflexivity|].
  unfold model_ok. simpl.
  split; [reflexivity|]. split; [exact Scls|]. split; [exact Spos|].
  split; [exact Hall|]. split; [exact Hidx|]. split; [exact Hln|].
  split; [exact Hpl|].
  split; [apply (head_init_wf _ _ _ _ _ Eh Hk) | apply (head_init_wf _ _ _ _ _ Erh Hk)].
Qed.

Lemma init_wf (gen : nat -> scalar) (c : config) (m : t) :
  init gen c = Ok m -> cfg_distilled c = false -> (0 < cfg_num_classes c)%Z ->
  length (blocks m) = Z.to_nat (cfg_depth c)
  /\ cfg_embed_layer c (cfg_embed_dim c) = Ok (patch_embed m)
  /\ model_ok m (Z.to_nat (cfg_embed_dim c)) (Z.to_nat (cfg_num_heads c))
       (Z.to_nat (cfg_embed_dim c / cfg_num_heads c))
       (num_patches (patch_embed m)) (Z.to_nat (num_features m))
       (Z.to_nat (cfg_num_classes c)).
Proof.
  intros Hinit Hdist Hk. unfold init in Hinit. rewrite Hdist in Hinit.
  cbv zeta in Hinit.
  destruct (cfg_embed_layer c (cfg_embed_dim c)) as [pe|] eqn:Epe; [|discriminate].
  cbn [rbind] in Hinit.
  destruct (new_param3 1 1 (cfg_embed_dim c) gen) as [cls|] eqn:Ecls; [|discriminate].
  cbn [rbind] in Hinit.
  destruct (new_param3 1 (Z.of_nat (num_patches pe + 1)) (cfg_embed_dim c) gen)
    as [pos|] eqn:Epos; [|discriminate].
  cbn [rbind] in Hinit.
  destruct (Dropout_init (cfg_drop_rate c)) as [pd|]; [|discriminate].
  cbn [rbind] in Hinit.
  destruct (guard (0 <=? cfg_depth c)%Z RuntimeError); [|discriminate].
  cbn [rbind] in Hinit.
  destruct (rmapM _ (seq 0 (Z.to_nat (cfg_depth c)))) as [bs|] eqn:Ebs; [|discriminate].
  cbn [rbind] in Hinit.
  destruct (LayerNorm_init (cfg_embed_dim c) (cfg_norm_eps c)) as [ln|] eqn:Eln;
    [|discriminate].
  cbn [rbind] in Hinit.
  destruct (init_blocks gen c bs Ebs) as [Hlen [Hall Hidx]].
  pose proof (new_param3_wf _ _ _ _ _ Ecls) as Scls.
  pose proof (new_param3_wf _ _ _ _ _ Epos) as Spos.
  rewrite Nat2Z.id in Spos.
  pose proof (LayerNorm_init_wf _ _ _ Eln) as Hln.
  assert (Hgoal : forall pl nf,
             head_maps pl (Z.to_nat (cfg_embed_dim c)) (Z.to_nat nf) ->
             blocks m = bs /\ patch_embed m = pe
             /\ model_ok m (Z.to_nat (cfg_embed_dim c)) (Z.to_nat (cfg_num_heads c))
                  (Z.to_nat (cfg_embed_dim c / cfg_num_heads c))
                  (num_patches (patch_embed m)) (Z.to_nat (num_features m))
                  (Z.to_nat (cfg_num_classes c)) ->
             length (blocks m) = Z.to_nat (cfg_depth c)
             /\ Ok pe = Ok (patch_embed m)
             /\ model_ok m (Z.to_nat (cfg_embed_dim c)) (Z.to_nat (cfg_num_heads c))
                  (Z.to_nat (cfg_embed_dim c / cfg_num_heads c))
                  (num_patches (patch_embed m)) (Z.to_nat (num_features m))
                  (Z.to_nat (cfg_num_classes c))).
  { intros pl nf _ [Eb [Ep Hm]].
    split; [rewrite Eb; exact Hlen|]. split; [rewrite Ep; reflexivity | exact Hm]. }
  destruct (cfg_representation_size c) as [r|].
  - destruct (r =? 0)%Z; cbn [negb andb] in Hinit.
    + cbn [rbind] in Hinit.
      apply (Hgoal None (cfg_embed_dim c) eq_refl).
      apply (init_finish gen c pe cls pos pd bs ln None (cfg_embed_dim c) m Hk
               Scls Spos Hall Hidx Hln eq_refl Hinit).
    + destruct (Linear_init gen (cfg_embed_dim c) r true) as [l|] eqn:El; [|discriminate].
      cbn [rbind] in Hinit.
      destruct (Linear_init_wf _ _ _ _ _ El) as [_ [_ Hl]].
      apply (Hgoal (Some l) r Hl).
      apply (init_finish gen c pe cls pos pd bs ln (Some l) r m Hk
               Scls Spos Hall Hidx Hln Hl Hinit).
  - cbn [rbind] in Hinit.
    apply (Hgoal None (cfg_embed_dim c) eq_refl).
    apply (init_finish gen c pe cls pos pd bs ln None (cfg_embed_dim c) m Hk
             Scls Spos Hall Hidx Hln eq_refl Hinit).
Qed.

End ModelInit.

(** ** Further properties of the attention layer *)

(** X1: when [Attention.__init__] succeeds, [dim] and [num_heads] are
    positive, [num_heads] divides [dim], the layer index is stored as given,
    the mixing coefficient is the literal 0.6, and the parameters have the
    sizes the forward pass relies on: [qkv] maps [dim] to [3 * dim]
    features, [proj] maps [dim] to [dim], and [g_conv] is a convolution over
    [dim // num_heads] channels with kernel size, stride, dilation and
    groups 1 and no padding. *)
Theorem attention_init_establishes_sizes {Ty : Carrier} {NUM : Numeric}
    (gen : nat -> scalar) (dim num_heads : Z) (qkv_bias : bool)
    (attn_drop proj_drop : Q) (layerth : option Z) (a : Attention.t) :
  Attention.init gen dim num_heads qkv_bias attn_drop proj_drop layerth = Ok a ->
  (0 < dim)%Z /\ (0 < num_heads)%Z /\ (dim mod num_heads = 0)%Z
  /\ Attention.layerth a = layerth
  /\ Attention.alpha a = lit (6 # 10)
  /\ Attention.num_heads a = Z.to_nat num_heads
  /\ Z.to_nat dim = Z.to_nat num_heads * Z.to_nat (dim / num_heads)
  /\ linear_ok (Attention.qkv a) (Z.to_nat dim) (3 * Z.to_nat dim)
  /\ linear_ok (Attention.proj a) (Z.to_nat dim) (Z.to_nat dim)
  /\ conv_ok (Attention.g_conv a) (Z.to_nat (dim / num_heads)).
Proof.
  intros H.
  destruct (Attention_init_wf gen dim num_heads qkv_bias attn_drop proj_drop layerth
              a H) as [Hd [Hn [Hm [Hl [HH [_ [_ [HC [Hq [Hp Hg]]]]]]]]]].
  repeat (split; [assumption|]).
  split; [|repeat (split; [assumption|]); assumption].
  clear - H. unfold Attention.init in H.
  destruct (py_mod dim num_heads); [|discriminate]. cbn [rbind] in H.
  destruct (guard _ _); [|discriminate]. cbn [rbind] in H.
  destruct (py_floordiv dim num_heads); [|discriminate]. cbn [rbind] in H.
  destruct (py_pow_neg_half _); [|discriminate]. cbn [rbind] in H.
  destruct (Linear_init gen dim (dim * 3) qkv_bias); [|discriminate]. cbn [rbind] in H.
  destruct (Dropout_init attn_drop); [|discriminate]. cbn [rbind] in H.
  destruct (Linear_init gen dim dim true); [|discriminate]. cbn [rbind] in H.
  destruct (Dropout_init proj_drop); [|discriminate]. cbn [rbind] in H.
  destruct (Conv1d_init _ _ _ _); [|discriminate]. cbn [rbind] in H.
  injection H as <-. reflexivity.
Qed.

(** X2: on a sequence of shape (B, N, C), a well-sized attention layer of
    index 0 returns the pair of an output of shape (B, N, C) and the value
    tensor of shape (B, H, N, C / H), in either mode and whatever is passed
    as [v0]. *)
Theorem attention_first_layer_returns_values {Ty : Carrier} {NUM : Numeric}
    (a : Attention.t) (training : bool) (B N C H D : nat) (x : t3)
    (v0 : option t4) (s : rng) :
  attention_ok a C H D -> Attention.layerth a = Some 0%Z ->
  shape3 B N C x -> 0 < B -> 0 < N ->
  exists out s',
    Attention.forward a training x v0 s
    = Ok (Attention.Pair out (value_tensor a D x), s')
    /\ shape3 B N C out
    /\ shape4 B H N (C / H) (value_tensor a D x).
Proof.
  intros Ha Hl Hx HB HN.
  assert (Hres : Attention.residual a B N C (value_tensor a D x) v0 = Ok None).
  { apply (@residual_first_layer _ _ a B N C _ v0 0%Z Hl). lia. }
  destruct (forward_ok a training B N C H D x v0 None s Ha Hx HB HN Hres)
    as [Sv [out [s' [Ef So]]]]; [discriminate|].
  exists out, s'. unfold returned in Ef. rewrite Hl in Ef.
  split; [exact Ef|]. split; [exact So|].
  destruct Ha as [_ [HHp [_ [HC _]]]].
  replace (C / H) with D; [exact Sv|].
  rewrite HC, Nat.mul_comm. symmetry. apply Nat.div_mul. lia.
Qed.

(** X3: in a layer of positive index, with [v0] and [v] of shape
    (B, H, N, D) and the 1x1 convolution of the constructor, the
    value-residual term is computed token by token: for every sample, head
    and position it is [alpha * G (v0 - G v)], where [G] is the convolution
    acting on the [D] entries of the value vector. *)
Theorem value_residual_is_tokenwise {Ty : Carrier} {NUM : Numeric}
    (a : Attention.t) (l : Z) (B H N D C : nat) (v v0 : t4) :
  Attention.layerth a = Some l -> (0 < l)%Z ->
  Attention.num_heads a = H -> C / H = D ->
  conv_ok (Attention.g_conv a) D ->
  shape4 B H N D v0 -> shape4 B H N D v ->
  0 < B -> 0 < H -> 0 < N -> 0 < D ->
  Attention.residual a B N C v (Some v0)
  = Ok (Some (map2 (map2 (map2 (correction a))) v0 v))
  /\ shape4 B H N D (map2 (map2 (map2 (correction a))) v0 v).
Proof.
  intros Hl Hpos HH HD Hg Hv0 Hv HB HHp HN HDp. split.
  - apply (residual_value a l B H N D C v v0); assumption.
  - apply (shape4_rows_map2 (correction a) B H N D D v0 v Hv0 Hv).
    intros u u' _ _. rewrite length_correction.
    destruct Hg as [[Hw _] _]. exact Hw.
Qed.

(** X4: on a sequence of shape (B, N, C) and first-layer values of shape
    (B, H, N, D), a well-sized attention layer of positive index returns a
    single tensor of shape (B, N, C). *)
Theorem attention_later_layer_returns_tensor {Ty : Carrier} {NUM : Numeric}
    (a : Attention.t) (training : bool) (l : Z) (B N C H D : nat) (x : t3)
    (v0 : t4) (s : rng) :
  attention_ok a C H D -> Attention.layerth a = Some l -> (0 < l)%Z ->
  shape3 B N C x -> shape4 B H N D v0 -> 0 < B -> 0 < N ->
  exists out s',
    Attention.forward a training x (Some v0) s = Ok (Attention.Single out, s')
    /\ shape3 B N C out.
Proof.
  intros Ha Hl Hpos Hx Hv0 HB HN.
  pose proof Ha as [HH [HHp [HDp [HC [Hqkv [_ Hg]]]]]].
  assert (ED : C / H = D) by (rewrite HC, Nat.mul_comm; apply Nat.div_mul; lia).
  assert (Sv : shape4 B H N D (value_tensor a D x)).
  { destruct (linear3_ok Hqkv Hx) as [_ Sy]. unfold value_tensor. rewrite HH.
    apply (unbind_qkv_shape B N H D 2); [rewrite <- HC; exact Sy | lia]. }
  destruct (forward_ok a training B N C H D x (Some v0)
              (Some (map2 (map2 (map2 (correction a))) v0 (value_tensor a D x)))
              s Ha Hx HB HN) as [_ [out [s' [Ef So]]]].
  - apply (residual_value a l B H N D C); assumption.
  - intros r Hr. injection Hr as <-.
    apply (shape4_rows_map2 (correction a) B H N D D); try assumption.
    intros u u' _ _. rewrite length_correction.
    destruct Hg as [[Hw _] _]. exact Hw.
  - exists out, s'. split; [|exact So].
    rewrite Ef. unfold returned. rewrite Hl.
    destruct l as [|l'|l']; try lia. reflexivity.
Qed.

Section AttentionExamples.
#[local] Existing Instance Q_carrier.
#[local] Existing Instance Q_numeric.

Lemma attention_init_establishes_sizes_example :
  exists a,
    Attention.init sparse_gen 8 2 false 0 0 (Some 3%Z) = Ok a
    /\ Attention.layerth a = Some 3%Z
    /\ Attention.num_heads a = 2
    /\ linear_ok (Attention.qkv a) 8 24
    /\ conv_ok (Attention.g_conv a) 4.
Proof.
  eexists. split; [vm_compute; reflexivity|].
  destruct (@attention_init_establishes_sizes Q_carrier Q_numeric sparse_gen 8%Z 2%Z
              false 0%Q 0%Q (Some 3%Z) _ ltac:(vm_compute; reflexivity))
    as [_ [_ [_ [Hl [_ [HH [_ [Hq [_ Hg]]]]]]]]].
  split; [exact Hl|]. split; [exact HH|]. split; [exact Hq | exact Hg].
Defined.

Lemma attention_first_layer_returns_values_example :
  exists a,
    Attention.init sparse_gen 2 1 true 0 0 (Some 0%Z) = Ok a
    /\ (exists out s',
          Attention.forward a true toy_tokens (Some toy_v0) 0
          = Ok (Attention.Pair out (value_tensor a 2 toy_tokens), s')
          /\ shape3 1 2 2 out
          /\ shape4 1 1 2 (2 / 1) (value_tensor a 2 toy_tokens))
    /\ value_tensor a 2 toy_tokens = [[[[0%Q; 0%Q]; [0%Q; 0%Q]]]].
Proof.
  eexists. split; [vm_compute; reflexivity|]. split.
  - apply (@attention_first_layer_returns_values Q_carrier Q_numeric _ true 1 2 2 1 2
             toy_tokens (Some toy_v0) 0%nat).
    + apply (Attention_init_wf sparse_gen 2 1 true 0 0 (Some 0%Z)).
      vm_compute. reflexivity.
    + reflexivity.
    + vm_compute. repeat constructor.
    + repeat constructor.
    + repeat constructor.
  - vm_compute. reflexivity.
Defined.

Lemma value_residual_is_tokenwise_example :
  exists a,
    Attention.init sparse_gen 2 1 true 0 0 (Some 1%Z) = Ok a
    /\ Attention.residual a 1 2 2 [[[[1%Q; 2%Q]; [3%Q; 4%Q]]]] (Some toy_v0)
       = Ok (Some (map2 (map2 (map2 (correction a))) toy_v0
                     [[[[1%Q; 2%Q]; [3%Q; 4%Q]]]]))
    /\ Attention.residual a 1 2 2 [[[[1%Q; 2%Q]; [3%Q; 4%Q]]]] (Some toy_v0)
       = Ok (Some [[[[(-3 # 5)%Q; (3 # 5)%Q]; [0%Q; (3 # 5)%Q]]]]).
Proof.
  eexists. split; [vm_compute; reflexivity|]. split.
  - apply (@value_residual_is_tokenwise Q_carrier Q_numeric _ 1%Z 1 1 2 2 2
             [[[[1%Q; 2%Q]; [3%Q; 4%Q]]]] toy_v0).
    + reflexivity.
    + reflexivity.
    + reflexivity.
    + reflexivity.
    + unfold conv_ok. vm_compute. repeat econstructor.
    + vm_compute. repeat constructor.
    + vm_compute. repeat constructor.
    + repeat constructor.
    + repeat constructor.
    + repeat constructor.
    + repeat constructor.
  - vm_compute. reflexivity.
Defined.

Lemma attention_later_layer_returns_tensor_example :
  exists a,
    Attention.init sparse_gen 2 1 true 0 0 (Some 1%Z) = Ok a
    /\ (exists out s',
          Attention.forward a true toy_tokens (Some toy_v0) 0
          = Ok (Attention.Single out, s')
          /\ shape3 1 2 2 out).
Proof.
  eexists. split; [vm_compute; reflexivity|].
  apply (@attention_later_layer_returns_tensor Q_carrier Q_numeric _ true 1%Z 1 2 2 1 2
           toy_tokens toy_v0 0%nat).
  - apply (Attention_init_wf sparse_gen 2 1 true 0 0 (Some 1%Z)).
    vm_compute. reflexivity.
  - reflexivity.
  - reflexivity.
  - vm_compute. repeat constructor.
  - vm_compute. repeat constructor.
  - repeat constructor.
  - repeat constructor.
Defined.

End AttentionExamples.

Section AttentionErrors.
Context {Ty : Carrier} {NUM : Numeric}.

(** On a well-sized layer and input, the first step of [forward] that can
    fail is the value-residual term: its exception is the one of the call. *)
Lemma forward_residual_error (a : Attention.t) (training : bool) (B N C H D : nat)
    (x : t3) (v0 : option t4) (e : error) (s : rng) :
  attention_ok a C H D -> shape3 B N C x -> 0 < B -> 0 < N ->
  Attention.residual a B N C (value_tensor a D x) v0 = Err e ->
  Attention.forward a training x v0 s = Err e.
Proof.
  intros [HH [HHp [HDp [HC [Hqkv [Hproj _]]]]]] Hx HB HN Hres.
  destruct (linear3_ok Hqkv Hx) as [Ey Sy].
  assert (ED : C / H = D) by (rewrite HC, Nat.mul_comm; apply Nat.div_mul; lia).
  unfold Attention.forward.
  rewrite (dims3_shape B N C x Hx HB HN). cbv beta iota.
  unfold bind at 1. unfold lift at 1. rewrite Ey.
  unfold bind at 1. unfold lift at 1. rewrite HH, (floordiv_ok C H HHp), ED.
  unfold bind at 1. unfold lift at 1.
  rewrite (length_flat3 B N (3 * C) _ Sy).
  replace (B * N * (3 * C) =? B * N * 3 * H * D) with true
    by (symmetry; apply Nat.eqb_eq; rewrite HC; lia).
  cbn [guard].
  set (q := unbind_qkv H D 0 _). set (k := unbind_qkv H D 1 _).
  set (v := unbind_qkv H D 2 _).
  assert (Ev : v = value_tensor a D x) by (unfold v, value_tensor; rewrite HH; reflexivity).
  destruct (dropout4_total (Attention.attn_drop a) training
              (softmax4 (mul_scalar4 (matmul4 q (transpose_last k))
                           (Attention.scale a))) s)
    as [attn [s1 [Edrop _]]].
  unfold bind at 1. rewrite Edrop.
  unfold bind at 1. unfold lift at 1. rewrite Ev, Hres. reflexivity.
Qed.

End AttentionErrors.

(** X5: on a well-sized layer and a sequence of shape (B, N, C), a layer
    built without a layer index (the default [layerth=None]) fails with the
    type error of [None > 0] whatever [v0] is, and a layer of positive index
    called without [v0] fails with the attribute error of [None.reshape]. *)
Theorem attention_exceptions {Ty : Carrier} {NUM : Numeric}
    (a : Attention.t) (training : bool) (B N C H D : nat) (x : t3) (s : rng) :
  attention_ok a C H D -> shape3 B N C x -> 0 < B -> 0 < N ->
  (Attention.layerth a = None ->
   forall v0, Attention.forward a training x v0 s = Err TypeError)
  /\ (forall l, Attention.layerth a = Some l -> (0 < l)%Z ->
                Attention.forward a training x None s = Err AttributeError).
Proof.
  intros Ha Hx HB HN. split.
  - intros Hl v0.
    apply (forward_residual_error a training B N C H D x v0 TypeError s Ha Hx HB HN).
    unfold Attention.residual. rewrite Hl. reflexivity.
  - intros l Hl Hpos.
    apply (forward_residual_error a training B N C H D x None AttributeError s
             Ha Hx HB HN).
    apply (@residual_missing_v0 _ _ a B N C _ l Hl Hpos).
Qed.

Section AttentionErrorExamples.
#[local] Existing Instance Q_carrier.
#[local] Existing Instance Q_numeric.

Lemma attention_exceptions_example :
  exists a,
    Attention.init sparse_gen 2 1 true 0 0 None = Ok a
    /\ Attention.forward a false toy_tokens (Some toy_v0) 0 = Err TypeError.
Proof.
  eexists. split; [vm_compute; reflexivity|].
  apply (@attention_exceptions Q_carrier Q_numeric _ false 1 2 2 1 2 toy_tokens 0%nat).
  - apply (Attention_init_wf sparse_gen 2 1 true 0 0 None).
    vm_compute. reflexivity.
  - vm_compute. repeat constructor.
  - repeat constructor.
  - repeat constructor.
  - reflexivity.
Defined.

End AttentionErrorExamples.

(** ** Blocks and the whole model on well-sized inputs *)

Section BlockErrors.
Context {Ty : Carrier} {NUM : Numeric}.

(** The block of index 0 never reads the [v0] it is passed. *)
Lemma Block_first_ignores_v0 (b : Block.t) (training : bool) (x : t3)
    (v0 v0' : option t4) (s : rng) :
  Block.layerth b = Some 0%Z ->
  Block.forward b training x v0 s = Block.forward b training x v0' s.
Proof.
  intros Hl. unfold Block.forward. rewrite Hl. reflexivity.
Qed.

(** A block of positive index called without [v0] fails in its attention. *)
Lemma Block_forward_missing_v0 (b : Block.t) (training : bool) (l : Z)
    (B N C H D : nat) (x : t3) (s : rng) :
  block_ok b C H D -> Block.layerth b = Some l -> (0 < l)%Z ->
  shape3 B N C x -> 0 < B -> 0 < N ->
  Block.forward b training x None s = Err AttributeError.
Proof.
  intros Hb Hl Hpos Hx HB HN. pose proof Hb as [Hn1 [Ha [_ [_ Hsame]]]].
  destruct (layer_norm3_ok Hn1 Hx) as [E1 S1].
  assert (Hla : Attention.layerth (Block.attn b) = Some l) by congruence.
  assert (Ef : Attention.forward (Block.attn b) training
                 (map (map (layer_norm_out (Block.norm1 b))) x) None s
               = Err AttributeError).
  { apply (forward_residual_error (Block.attn b) training B N C H D _ None
             AttributeError s Ha S1 HB HN).
    apply (@residual_missing_v0 _ _ (Block.attn b) B N C _ l Hla Hpos). }
  unfold Block.forward.
  unfold bind at 1. unfold lift at 1. rewrite E1.
  rewrite Hl. unfold Block.is_first.
  replace (l =? 0)%Z with false by (symmetry; apply Z.eqb_neq; lia).
  unfold bind at 1. unfold bind at 1. rewrite Ef. reflexivity.
Qed.

End BlockErrors.

(** X6: on a sequence of shape (B, N, C), a well-sized block of index 0
    returns the pair [(x, v0)] of an output of shape (B, N, C) and the value
    tensor of its attention, of shape (B, H, N, D); the result is the same
    whatever [v0] the caller passes. *)
Theorem block_first_layer_returns_pair {Ty : Carrier} {NUM : Numeric}
    (b : Block.t) (training : bool) (B N C H D : nat) (x : t3) (s : rng) :
  block_ok b C H D -> Block.layerth b = Some 0%Z ->
  shape3 B N C x -> 0 < B -> 0 < N ->
  exists out s',
    (forall v0, Block.forward b training x v0 s
                = Ok (Block.Pair out (block_values b D x), s'))
    /\ shape3 B N C out
    /\ shape4 B H N D (block_values b D x).
Proof.
  intros Hb Hl Hx HB HN.
  destruct (Block_forward_first b training B N C H D x None s Hb Hl Hx HB HN)
    as [Sv [out [s' [Ef So]]]].
  exists out, s'. split; [|split; assumption].
  intros v0. rewrite (Block_first_ignores_v0 b training x v0 None s Hl). exact Ef.
Qed.

(** X7: on a sequence of shape (B, N, C), a well-sized block of positive
    index returns a single tensor of shape (B, N, C) when it is given a [v0]
    of shape (B, H, N, D), and fails with the attribute error of
    [None.reshape] when [v0] is left at its default. *)
Theorem block_later_layer_needs_v0 {Ty : Carrier} {NUM : Numeric}
    (b : Block.t) (training : bool) (l : Z) (B N C H D : nat) (x : t3) (s : rng) :
  block_ok b C H D -> Block.layerth b = Some l -> (0 < l)%Z ->
  shape3 B N C x -> 0 < B -> 0 < N ->
  (forall v0, shape4 B H N D v0 ->
              exists out s',
                Block.forward b training x (Some v0) s = Ok (Block.Single out, s')
                /\ shape3 B N C out)
  /\ Block.forward b training x None s = Err AttributeError.
Proof.
  intros Hb Hl Hpos Hx HB HN. split.
  - intros v0 Hv0.
    apply (Block_forward_later b training l B N C H D x v0 s Hb Hl Hpos Hx Hv0 HB HN).
  - apply (Block_forward_missing_v0 b training l B N C H D x s Hb Hl Hpos Hx HB HN).
Qed.

Section ModelErrors.
Context {Ty : Carrier} {NUM : Numeric}.

Import VisionTransformer.

(** With fewer than eleven blocks, all of them well-sized, every block that
    exists runs and the pass stops at the first missing index. *)
Lemma forward_features_short_error (m : t) (training : bool) (E H D P F K B : nat)
    (img : t4) (x0 : t3) (s : rng) :
  model_ok m E H D P F K -> length (blocks m) < 11 ->
  pe_forward (patch_embed m) img = Ok x0 -> shape3 B P E x0 -> 0 < B ->
  forward_features m training img s = Err (IndexError (length (blocks m))).
Proof.
  intros Hm Hd Hpe Hx0 HB.
  destruct (embed_ok m training E H D P F K B img x0 s Hm Hpe Hx0) as [x1 [s1 [Ee S1]]].
  unfold forward_features, get_block.
  unfold bind at 1. rewrite Ee.
  destruct (nth_error (blocks m) 0) as [b0|] eqn:Eb.
  - assert (Hlen : 1 <= length (blocks m)).
    { destruct (blocks m); [discriminate | simpl; lia]. }
    destruct (model_ok_block m E H D P F K 0 b0 Hm Eb) as [Hb Hl].
    destruct (Block_forward_first b0 training B (S P) E H D x1 None s1 Hb Hl S1 HB
                ltac:(lia)) as [Sv [x2 [s2 [Ef S2]]]].
    destruct (loop_ok m training E H D P F K B (block_values b0 D x1)
                (seq 1 (length (blocks m) - 1)) Hm)
      with (x := x2) (s := s2) as [x3 [s3 [El S3]]]; try assumption.
    { intros i Hi. apply in_seq in Hi. lia. }
    unfold bind at 1. unfold lift at 1.
    unfold bind at 1. rewrite Ef.
    unfold bind at 1.
    rewrite (loop_stops_at_depth m training (block_values b0 D x1) x2 s2
               (x' := x3) (s' := s3)); [reflexivity | lia | exact El].
  - apply nth_error_None in Eb.
    replace (length (blocks m)) with 0 by lia. reflexivity.
Qed.

End ModelErrors.

(** X8: a well-sized model without distillation token that has at least
    eleven blocks maps every non-empty batch, whose patch embedding has shape
    (B, P, E), to logits of shape (B, num_classes), in training and in eval
    mode. *)
Theorem forward_returns_logits {Ty : Carrier} {NUM : Numeric}
    (m : VisionTransformer.t) (training : bool) (E H D P F K B : nat)
    (img : t4) (x0 : t3) (s : rng) :
  model_ok m E H D P F K -> 11 <= length (VisionTransformer.blocks m) ->
  VisionTransformer.pe_forward (VisionTransformer.patch_embed m) img = Ok x0 ->
  shape3 B P E x0 -> 0 < B ->
  exists logits s',
    VisionTransformer.forward m training img s
    = Ok (VisionTransformer.Logits logits, s')
    /\ shape2 B K logits.
Proof.
  intros Hm Hd Hpe Hx0 HB.
  apply (model_forward_ok m training E H D P F K B img x0 s Hm Hd Hpe Hx0 HB).
Qed.

(** X9: a well-sized model with fewer than eleven blocks fails on every
    non-empty batch with the index error of the block list, at the index
    that equals the number of blocks: all the blocks that exist have run. *)
Theorem forward_raises_index_error_at_depth {Ty : Carrier} {NUM : Numeric}
    (m : VisionTransformer.t) (training : bool) (E H D P F K B : nat)
    (img : t4) (x0 : t3) (s : rng) :
  model_ok m E H D P F K -> length (VisionTransformer.blocks m) < 11 ->
  VisionTransformer.pe_forward (VisionTransformer.patch_embed m) img = Ok x0 ->
  shape3 B P E x0 -> 0 < B ->
  VisionTransformer.forward m training img s
  = Err (IndexError (length (VisionTransformer.blocks m))).
Proof.
  intros Hm Hd Hpe Hx0 HB.
  unfold VisionTransformer.forward. unfold bind at 1.
  rewrite (forward_features_short_error m training E H D P F K B img x0 s
             Hm Hd Hpe Hx0 HB).
  reflexivity.
Qed.

(** X10: when [VisionTransformer.__init__] succeeds for a configuration
    without distillation and with a positive number of classes, it has built
    [depth] blocks, the block at position [i] and its attention carry the
    layer index [i], and the parameters have the sizes the forward pass
    needs. *)
Theorem constructor_numbers_the_blocks {Ty : Carrier} {NUM : Numeric}
    (gen : nat -> scalar) (c : VisionTransformer.config) (m : VisionTransformer.t) :
  VisionTransformer.init gen c = Ok m ->
  VisionTransformer.cfg_distilled c = false ->
  (0 < VisionTransformer.cfg_num_classes c)%Z ->
  length (VisionTransformer.blocks m) = Z.to_nat (VisionTransformer.cfg_depth c)
  /\ (forall i b, nth_error (VisionTransformer.blocks m) i = Some b ->
                  Block.layerth b = Some (Z.of_nat i)
                  /\ Attention.layerth (Block.attn b) = Some (Z.of_nat i))
  /\ model_ok m (Z.to_nat (VisionTransformer.cfg_embed_dim c))
       (Z.to_nat (VisionTransformer.cfg_num_heads c))
       (Z.to_nat (VisionTransformer.cfg_embed_dim c / VisionTransformer.cfg_num_heads c))
       (VisionTransformer.num_patches (VisionTransformer.patch_embed m))
       (Z.to_nat (VisionTransformer.num_features m))
       (Z.to_nat (VisionTransformer.cfg_num_classes c)).
Proof.
  intros Hinit Hdist Hk.
  destruct (init_wf gen c m Hinit Hdist Hk) as [Hlen [_ Hm]].
  split; [exact Hlen|]. split; [|exact Hm].
  intros i b Hb.
  destruct (model_ok_block m _ _ _ _ _ _ i b Hm Hb) as [[_ [_ [_ [_ Hsame]]]] Hl].
  split; [exact Hl | rewrite <- Hsame; exact Hl].
Qed.

Section ModelExamples.
#[local] Existing Instance Q_carrier.
#[local] Existing Instance Q_numeric.

Lemma block_first_layer_returns_pair_example :
  exists b,
    Block.init sparse_gen 2 1 1 true 0 0 0 gelu 1 (Some 0%Z) = Ok b
    /\ exists out s',
         (forall v0, Block.forward b true toy_tokens v0 0
                     = Ok (Block.Pair out (block_values b 2 toy_tokens), s'))
         /\ shape3 1 2 2 out
         /\ shape4 1 1 2 2 (block_values b 2 toy_tokens).
Proof.
  eexists. split; [vm_compute; reflexivity|].
  apply (@block_first_layer_returns_pair Q_carrier Q_numeric _ true 1 2 2 1 2
           toy_tokens 0%nat).
  - apply (Block_init_wf sparse_gen 2 1 1 true 0 0 0 gelu 1 (Some 0%Z)).
    vm_compute. reflexivity.
  - reflexivity.
  - vm_compute. repeat constructor.
  - repeat constructor.
  - repeat constructor.
Defined.

Lemma block_later_layer_needs_v0_example :
  exists b,
    Block.init sparse_gen 2 1 1 true 0 0 0 gelu 1 (Some 3%Z) = Ok b
    /\ (forall v0, shape4 1 1 2 2 v0 ->
                   exists out s',
                     Block.forward b true toy_tokens (Some v0) 0
                     = Ok (Block.Single out, s')
                     /\ shape3 1 2 2 out)
    /\ Block.forward b true toy_tokens None 0 = Err AttributeError.
Proof.
  eexists. split; [vm_compute; reflexivity|].
  apply (@block_later_layer_needs_v0 Q_carrier Q_numeric _ true 3%Z 1 2 2 1 2
           toy_tokens 0%nat).
  - apply (Block_init_wf sparse_gen 2 1 1 true 0 0 0 gelu 1 (Some 3%Z)).
    vm_compute. reflexivity.
  - reflexivity.
  - reflexivity.
  - vm_compute. repeat constructor.
  - repeat constructor.
  - repeat constructor.
Defined.

Lemma forward_returns_logits_example :
  exists m,
    VisionTransformer.init sparse_gen (small_config 11) = Ok m
    /\ exists logits s',
         VisionTransformer.forward m true toy_image 0
         = Ok (VisionTransformer.Logits logits, s')
         /\ shape2 1 2 logits.
Proof.
  eexists. split; [vm_compute; reflexivity|].
  apply (@forward_returns_logits Q_carrier Q_numeric _ true 2 1 2 1 2 2 1
           toy_image [[[1%Q; 2%Q]]] 0%nat).
  - apply (init_wf sparse_gen (small_config 11)); [vm_compute|..]; reflexivity.
  - vm_compute. repeat constructor.
  - reflexivity.
  - vm_compute. repeat constructor.
  - repeat constructor.
Defined.

Lemma forward_raises_index_error_at_depth_example :
  exists m,
    VisionTransformer.init sparse_gen (small_config 4) = Ok m
    /\ VisionTransformer.forward m false toy_image 0 = Err (IndexError 4).
Proof.
  eexists. split; [vm_compute; reflexivity|].
  rewrite (@forward_raises_index_error_at_depth Q_carrier Q_numeric _ false 2 1 2 1 2 2 1
             toy_image [[[1%Q; 2%Q]]] 0%nat).
  - reflexivity.
  - apply (init_wf sparse_gen (small_config 4)); [vm_compute|..]; reflexivity.
  - vm_compute. repeat constructor.
  - reflexivity.
  - vm_compute. repeat constructor.
  - repeat constructor.
Defined.

Lemma constructor_numbers_the_blocks_example :
  exists m,
    VisionTransformer.init sparse_gen (small_config 3) = Ok m
    /\ length (VisionTransformer.blocks m) = 3
    /\ (forall i b, nth_error (VisionTransformer.blocks m) i = Some b ->
                    Block.layerth b = Some (Z.of_nat i)
                    /\ Attention.layerth (Block.attn b) = Some (Z.of_nat i)).
Proof.
  eexists. split; [vm_compute; reflexivity|].
  destruct (@constructor_numbers_the_blocks Q_carrier Q_numeric sparse_gen
              (small_config 3) _ ltac:(vm_compute; reflexivity) eq_refl eq_refl)
    as [Hlen [Hidx _]].
  split; [exact Hlen | exact Hidx].
Defined.

End ModelExamples.

(** ** Replacing the classifier *)

Section ResetClassifier.
Context {Ty : Carrier} {NUM : Numeric}.

Import VisionTransformer.

(** [VisionTransformer.reset_classifier] (lines 224-229).  [gen] initialises
    the new parameters and [norm_eps] is the [eps] of the stored
    [self.norm_layer].  [head_dist] is rebuilt when [num_tokens == 2], which
    the constructor sets exactly for a model with a distillation token;
    [reverse_head] is not assigned. *)
Definition reset_classifier (gen : nat -> scalar) (norm_eps : Q) (m : t)
    (num_classes : Z) : result t :=
  (head <- head_init gen (embed_dim m) num_classes num_classes ;;
   dist <- (if num_tokens m =? 2 then
              match distilled m with
              | Some d =>
                  h <- head_init gen (embed_dim m) num_classes num_classes ;;
                  Ok (Some {| dist_token := dist_token d; head_dist := h |})
              | None => Ok None
              end
            else Ok (distilled m)) ;;
   norm <- LayerNorm_init (embed_dim m) norm_eps ;;
   Ok {| num_classes := num_classes;
         num_features := num_features m;
         embed_dim := embed_dim m;
         num_tokens := num_tokens m;
         patch_embed := patch_embed m;
         cls_token := cls_token m;
         distilled := dist;
         pos_embed := pos_embed m;
         pos_drop := pos_drop m;
         blocks := blocks m;
         norm := norm;
         pre_logits := pre_logits m;
         head := head;
         reverse_head := reverse_head m |})%result.

(** A linear layer rejects rows that do not have [in_features] entries. *)
Lemma linear2_mismatch (l : Linear) (a i : nat) (x : t2) :
  in_features l <> i -> shape2 a i x -> 0 < a ->
  linear2 l x = Err RuntimeError.
Proof.
  intros Hne [Hlen Hall] Ha.
  destruct x as [|row x]; [simpl in Hlen; lia|].
  inversion Hall as [|? ? Hrow _]; subst.
  unfold linear2. simpl. unfold linear_row.
  replace (length row =? in_features l) with false; [reflexivity|].
  symmetry. apply Nat.eqb_neq. unfold shape1 in Hrow. congruence.
Qed.

(** What [reset_classifier] returns on a model without distillation token,
    for a positive number of classes. *)
Lemma reset_classifier_ok (gen : nat -> scalar) (norm_eps : Q) (m : t) (k : Z)
    (E : nat) :
  distilled m = None -> embed_dim m = Z.of_nat E -> (0 < k)%Z ->
  exists h ln,
    linear_ok h E (Z.to_nat k) /\ ln_ok ln E
    /\ reset_classifier gen norm_eps m k
       = Ok {| num_classes := k;
               num_features := num_features m;
               embed_dim := embed_dim m;
               num_tokens := num_tokens m;
               patch_embed := patch_embed m;
               cls_token := cls_token m;
               distilled := None;
               pos_embed := pos_embed m;
               pos_drop := pos_drop m;
               blocks := blocks m;
               norm := ln;
               pre_logits := pre_logits m;
               head := Some h;
               reverse_head := reverse_head m |}.
Proof.
  intros Hdist HE Hk.
  destruct (@Linear_init_ok _ gen (embed_dim m) k true) as [h [Eh _]]; try lia.
  destruct (@LayerNorm_init_ok _ _ (embed_dim m) norm_eps) as [ln Eln]; [lia|].
  exists h, ln.
  destruct (Linear_init_wf _ _ _ _ _ Eh) as [_ [_ Hh]].
  pose proof (LayerNorm_init_wf _ _ _ Eln) as Hln.
  rewrite HE, Nat2Z.id in Hh, Hln.
  split; [exact Hh|]. split; [exact Hln|].
  unfold reset_classifier, head_init.
  replace (0 <? k)%Z with true by (symmetry; apply Z.ltb_lt; exact Hk).
  rewrite Eh. cbn [rbind]. rewrite Hdist.
  replace (if num_tokens m =? 2 then Ok None else Ok None)
    with (@Ok (option Distilled) None) by (destruct (num_tokens m =? 2); reflexivity).
  cbn [rbind]. rewrite Eln. reflexivity.
Qed.

(** The feedback step fails when the head and [reverse_head] disagree on the
    number of classes, or the head does not take the pre-logits width. *)
Lemma feedback_stale_error (m : t) (E F k K E' B P : nat) (h l : Linear) (x : t3) :
  ln_ok (norm m) E -> head_maps (pre_logits m) E F ->
  head m = Some h -> linear_ok h E k ->
  reverse_head m = Some l -> linear_ok l K E' ->
  k <> K \/ F <> E ->
  shape3 B (S P) E x -> 0 < B ->
  feedback m x = Err RuntimeError.
Proof.
  intros Hln Hpl Hh Hhok Hr Hrok Hne Hx HB.
  destruct (layer_norm3_ok Hln Hx) as [En Sn].
  destruct (select0_ok Sn) as [Ec Sc].
  destruct (@apply_pre_logits_ok _ _ _ _ _ _ _ Hpl Sc) as [p [Ep Sp]].
  unfold feedback. rewrite En. cbn [rbind]. rewrite Ec. cbn [rbind].
  rewrite Ep. cbn [rbind]. rewrite Hh, Hr. unfold apply_head.
  destruct (Nat.eq_dec F E) as [HFE | HFE].
  - subst F. destruct Hne as [Hne | Hne]; [|contradiction].
    destruct (@linear2_ok _ _ h E k B p Hhok Sp) as [Em Sm].
    rewrite Em. cbn [rbind].
    rewrite (@linear2_mismatch l B k _); [reflexivity | | exact Sm | exact HB].
    destruct Hrok as [Hi _]. rewrite Hi. congruence.
  - rewrite (@linear2_mismatch h B F p); [reflexivity | | exact Sp | exact HB].
    destruct Hhok as [Hi _]. rewrite Hi. congruence.
Qed.

(** A model that shares its embedding and its blocks with a well-sized one,
    and whose feedback step fails, fails in the first turn of the loop. *)
Lemma forward_feedback_error (m m' : t) (training : bool) (E H D P F K B : nat)
    (img : t4) (x0 : t3) (e : error) (s : rng) :
  model_ok m E H D P F K -> 2 <= length (blocks m) ->
  patch_embed m' = patch_embed m -> cls_token m' = cls_token m ->
  distilled m' = distilled m -> pos_embed m' = pos_embed m ->
  pos_drop m' = pos_drop m -> blocks m' = blocks m ->
  (forall x, shape3 B (S P) E x -> feedback m' x = Err e) ->
  pe_forward (patch_embed m) img = Ok x0 -> shape3 B P E x0 -> 0 < B ->
  forward m' training img s = Err e.
Proof.
  intros Hm Hd Hpe' Hcls Hdist Hpos Hpd Hbl Hfb Hpe Hx0 HB.
  destruct (embed_ok m training E H D P F K B img x0 s Hm Hpe Hx0) as [x1 [s1 [Ee S1]]].
  assert (Ee' : embed m' training img s = Ok (x1, s1)).
  { rewrite <- Ee. unfold embed. rewrite Hpe', Hcls, Hdist, Hpos, Hpd. reflexivity. }
  destruct (nth_error (blocks m) 0) as [b0|] eqn:Eb0;
    [|apply nth_error_None in Eb0; lia].
  destruct (nth_error (blocks m) 1) as [b1|] eqn:Eb1;
    [|apply nth_error_None in Eb1; lia].
  destruct (model_ok_block m E H D P F K 0 b0 Hm Eb0) as [Hb0 Hl0].
  destruct (model_ok_block m E H D P F K 1 b1 Hm Eb1) as [Hb1 Hl1].
  destruct (Block_forward_first b0 training B (S P) E H D x1 None s1 Hb0 Hl0 S1 HB
              ltac:(lia)) as [Sv [x2 [s2 [Ef S2]]]].
  destruct (Block_forward_later b1 training (Z.of_nat 1) B (S P) E H D x2
              (block_values b0 D x1) s2 Hb1 Hl1 ltac:(lia) S2 Sv HB ltac:(lia))
    as [x3 [s3 [Ef1 S3]]].
  unfold forward. unfold bind at 1.
  unfold forward_features, get_block.
  unfold bind at 1. rewrite Ee'. rewrite Hbl.
  unfold bind at 1. unfold lift at 1. rewrite Eb0.
  unfold bind at 1. rewrite Ef.
  unfold bind at 1.
  cbn [seq for_each]. unfold bind at 1.
  unfold loop_body at 1, get_block. rewrite Hbl.
  unfold bind at 1. unfold lift at 1. rewrite Eb1.
  unfold bind at 1. rewrite Ef1.
  unfold lift. rewrite (Hfb x3 S3). reflexivity.
Qed.

End ResetClassifier.

(** X11: [reset_classifier] replaces [head] and [norm] and leaves
    [reverse_head] as the constructor built it.  On a well-sized model with a
    linear [reverse_head] and at least two blocks, resetting to a positive
    number of classes other than the one the model was built with (or on a
    model whose pre-logits width is not the embedding width) succeeds, and
    afterwards every forward pass on a non-empty batch fails with a shape
    error in the first feedback step. *)
Theorem reset_classifier_breaks_feedback {Ty : Carrier} {NUM : Numeric}
    (gen : nat -> scalar) (norm_eps : Q) (m : VisionTransformer.t) (k : Z)
    (l : Linear) (training : bool) (E H D P F K B : nat)
    (img : t4) (x0 : t3) (s : rng) :
  model_ok m E H D P F K ->
  VisionTransformer.embed_dim m = Z.of_nat E ->
  VisionTransformer.reverse_head m = Some l ->
  2 <= length (VisionTransformer.blocks m) ->
  (0 < k)%Z -> Z.to_nat k <> K \/ F <> E ->
  VisionTransformer.pe_forward (VisionTransformer.patch_embed m) img = Ok x0 ->
  shape3 B P E x0 -> 0 < B ->
  exists m',
    reset_classifier gen norm_eps m k = Ok m'
    /\ VisionTransformer.reverse_head m' = VisionTransformer.reverse_head m
    /\ VisionTransformer.forward m' training img s = Err RuntimeError.
Proof.
  intros Hm HE Hr Hd Hk Hne Hpe Hx0 HB.
  pose proof Hm as [Hdist [_ [_ [_ [_ [_ [Hpl [_ Hrh]]]]]]]].
  destruct (reset_classifier_ok gen norm_eps m k E Hdist HE Hk)
    as [h [ln [Hh [Hln Er]]]].
  eexists. split; [exact Er|]. split; [reflexivity|].
  apply (forward_feedback_error m _ training E H D P F K B img x0 RuntimeError s Hm Hd);
    try reflexivity; try assumption.
  - cbn [VisionTransformer.distilled]. symmetry. exact Hdist.
  - intros x Hx. rewrite Hr in Hrh.
    apply (feedback_stale_error _ E F (Z.to_nat k) K E B P h l x); try assumption;
      reflexivity.
Qed.

(** X12: on a well-sized model whose pre-logits are the identity,
    [reset_classifier] with the number of classes the model was built with
    gives a well-sized model again, with the same blocks: only then does the
    forward pass still run. *)
Theorem reset_classifier_same_classes {Ty : Carrier} {NUM : Numeric}
    (gen : nat -> scalar) (norm_eps : Q) (m : VisionTransformer.t) (k : Z)
    (E H D P K : nat) :
  model_ok m E H D P E K ->
  VisionTransformer.embed_dim m = Z.of_nat E ->
  (0 < k)%Z -> Z.to_nat k = K ->
  exists m',
    reset_classifier gen norm_eps m k = Ok m'
    /\ VisionTransformer.blocks m' = VisionTransformer.blocks m
    /\ VisionTransformer.num_classes m' = k
    /\ model_ok m' E H D P E K.
Proof.
  intros Hm HE Hk HK.
  pose proof Hm as [Hdist [Hcls [Hpos [Hall [Hidx [_ [Hpl [_ Hrh]]]]]]]].
  destruct (reset_classifier_ok gen norm_eps m k E Hdist HE Hk)
    as [h [ln [Hh [Hln Er]]]].
  eexists. split; [exact Er|]. split; [reflexivity|]. split; [reflexivity|].
  unfold model_ok. cbn.
  split; [reflexivity|]. split; [exact Hcls|]. split; [exact Hpos|].
  split; [exact Hall|]. split; [exact Hidx|]. split; [exact Hln|].
  split; [exact Hpl|]. split; [rewrite <- HK; exact Hh | exact Hrh].
Qed.

(** ** When the constructor of the model succeeds *)

Section ModelConstruction.
Context {Ty : Carrier} {NUM : Numeric}.

Import VisionTransformer.

Lemma rmapM_ok {A B : Type} (f : A -> result B) (l : list A) :
  (forall a, In a l -> exists b, f a = Ok b) -> exists bs, rmapM f l = Ok bs.
Proof.
  induction l as [|a l IH]; intros Hf; simpl; [eauto|].
  destruct (Hf a (or_introl eq_refl)) as [b Eb]. rewrite Eb.
  destruct IH as [bs Ebs]; [intros a' Ha'; apply Hf; right; exact Ha'|].
  rewrite Ebs. eauto.
Qed.

Lemma Block_init_ok (gen : nat -> scalar) (dim num_heads : Z) (mlp_ratio : Q)
    (qkv_bias : bool) (drop attn_drop drop_path : Q) (act_layer : scalar -> scalar)
    (eps : Q) (layerth : option Z) :
  (0 < dim)%Z -> (0 < num_heads)%Z -> (dim mod num_heads = 0)%Z ->
  probability attn_drop -> probability drop -> (0 <= mlp_ratio)%Q ->
  exists b, Block.init gen dim num_heads mlp_ratio qkv_bias drop attn_drop
                       drop_path act_layer eps layerth = Ok b.
Proof.
  intros Hd Hn Hm Ha Hp Hr.
  destruct (Attention_init_ok gen qkv_bias layerth Hd Hn Hm Ha Hp) as [a [Ea _]].
  unfold Block.init.
  destruct (@LayerNorm_init_ok _ _ dim eps) as [ln Eln]; [lia|].
  rewrite Eln, Ea. cbn [rbind].
  unfold Block.Mlp_init.
  set (hidden := if (Block.py_int (inject_Z dim * mlp_ratio) =? 0)%Z then dim
                 else Block.py_int (inject_Z dim * mlp_ratio)).
  assert (Hh : (0 <= hidden)%Z).
  { unfold hidden. destruct (_ =? 0)%Z; [lia|].
    unfold Block.py_int. apply Z.quot_pos; [|lia].
    simpl. unfold Qle in Hr. simpl in Hr. nia. }
  destruct (@Linear_init_ok _ gen dim hidden true) as [l1 [E1 _]]; try lia.
  destruct (@Linear_init_ok _ gen hidden dim true) as [l2 [E2 _]]; try lia.
  rewrite E1, E2, (Dropout_init_ok Hp). cbn [rbind].
  eexists. reflexivity.
Qed.


Lemma new_param3_ok (a b c : Z) (gen : nat -> scalar) :
  (0 <= a)%Z -> (0 <= b)%Z -> (0 <= c)%Z ->
  new_param3 a b c gen = Ok (fill3 gen (Z.to_nat a) (Z.to_nat b) (Z.to_nat c)).
Proof.
  intros Ha Hb Hc. unfold new_param3.
  apply Z.leb_le in Ha. apply Z.leb_le in Hb. apply Z.leb_le in Hc.
  rewrite Ha, Hb, Hc. reflexivity.
Qed.

Lemma head_init_ok (gen : nat -> scalar) (inf outf k : Z) :
  (0 < k -> 0 <= inf)%Z -> (0 < k -> 0 <= outf)%Z ->
  exists h, head_init gen inf outf k = Ok h.
Proof.
  intros Hi Ho. unfold head_init. destruct (0 <? k)%Z eqn:Ek; [|eauto].
  apply Z.ltb_lt in Ek.
  destruct (@Linear_init_ok _ gen inf outf true) as [l [El _]]; try lia.
  rewrite El. cbn [rbind]. eauto.
Qed.

(** A configuration whose arguments are in range: the patch embedding can
    be built, sizes are positive and rates are probabilities.  Divisibility
    and the initialisation mode are left out. *)
Definition sized_config (c : config) : Prop :=
  (exists pe, cfg_embed_layer c (cfg_embed_dim c) = Ok pe)
  /\ (0 < cfg_embed_dim c)%Z /\ (0 < cfg_num_heads c)%Z
  /\ (0 <= cfg_depth c)%Z /\ (0 <= cfg_mlp_ratio c)%Q
  /\ probability (cfg_drop_rate c) /\ probability (cfg_attn_drop_rate c)
  /\ match cfg_representation_size c with Some r => (0 <= r)%Z | None => True end.

(** The modes [init_weights] knows (line 194). *)
Definition known_mode (mode : string) : Prop :=
  In mode ["jax"; "jax_nlhb"; "nlhb"; EmptyString]%string.



Lemma weight_init_guard_unknown (mode : string) :
  ~ known_mode mode ->
  existsb (String.eqb mode) ["jax"; "jax_nlhb"; "nlhb"; EmptyString]%string = false.
Proof.
  intros Hn.
  destruct (existsb (String.eqb mode) ["jax"; "jax_nlhb"; "nlhb"; EmptyString]%string)
    eqn:Ex; [|reflexivity].
  exfalso. apply Hn. apply existsb_exists in Ex. destruct Ex as [x [Hin Heq]].
  apply String.eqb_eq in Heq. subst x. exact Hin.
Qed.

(** Everything before the call of [init_weights] succeeds. *)
Lemma init_steps (gen : nat -> scalar) (c : config) :
  sized_config c ->
  ((0 < cfg_depth c)%Z -> (cfg_embed_dim c mod cfg_num_heads c = 0)%Z) ->
  exists m,
    init gen c
    = if existsb (String.eqb (cfg_weight_init c))
           ["jax"; "jax_nlhb"; "nlhb"; EmptyString]%string
      then Ok m else Err AssertionError.
Proof.
  intros [[pe Epe] [HE [HH [Hdepth [Hr [Hdrop [Hattn Hrep]]]]]]] Hmod.
  unfold init. cbv zeta. rewrite Epe. cbn [rbind].
  rewrite (new_param3_ok 1 1 (cfg_embed_dim c) gen) by lia. cbn [rbind].
  match goal with
  | |- context [rbind (if cfg_distilled c then ?a else ?b)] =>
      assert (Edist : exists dtok, (if cfg_distilled c then a else b) = Ok dtok)
  end.
  { destruct (cfg_distilled c); eauto. }
  destruct Edist as [dtok Edist]. rewrite Edist. cbn [rbind].
  rewrite new_param3_ok by lia. cbn [rbind].
  rewrite (Dropout_init_ok Hdrop). cbn [rbind].
  replace (0 <=? cfg_depth c)%Z with true by (symmetry; apply Z.leb_le; exact Hdepth).
  cbn [guard rbind].
  destruct (@rmapM_ok nat Block.t
              (fun i =>
                 Block.init gen (cfg_embed_dim c) (cfg_num_heads c) (cfg_mlp_ratio c)
                   (cfg_qkv_bias c) (cfg_drop_rate c) (cfg_attn_drop_rate c)
                   (linspace (cfg_drop_path_rate c) (cfg_depth c) i)
                   (cfg_act_layer c) (cfg_norm_eps c) (Some (Z.of_nat i)))
              (seq 0 (Z.to_nat (cfg_depth c)))) as [bs Ebs].
  { intros i Hi. apply in_seq in Hi.
    apply Block_init_ok; try assumption. apply Hmod. lia. }
  rewrite Ebs. cbn [rbind].
  destruct (@LayerNorm_init_ok _ _ (cfg_embed_dim c) (cfg_norm_eps c)) as [ln Eln]; [lia|].
  rewrite Eln. cbn [rbind].
  set (represented := match cfg_representation_size c with
                      | Some r => (negb (r =? 0)%Z && negb (cfg_distilled c))%bool
                      | None => false
                      end).
  set (nf := match cfg_representation_size c with
             | Some r => if represented then r else cfg_embed_dim c
             | None => cfg_embed_dim c
             end).
  assert (Hnf : (0 <= nf)%Z).
  { unfold nf. destruct (cfg_representation_size c) as [r|]; [|lia].
    destruct represented; lia. }
  assert (Epl : exists pl,
             (if represented
              then (l <- Linear_init gen (cfg_embed_dim c) nf true ;; Ok (Some l))%result
              else Ok None) = Ok pl).
  { destruct represented; [|eauto].
    destruct (@Linear_init_ok _ gen (cfg_embed_dim c) nf true) as [l [El _]]; try lia.
    rewrite El. cbn [rbind]. eauto. }
  destruct Epl as [pl Epl]. rewrite Epl. cbn [rbind].
  destruct (head_init_ok gen nf (cfg_num_classes c) (cfg_num_classes c)) as [h Eh];
    try lia.
  rewrite Eh. cbn [rbind].
  destruct (head_init_ok gen (cfg_num_classes c) (cfg_embed_dim c) (cfg_num_classes c))
    as [rh Erh]; try lia.
  rewrite Erh. cbn [rbind].
  destruct (cfg_distilled c).
  - destruct (head_init_ok gen (cfg_embed_dim c) (cfg_num_classes c) (cfg_num_classes c))
      as [hd Ehd]; try lia.
    rewrite Ehd. cbn [rbind]. unfold guard.
    eexists. destruct (existsb _ _); reflexivity.
  - cbn [rbind]. unfold guard.
    eexists. destruct (existsb _ _); reflexivity.
Qed.


Lemma init_unknown_mode (gen : nat -> scalar) (c : config) :
  sized_config c ->
  ((0 < cfg_depth c)%Z -> (cfg_embed_dim c mod cfg_num_heads c = 0)%Z) ->
  ~ known_mode (cfg_weight_init c) ->
  init gen c = Err AssertionError.
Proof.
  intros Hc Hmod Hw. destruct (init_steps gen c Hc Hmod) as [m Em].
  rewrite Em, (weight_init_guard_unknown _ Hw). reflexivity.
Qed.



End ModelConstruction.


(** X14: [init_weights] is called last by the constructor and asserts that
    the mode is one of 'jax', 'jax_nlhb', 'nlhb' and the empty string: on a
    configuration that is otherwise accepted, any other [weight_init] makes
    [VisionTransformer.__init__] fail with an assertion error. *)
Theorem constructor_rejects_unknown_weight_init {Ty : Carrier} {NUM : Numeric}
    (gen : nat -> scalar) (c : VisionTransformer.config) :
  sized_config c ->
  ((0 < VisionTransformer.cfg_depth c)%Z ->
   (VisionTransformer.cfg_embed_dim c mod VisionTransformer.cfg_num_heads c = 0)%Z) ->
  ~ known_mode (VisionTransformer.cfg_weight_init c) ->
  VisionTransformer.init gen c = Err AssertionError.
Proof.
  intros Hc Hmod Hw. apply (init_unknown_mode gen c Hc Hmod Hw).
Qed.

Section ConstructionExamples.
#[local] Existing Instance Q_carrier.
#[local] Existing Instance Q_numeric.

Lemma reset_classifier_breaks_feedback_example :
  exists m,
    VisionTransformer.init sparse_gen (small_config 11) = Ok m
    /\ (exists logits s',
          VisionTransformer.forward m false toy_image 0
          = Ok (VisionTransformer.Logits logits, s'))
    /\ exists m',
         reset_classifier sparse_gen 1 m 3 = Ok m'
         /\ VisionTransformer.reverse_head m' = VisionTransformer.reverse_head m
         /\ VisionTransformer.forward m' false toy_image 0 = Err RuntimeError.
Proof.
  eexists. split; [vm_compute; reflexivity|]. split.
  - eexists. eexists. vm_compute. reflexivity.
  - eapply (@reset_classifier_breaks_feedback Q_carrier Q_numeric sparse_gen 1%Q _ 3%Z
              _ false 2 1 2 1 2 2 1 toy_image [[[1%Q; 2%Q]]] 0%nat).
    + apply (init_wf sparse_gen (small_config 11)); [vm_compute|..]; reflexivity.
    + reflexivity.
    + reflexivity.
    + vm_compute. repeat constructor.
    + reflexivity.
    + left. discriminate.
    + reflexivity.
    + vm_compute. repeat constructor.
    + repeat constructor.
Defined.

Lemma reset_classifier_same_classes_example :
  exists m,
    VisionTransformer.init sparse_gen (small_config 3) = Ok m
    /\ exists m',
         reset_classifier sparse_gen 1 m 2 = Ok m'
         /\ VisionTransformer.blocks m' = VisionTransformer.blocks m
         /\ VisionTransformer.num_classes m' = 2%Z
         /\ model_ok m' 2 1 2 1 2 2.
Proof.
  eexists. split; [vm_compute; reflexivity|].
  apply (@reset_classifier_same_classes Q_carrier Q_numeric sparse_gen 1%Q _ 2%Z
           2 1 2 1 2).
  - apply (init_wf sparse_gen (small_config 3)); [vm_compute|..]; reflexivity.
  - reflexivity.
  - reflexivity.
  - reflexivity.
Defined.

Lemma small_config_sized (depth : Z) : (0 <= depth)%Z -> sized_config (small_config depth).
Proof.
  intros Hd. unfold sized_config. simpl.
  split; [eexists; reflexivity|].
  split; [lia|]. split; [lia|]. split; [exact Hd|].
  split; [discriminate|].
  split; [split; discriminate|]. split; [split; discriminate | exact I].
Qed.



(** The configuration [small_config 3] with the mode 'xavier'. *)
Definition xavier_config : VisionTransformer.config :=
  {| VisionTransformer.cfg_num_classes := 2;
     VisionTransformer.cfg_embed_dim := 2;
     VisionTransformer.cfg_depth := 3;
     VisionTransformer.cfg_num_heads := 1;
     VisionTransformer.cfg_mlp_ratio := 1;
     VisionTransformer.cfg_qkv_bias := true;
     VisionTransformer.cfg_representation_size := None;
     VisionTransformer.cfg_distilled := false;
     VisionTransformer.cfg_drop_rate := 0;
     VisionTransformer.cfg_attn_drop_rate := 0;
     VisionTransformer.cfg_drop_path_rate := 0;
     VisionTransformer.cfg_embed_layer := toy_embed_layer;
     VisionTransformer.cfg_norm_eps := 1;
     VisionTransformer.cfg_act_layer := gelu;
     VisionTransformer.cfg_weight_init := "xavier" |}.

Lemma constructor_rejects_unknown_weight_init_example :
  VisionTransformer.init sparse_gen xavier_config = Err AssertionError.
Proof.
  apply (@constructor_rejects_unknown_weight_init Q_carrier Q_numeric sparse_gen
           xavier_config).
  - apply (small_config_sized 3). lia.
  - intros _. reflexivity.
  - unfold known_mode. simpl. intros [H | [H | [H | [H | []]]]]; discriminate H.
Defined.

End ConstructionExamples.

(** ** Inputs of the wrong size, and the generator in eval mode *)

Section SizeChecks.
Context {Ty : Carrier} {NUM : Numeric}.

Lemma concat_chunks {A : Type} (count size : nat) (l : list A) :
  length l = count * size -> concat (chunks count size l) = l.
Proof.
  revert l. induction count as [|count IH]; intros l Hl; simpl.
  - destruct l; [reflexivity | discriminate].
  - rewrite IH; [apply firstn_skipn|].
    rewrite length_skipn, Hl. simpl. lia.
Qed.

Lemma flat3_unflat3 (a b c : nat) (l : t1) :
  length l = a * b * c -> flat3 (unflat3 a b c l) = l.
Proof.
  intros Hl. unfold flat3, unflat3, flat2, unflat2.
  destruct (chunks_shape a (b * c) l) as [_ Hall]; [lia|].
  rewrite map_map.
  rewrite (map_ext_in _ (fun ch => ch)).
  - rewrite map_id. apply concat_chunks. lia.
  - intros ch Hch. rewrite Forall_forall in Hall.
    apply concat_chunks. apply (Hall ch Hch).
Qed.

Lemma flat4_unflat4 (a b c d : nat) (l : t1) :
  length l = a * b * c * d -> flat4 (unflat4 a b c d l) = l.
Proof.
  intros Hl. unfold flat4, unflat4.
  destruct (chunks_shape a (b * c * d) l) as [_ Hall]; [lia|].
  rewrite map_map.
  rewrite (map_ext_in _ (fun ch => ch)).
  - rewrite map_id. apply concat_chunks. lia.
  - intros ch Hch. rewrite Forall_forall in Hall.
    apply flat3_unflat3. apply (Hall ch Hch).
Qed.

Lemma unflat4_shape (a b c d : nat) (l : t1) :
  length l = a * b * c * d -> shape4 a b c d (unflat4 a b c d l).
Proof.
  intros Hl. unfold unflat4.
  destruct (chunks_shape a (b * c * d) l) as [E F]; [lia|].
  split; [rewrite length_map; exact E|].
  apply Forall_forall. intros y Hy. apply in_map_iff in Hy.
  destruct Hy as [ch [<- Hch]]. rewrite Forall_forall in F.
  apply unflat3_shape. apply (F ch Hch).
Qed.

(** [v0] enters the residual term through [reshape] only, that is through
    its elements in row-major order. *)
Lemma residual_flat (a : Attention.t) (B N C : nat) (v v0 v0' : t4) :
  flat4 v0 = flat4 v0' ->
  Attention.residual a B N C v (Some v0) = Attention.residual a B N C v (Some v0').
Proof.
  intros Hf. unfold Attention.residual. rewrite Hf. reflexivity.
Qed.

Lemma forward_flat (a : Attention.t) (training : bool) (x : t3) (v0 v0' : t4) (s : rng) :
  flat4 v0 = flat4 v0' ->
  Attention.forward a training x (Some v0) s = Attention.forward a training x (Some v0') s.
Proof.
  intros Hf. unfold Attention.forward.
  destruct (dims3 x) as [[B N] C]. unfold bind.
  destruct (lift (linear3 (Attention.qkv a) x) s) as [[y s1]|e]; [|reflexivity].
  destruct (lift (floordiv C (Attention.num_heads a)) s1) as [[D s2]|e]; [|reflexivity].
  destruct (lift (guard _ RuntimeError) s2) as [[u s3]|e]; [|reflexivity].
  destruct (dropout4 _ training _ s3) as [[attn s4]|e]; [|reflexivity].
  rewrite (residual_flat a B N C _ v0 v0' Hf). reflexivity.
Qed.

Lemma residual_wrong_size (a : Attention.t) (l : Z) (B N C H D : nat) (v v0 : t4) :
  attention_ok a C H D -> Attention.layerth a = Some l -> (0 < l)%Z ->
  length (flat4 v0) <> B * H * N * D ->
  Attention.residual a B N C v (Some v0) = Err RuntimeError.
Proof.
  intros [HH [HHp [HDp [HC _]]]] Hl Hpos Hne.
  assert (ED : C / H = D) by (rewrite HC, Nat.mul_comm; apply Nat.div_mul; lia).
  unfold Attention.residual. rewrite Hl.
  apply Z.gtb_lt in Hpos. rewrite Hpos, HH.
  rewrite (floordiv_ok C H HHp), ED. cbn [rbind].
  unfold reshape3.
  replace (length (flat4 v0) =? B * H * N * D) with false; [reflexivity|].
  symmetry. apply Nat.eqb_neq. exact Hne.
Qed.

(** A sequence whose rows do not have the width of a linear layer or of a
    layer norm is rejected. *)
Lemma linear3_mismatch (l : Linear) (a b i : nat) (x : t3) :
  in_features l <> i -> shape3 a b i x -> 0 < a -> 0 < b ->
  linear3 l x = Err RuntimeError.
Proof.
  intros Hne [Hlen Hall] Ha Hb.
  destruct x as [|xb x]; [simpl in Hlen; lia|].
  inversion Hall as [|? ? Hxb _]; subst.
  unfold linear3. simpl.
  rewrite (linear2_mismatch l b i xb Hne Hxb Hb). reflexivity.
Qed.

Lemma layer_norm3_mismatch (ln : LayerNorm) (a b i : nat) (x : t3) :
  normalized_shape ln <> i -> shape3 a b i x -> 0 < a -> 0 < b ->
  layer_norm3 ln x = Err RuntimeError.
Proof.
  intros Hne [Hlen Hall] Ha Hb.
  destruct x as [|xb x]; [simpl in Hlen; lia|].
  inversion Hall as [|? ? [Hlb Hrows] _]; subst.
  destruct xb as [|row xb]; [simpl in Hb; lia|].
  inversion Hrows as [|? ? Hrow _]; subst.
  unfold layer_norm3. simpl. unfold layer_norm_row.
  replace (length row =? normalized_shape ln) with false; [reflexivity|].
  symmetry. apply Nat.eqb_neq. unfold shape1 in Hrow. congruence.
Qed.

End SizeChecks.

(** X15: a layer of positive index checks [v0] by its number of elements
    only.  On a sequence of shape (B, N, C), any [v0] with B * H * N * D
    elements is accepted, whatever its own shape, and gives a tensor of
    shape (B, N, C): it is read in row-major order, as if it had the shape
    (B, H, N, D).  Any other number of elements is a shape error. *)
Theorem attention_checks_v0_by_size {Ty : Carrier} {NUM : Numeric}
    (a : Attention.t) (training : bool) (l : Z) (B N C H D : nat) (x : t3)
    (v0 : t4) (s : rng) :
  attention_ok a C H D -> Attention.layerth a = Some l -> (0 < l)%Z ->
  shape3 B N C x -> 0 < B -> 0 < N ->
  (length (flat4 v0) = B * H * N * D ->
   (exists out s',
      Attention.forward a training x (Some v0) s = Ok (Attention.Single out, s')
      /\ shape3 B N C out)
   /\ Attention.forward a training x (Some v0) s
      = Attention.forward a training x (Some (unflat4 B H N D (flat4 v0))) s)
  /\ (length (flat4 v0) <> B * H * N * D ->
      Attention.forward a training x (Some v0) s = Err RuntimeError).
Proof.
  intros Ha Hl Hpos Hx HB HN. split.
  - intros Hlen.
    assert (Ef : Attention.forward a training x (Some v0) s
                 = Attention.forward a training x
                     (Some (unflat4 B H N D (flat4 v0))) s).
    { apply forward_flat. symmetry. apply flat4_unflat4. exact Hlen. }
    split; [|exact Ef]. rewrite Ef.
    pose proof Ha as [HH [HHp [HDp [HC [Hqkv [_ Hg]]]]]].
    assert (ED : C / H = D) by (rewrite HC, Nat.mul_comm; apply Nat.div_mul; lia).
    assert (Sv0 : shape4 B H N D (unflat4 B H N D (flat4 v0)))
      by (apply unflat4_shape; exact Hlen).
    assert (Sv : shape4 B H N D (value_tensor a D x)).
    { destruct (linear3_ok Hqkv Hx) as [_ Sy]. unfold value_tensor. rewrite HH.
      apply (unbind_qkv_shape B N H D 2); [rewrite <- HC; exact Sy | lia]. }
    destruct (forward_ok a training B N C H D x (Some (unflat4 B H N D (flat4 v0)))
                (Some (map2 (map2 (map2 (correction a)))
                         (unflat4 B H N D (flat4 v0)) (value_tensor a D x)))
                s Ha Hx HB HN) as [_ [out [s' [Eo So]]]].
    + apply (residual_value a l B H N D C); assumption.
    + intros r Hr. injection Hr as <-.
      apply (shape4_rows_map2 (correction a) B H N D D); try assumption.
      intros u u' _ _. rewrite length_correction.
      destruct Hg as [[Hw _] _]. exact Hw.
    + exists out, s'. split; [|exact So].
      rewrite Eo. unfold returned. rewrite Hl.
      destruct l as [|l'|l']; try lia. reflexivity.
  - intros Hne.
    apply (forward_residual_error a training B N C H D x (Some v0) RuntimeError s
             Ha Hx HB HN).
    apply (residual_wrong_size a l B N C H D _ v0 Ha Hl Hpos Hne).
Qed.

(** X16: a non-empty sequence whose tokens do not have the width the layer
    was built for is rejected with a shape error, by the [qkv] projection of
    an attention layer and by the first norm of a block. *)
Theorem wrong_width_is_rejected {Ty : Carrier} {NUM : Numeric}
    (training : bool) (B N C' : nat) (x : t3) (s : rng) :
  shape3 B N C' x -> 0 < B -> 0 < N ->
  (forall (a : Attention.t) (v0 : option t4),
     in_features (Attention.qkv a) <> C' ->
     Attention.forward a training x v0 s = Err RuntimeError)
  /\ (forall (b : Block.t) (v0 : option t4),
        normalized_shape (Block.norm1 b) <> C' ->
        Block.forward b training x v0 s = Err RuntimeError).
Proof.
  intros Hx HB HN. split.
  - intros a v0 Hne. unfold Attention.forward.
    destruct (dims3 x) as [[B0 N0] C0].
    unfold bind at 1. unfold lift at 1.
    rewrite (linear3_mismatch (Attention.qkv a) B N C' x Hne Hx HB HN). reflexivity.
  - intros b v0 Hne. unfold Block.forward.
    unfold bind at 1. unfold lift at 1.
    rewrite (layer_norm3_mismatch (Block.norm1 b) B N C' x Hne Hx HB HN). reflexivity.
Qed.

(** X17: in eval mode, or with every dropout probability at 0, a forward
    pass that returns leaves the random generator in the state it found. *)
Theorem forward_leaves_generator_without_dropout {Ty : Carrier} {NUM : Numeric}
    (m : VisionTransformer.t) (training : bool) (x : t4) (s s' : rng)
    (y : VisionTransformer.prediction) :
  training = false \/ dropout_free m ->
  VisionTransformer.forward m training x s = Ok (y, s') ->
  s' = s.
Proof.
  intros Hq Hrun.
  assert (Hm : quiet_model training m).
  { destruct Hq as [-> | Hfree]; [apply quiet_model_eval|].
    destruct training; [exact Hfree | apply quiet_model_eval]. }
  destruct (forward_constant x Hm) as [r Hr].
  rewrite Hr in Hrun. unfold lift in Hrun.
  destruct r as [a|e]; [|discriminate]. injection Hrun as _ <-. reflexivity.
Qed.

Section SizeExamples.
#[local] Existing Instance Q_carrier.
#[local] Existing Instance Q_numeric.

(** The four values of [toy_v0] laid out as (1, 2, 1, 2) and as (2, 1, 2, 1)
    instead of (1, 1, 2, 2), and a tensor with three values. *)
Lemma attention_checks_v0_by_size_example :
  exists a,
    Attention.init sparse_gen 2 1 true 0 0 (Some 1%Z) = Ok a
    /\ (exists out s',
          Attention.forward a true toy_tokens (Some [[[[1%Q; 0%Q]]; [[0%Q; 1%Q]]]]) 0
          = Ok (Attention.Single out, s')
          /\ shape3 1 2 2 out)
    /\ Attention.forward a true toy_tokens (Some [[[[1%Q; 0%Q]]; [[0%Q; 1%Q]]]]) 0
       = Attention.forward a true toy_tokens (Some toy_v0) 0.
Proof.
  eexists. split; [vm_compute; reflexivity|].
  apply (@attention_checks_v0_by_size Q_carrier Q_numeric _ true 1%Z 1 2 2 1 2
           toy_tokens [[[[1%Q; 0%Q]]; [[0%Q; 1%Q]]]] 0%nat).
  - apply (Attention_init_wf sparse_gen 2 1 true 0 0 (Some 1%Z)).
    vm_compute. reflexivity.
  - reflexivity.
  - reflexivity.
  - vm_compute. repeat constructor.
  - repeat constructor.
  - repeat constructor.
  - reflexivity.
Defined.

Lemma wrong_width_is_rejected_example :
  exists a,
    Attention.init sparse_gen 2 1 true 0 0 (Some 0%Z) = Ok a
    /\ Attention.forward a false [[[1%Q; 2%Q; 3%Q]]] None 0 = Err RuntimeError.
Proof.
  eexists. split; [vm_compute; reflexivity|].
  apply (@wrong_width_is_rejected Q_carrier Q_numeric false 1 1 3
           [[[1%Q; 2%Q; 3%Q]]] 0%nat).
  - vm_compute. repeat constructor.
  - repeat constructor.
  - repeat constructor.
  - discriminate.
Defined.

Lemma forward_leaves_generator_without_dropout_example :
  exists m,
    VisionTransformer.init sparse_gen (small_config 11) = Ok m
    /\ exists y s',
         VisionTransformer.forward m false toy_image 5 = Ok (y, s') /\ s' = 5.
Proof.
  eexists. split; [vm_compute; reflexivity|].
  match goal with
  | |- exists y s', VisionTransformer.forward ?M _ _ _ = _ /\ _ =>
      assert (Hrun : exists y s',
                 VisionTransformer.forward M false toy_image 5 = Ok (y, s'))
        by (eexists; eexists; vm_compute; reflexivity);
      destruct Hrun as [y [s' Hrun]];
      exists y, s'; split; [exact Hrun|];
      apply (@forward_leaves_generator_without_dropout Q_carrier Q_numeric M false
               toy_image 5%nat s' y (or_introl eq_refl) Hrun)
  end.
Defined.

End SizeExamples.

(** ** The model with a distillation token *)

Section DistilledRuns.
Context {Ty : Carrier} {NUM : Numeric}.

Import VisionTransformer.

(** A model with distillation token over embeddings of size [E], with [P]
    patches and two heads from [E] to [K] classes, whose block [i] carries
    the layer index [i]. *)
Definition distilled_ok (m : t) (d : Distilled) (E H D P K : nat) : Prop :=
  distilled m = Some d
  /\ shape3 1 1 E (cls_token m)
  /\ shape3 1 1 E (dist_token d)
  /\ shape3 1 (P + 2) E (pos_embed m)
  /\ Forall (fun b => block_ok b E H D) (blocks m)
  /\ (forall i b, nth_error (blocks m) i = Some b ->
                  Block.layerth b = Some (Z.of_nat i))
  /\ ln_ok (norm m) E
  /\ head_maps (pre_logits m) E E
  /\ head_maps (head m) E K
  /\ head_maps (reverse_head m) K E
  /\ head_maps (head_dist d) E K.

Lemma cat_token_shape (B T E : nat) (tok y : t3) :
  shape3 1 1 E tok -> shape3 B T E y -> shape3 B (S T) E (cat1 (expand B tok) y).
Proof.
  intros [Hlt Htok] [Hly Hy].
  destruct tok as [|t0 [|]]; try discriminate.
  inversion Htok as [|? ? [Hl0 Ht0] _]; subst.
  destruct t0 as [|crow [|]]; try discriminate.
  inversion Ht0 as [|? ? Hcrow _]; subst.
  unfold cat1, expand. simpl hd. split.
  - rewrite length_map2, repeat_length. apply Nat.min_id.
  - apply (cat_cls_shape T E crow y Hcrow Hy).
Qed.

Lemma add_pos_ok (B T E : nat) (x pos : t3) :
  shape3 B T E x -> shape3 1 T E pos ->
  exists y, add_pos x pos = Ok y /\ shape3 B T E y.
Proof.
  intros Hx [Hlp Hpos].
  destruct pos as [|p0 [|]]; try discriminate.
  inversion Hpos as [|? ? Hp0 _]; subst.
  exists (map (fun xb => add2 xb p0) x). split.
  - unfold add_pos. simpl hd. apply rmapM_map. intros xb Hin.
    destruct (shape3_in xb Hx Hin) as [Hlx Hrows]. destruct Hp0 as [Hlp0 Hprows].
    norm_types. rewrite Hlx, Hlp0, Nat.eqb_refl.
    destruct xb as [|r0 xb]; destruct p0 as [|q0 p0]; simpl in *; try lia;
      [reflexivity|].
    inversion Hrows as [|? ? Hr0 _]; subst. inversion Hprows as [|? ? Hq0 _]; subst.
    unfold shape1 in Hr0, Hq0. rewrite Hr0, Hq0, Nat.eqb_refl. reflexivity.
  - destruct Hx as [Hlx Hall]. rewrite <- Hlx. apply shape3_map. intros xb Hin.
    rewrite Forall_forall in Hall.
    unfold add2, add1.
    apply (shape2_rows_map2 (map2 add) T E E xb p0 (Hall xb Hin) Hp0).
    intros u u'. apply shape1_map2.
Qed.

Lemma embed_distilled_ok (m : t) (d : Distilled) (training : bool) (E H D P K B : nat)
    (img : t4) (x0 : t3) (s : rng) :
  distilled_ok m d E H D P K ->
  pe_forward (patch_embed m) img = Ok x0 -> shape3 B P E x0 ->
  exists x s', embed m training img s = Ok (x, s') /\ shape3 B (S (S P)) E x.
Proof.
  intros [Hdist [Hcls [Hdtok [Hpos _]]]] Hpe Hx0.
  assert (HB : length x0 = B) by (destruct Hx0 as [Hl _]; exact Hl).
  pose proof (cat_token_shape B P E (dist_token d) x0 Hdtok Hx0) as S1.
  pose proof (cat_token_shape B (S P) E (cls_token m) _ Hcls S1) as S2.
  replace (P + 2) with (S (S P)) in Hpos by lia.
  destruct (add_pos_ok B (S (S P)) E _ (pos_embed m) S2 Hpos) as [y [Ey Sy]].
  destruct (dropout3_total (pos_drop m) training y s) as [x [s' [Ed Keep]]].
  exists x, s'. split; [|apply Keep; exact Sy].
  unfold embed. unfold bind at 1. unfold lift at 1. rewrite Hpe, Hdist.
  norm_types. rewrite HB.
  unfold bind at 1. unfold lift at 1. norm_types. rewrite Ey. exact Ed.
Qed.

(** One turn of the loop, for any number of tokens. *)
Lemma loop_body_tokens_ok (m : t) (training : bool) (E H D n B : nat)
    (v0 : t4) (x : t3) (i : nat) (s : rng) :
  Forall (fun b => block_ok b E H D) (blocks m) ->
  (forall i b, nth_error (blocks m) i = Some b ->
               Block.layerth b = Some (Z.of_nat i)) ->
  feedback_ready m E ->
  1 <= i < length (blocks m) ->
  shape3 B (S n) E x -> shape4 B H (S n) D v0 -> 0 < B ->
  exists x' s', loop_body m training v0 x i s = Ok (x', s')
                /\ shape3 B (S n) E x'.
Proof.
  intros Hall Hidx Hfr Hi Hx Hv0 HB.
  destruct (nth_error (blocks m) i) as [b|] eqn:Eb;
    [|apply nth_error_None in Eb; lia].
  assert (Hb : block_ok b E H D).
  { rewrite Forall_forall in Hall. apply Hall. apply (nth_error_In _ _ Eb). }
  pose proof (Hidx i b Eb) as Hl.
  destruct (Block_forward_later b training (Z.of_nat i) B (S n) E H D x v0 s
              Hb Hl ltac:(lia) Hx Hv0 HB ltac:(lia)) as [xb [s1 [Ef Sxb]]].
  destruct (feedback_ok Hfr Sxb) as [c [p [mid [r [_ [_ [_ [_ [_ [Sr Efb]]]]]]]]]].
  exists (rewrite_cls xb r), s1. split.
  - unfold loop_body, get_block.
    unfold bind at 1. unfold lift at 1. rewrite Eb.
    unfold bind at 1. rewrite Ef. unfold lift. rewrite Efb. reflexivity.
  - apply (rewrite_cls_shape Sxb Sr).
Qed.

Lemma loop_tokens_ok (m : t) (training : bool) (E H D n B : nat) (v0 : t4)
    (l : list nat) :
  Forall (fun b => block_ok b E H D) (blocks m) ->
  (forall i b, nth_error (blocks m) i = Some b ->
               Block.layerth b = Some (Z.of_nat i)) ->
  feedback_ready m E ->
  (forall i, In i l -> 1 <= i < length (blocks m)) ->
  shape4 B H (S n) D v0 -> 0 < B ->
  forall x s, shape3 B (S n) E x ->
  exists x' s', for_each (loop_body m training v0) l x s = Ok (x', s')
                /\ shape3 B (S n) E x'.
Proof.
  intros Hall Hidx Hfr Hl Hv0 HB. induction l as [|i l IH]; intros x s Hx; simpl.
  - exists x, s. split; [reflexivity | exact Hx].
  - destruct (loop_body_tokens_ok m training E H D n B v0 x i s Hall Hidx Hfr
                (Hl i (or_introl eq_refl)) Hx Hv0 HB) as [x1 [s1 [E1 S1]]].
    unfold bind. rewrite E1.
    apply IH; [|exact S1]. intros j Hj. apply Hl. right. exact Hj.
Qed.

Lemma select1_ok (a n e : nat) (x : t3) :
  shape3 a (S (S n)) e x ->
  exists c, select 1 x = Ok c /\ shape2 a e c.
Proof.
  intros Hx. exists (map (fun xb => nth 1 xb []) x). split.
  - apply rmapM_map. intros xb Hxb.
    destruct (shape3_in xb Hx Hxb) as [Hlen _].
    destruct xb as [|r0 [|r1 xb]]; try discriminate. reflexivity.
  - destruct Hx as [Hlen Hall]. rewrite <- Hlen. apply shape2_map.
    intros xb Hxb. rewrite Forall_forall in Hall.
    destruct (Hall xb Hxb) as [Hl Hrows].
    destruct xb as [|r0 [|r1 xb]]; try discriminate. simpl.
    inversion Hrows as [|? ? _ Hrest]; subst.
    inversion Hrest; assumption.
Qed.

(** The average of the two predictions, as the eval branch computes it. *)
Definition average (x x_dist : t2) : t2 :=
  map (map (fun e => div e (lit 2))) (add2 x x_dist).

Lemma average_shape (B K : nat) (x xd : t2) :
  shape2 B K x -> shape2 B K xd -> shape2 B K (average x xd).
Proof.
  intros Hx Hxd. unfold average, add2, add1.
  pose proof (shape2_rows_map2 (map2 add) B K K x xd Hx Hxd
                (fun u u' => shape1_map2 add K u u')) as [Hl Hall].
  split; [rewrite length_map; exact Hl|].
  apply Forall_forall. intros row Hrow. apply in_map_iff in Hrow.
  destruct Hrow as [r [<- Hr]]. unfold shape1. rewrite length_map.
  rewrite Forall_forall in Hall. apply (Hall r Hr).
Qed.

Lemma forward_distilled_ok (m : t) (d : Distilled) (training : bool)
    (E H D P K B : nat) (img : t4) (x0 : t3) (s : rng) :
  distilled_ok m d E H D P K -> 11 <= length (blocks m) ->
  pe_forward (patch_embed m) img = Ok x0 -> shape3 B P E x0 -> 0 < B ->
  exists x xd s',
    shape2 B K x /\ shape2 B K xd
    /\ forward m training img s
       = Ok ((if training then LogitsPair x xd else Logits (average x xd)), s').
Proof.
  intros Hm Hd Hpe Hx0 HB.
  destruct (embed_distilled_ok m d training E H D P K B img x0 s Hm Hpe Hx0)
    as [x1 [s1 [Ee S1]]].
  destruct Hm as [Hdist [_ [_ [_ [Hall [Hidx [Hn [Hpl [Hh [Hrh Hhd]]]]]]]]]].
  assert (Hfr : feedback_ready m E).
  { exists E, K. split; [exact Hn|]. split; [exact Hpl|]. split; assumption. }
  destruct (nth_error (blocks m) 0) as [b0|] eqn:Eb;
    [|apply nth_error_None in Eb; lia].
  assert (Hb : block_ok b0 E H D).
  { rewrite Forall_forall in Hall. apply Hall. apply (nth_error_In _ _ Eb). }
  pose proof (Hidx 0 b0 Eb) as Hl.
  destruct (Block_forward_first b0 training B (S (S P)) E H D x1 None s1 Hb Hl S1 HB
              ltac:(lia)) as [Sv [x2 [s2 [Ef S2]]]].
  destruct (loop_tokens_ok m training E H D (S P) B (block_values b0 D x1) (seq 1 10)
              Hall Hidx Hfr)
    with (x := x2) (s := s2) as [x3 [s3 [El S3]]]; try assumption.
  { intros i Hi. apply in_seq in Hi. lia. }
  destruct (layer_norm3_ok Hn S3) as [En Sn].
  destruct (select0_ok Sn) as [Ec Sc].
  destruct (select1_ok B P E _ Sn) as [cd [Ecd Scd]].
  destruct (@apply_head_ok _ _ _ _ _ _ _ Hh Sc) as [y [Ey Sy]].
  destruct (@apply_head_ok _ _ _ _ _ _ _ Hhd Scd) as [yd [Eyd Syd]].
  exists y, yd, s3. split; [exact Sy|]. split; [exact Syd|].
  unfold forward. unfold bind at 1.
  unfold forward_features, get_block.
  unfold bind at 1. rewrite Ee.
  unfold bind at 1. unfold lift at 1. rewrite Eb.
  unfold bind at 1. rewrite Ef.
  unfold bind at 1. rewrite El.
  unfold bind at 1. unfold lift at 1. rewrite En.
  rewrite Hdist.
  unfold bind at 1. unfold lift at 1. rewrite Ec.
  unfold bind at 1. unfold lift at 1. rewrite Ecd.
  cbn [ret].
  unfold bind at 1. unfold lift at 1. rewrite Ey.
  unfold bind at 1. unfold lift at 1. rewrite Eyd.
  destruct training; reflexivity.
Qed.

End DistilledRuns.

Section DistilledInit.
Context {Ty : Carrier} {NUM : Numeric}.

Import VisionTransformer.

(** What the constructor establishes for a model with distillation token:
    no representation layer, three kinds of tokens and two heads. *)
Lemma init_wf_distilled (gen : nat -> scalar) (c : config) (m : t) :
  init gen c = Ok m -> cfg_distilled c = true -> (0 < cfg_num_classes c)%Z ->
  length (blocks m) = Z.to_nat (cfg_depth c)
  /\ cfg_embed_layer c (cfg_embed_dim c) = Ok (patch_embed m)
  /\ exists d,
       distilled_ok m d (Z.to_nat (cfg_embed_dim c)) (Z.to_nat (cfg_num_heads c))
         (Z.to_nat (cfg_embed_dim c / cfg_num_heads c))
         (num_patches (patch_embed m)) (Z.to_nat (cfg_num_classes c)).
Proof.
  intros Hinit Hdist Hk. unfold init in Hinit. rewrite Hdist in Hinit.
  cbv zeta in Hinit.
  destruct (cfg_representation_size c) as [r|];
    cbn [negb] in Hinit; rewrite ?andb_false_r in Hinit.
  all: destruct (cfg_embed_layer c (cfg_embed_dim c)) as [pe|] eqn:Epe; [|discriminate].
  all: cbn [rbind] in Hinit.
  all: destruct (new_param3 1 1 (cfg_embed_dim c) gen) as [cls|] eqn:Ecls; [|discriminate].
  all: cbn [rbind] in Hinit.
  all: destruct (new_param3 1 (Z.of_nat (num_patches pe + 2)) (cfg_embed_dim c) gen)
         as [pos|] eqn:Epos; [|discriminate].
  all: cbn [rbind] in Hinit.
  all: destruct (Dropout_init (cfg_drop_rate c)) as [pd|]; [|discriminate].
  all: cbn [rbind] in Hinit.
  all: destruct (guard (0 <=? cfg_depth c)%Z RuntimeError); [|discriminate].
  all: cbn [rbind] in Hinit.
  all: destruct (rmapM _ (seq 0 (Z.to_nat (cfg_depth c)))) as [bs|] eqn:Ebs; [|discriminate].
  all: cbn [rbind] in Hinit.
  all: destruct (LayerNorm_init (cfg_embed_dim c) (cfg_norm_eps c)) as [ln|] eqn:Eln;
         [|discriminate].
  all: cbn [rbind] in Hinit.
  all: destruct (head_init gen (cfg_embed_dim c) (cfg_num_classes c) (cfg_num_classes c))
         as [h|] eqn:Eh; [|discriminate].
  all: cbn [rbind] in Hinit.
  all: destruct (head_init gen (cfg_num_classes c) (cfg_embed_dim c) (cfg_num_classes c))
         as [rh|] eqn:Erh; [|discriminate].
  all: cbn [rbind] in Hinit.
  all: destruct (guard (existsb _ _) AssertionError); [|discriminate].
  all: cbn [rbind] in Hinit.
  all: injection Hinit as <-.
  all: destruct (init_blocks gen c bs Ebs) as [Hlen [Hall Hidx]].
  all: pose proof (new_param3_wf _ _ _ _ _ Ecls) as Scls.
  all: pose proof (new_param3_wf _ _ _ _ _ Epos) as Spos.
  all: rewrite Nat2Z.id in Spos.
  all: pose proof (LayerNorm_init_wf _ _ _ Eln) as Hln.
  all: pose proof (head_init_wf _ _ _ _ _ Eh Hk) as Hh.
  all: pose proof (head_init_wf _ _ _ _ _ Erh Hk) as Hrh.
  all: cbn [blocks patch_embed].
  all: split; [exact Hlen|]; split; [reflexivity|].
  all: eexists; unfold distilled_ok; cbn.
  all: split; [reflexivity|]; split; [exact Scls|]; split; [exact Scls|].
  all: split; [exact Spos|]; split; [exact Hall|]; split; [exact Hidx|].
  all: split; [exact Hln|]; split; [reflexivity|]; split; [exact Hh|].
  all: split; [exact Hrh | exact Hh].
Qed.

End DistilledInit.

(** X18: a well-sized model with a distillation token and at least eleven
    blocks runs on every non-empty batch whose patch embedding has shape
    (B, P, E): both heads give predictions of shape (B, num_classes); in
    training mode [forward] returns the two of them as a pair, in eval mode
    the single tensor of their average. *)
Theorem distilled_forward_returns_pair_or_average {Ty : Carrier} {NUM : Numeric}
    (m : VisionTransformer.t) (d : VisionTransformer.Distilled) (E H D P K B : nat)
    (img : t4) (x0 : t3) (s : rng) :
  distilled_ok m d E H D P K -> 11 <= length (VisionTransformer.blocks m) ->
  VisionTransformer.pe_forward (VisionTransformer.patch_embed m) img = Ok x0 ->
  shape3 B P E x0 -> 0 < B ->
  (exists x xd s',
     VisionTransformer.forward m true img s
     = Ok (VisionTransformer.LogitsPair x xd, s')
     /\ shape2 B K x /\ shape2 B K xd)
  /\ (exists x xd s',
        VisionTransformer.forward m false img s
        = Ok (VisionTransformer.Logits
                (map (map (fun e => div e (lit 2))) (add2 x xd)), s')
        /\ shape2 B K x /\ shape2 B K xd
        /\ shape2 B K (map (map (fun e => div e (lit 2))) (add2 x xd))).
Proof.
  intros Hm Hd Hpe Hx0 HB. split.
  - destruct (forward_distilled_ok m d true E H D P K B img x0 s Hm Hd Hpe Hx0 HB)
      as [x [xd [s' [Sx [Sxd Ef]]]]].
    exists x, xd, s'. split; [exact Ef|]. split; assumption.
  - destruct (forward_distilled_ok m d false E H D P K B img x0 s Hm Hd Hpe Hx0 HB)
      as [x [xd [s' [Sx [Sxd Ef]]]]].
    exists x, xd, s'. split; [exact Ef|]. split; [exact Sx|]. split; [exact Sxd|].
    apply (average_shape B K x xd Sx Sxd).
Qed.

Section DistilledExamples.
#[local] Existing Instance Q_carrier.
#[local] Existing Instance Q_numeric.

(** The configuration [small_config] with a distillation token. *)
Definition distilled_config (depth : Z) : VisionTransformer.config :=
  {| VisionTransformer.cfg_num_classes := 2;
     VisionTransformer.cfg_embed_dim := 2;
     VisionTransformer.cfg_depth := depth;
     VisionTransformer.cfg_num_heads := 1;
     VisionTransformer.cfg_mlp_ratio := 1;
     VisionTransformer.cfg_qkv_bias := true;
     VisionTransformer.cfg_representation_size := None;
     VisionTransformer.cfg_distilled := true;
     VisionTransformer.cfg_drop_rate := 0;
     VisionTransformer.cfg_attn_drop_rate := 0;
     VisionTransformer.cfg_drop_path_rate := 0;
     VisionTransformer.cfg_embed_layer := toy_embed_layer;
     VisionTransformer.cfg_norm_eps := 1;
     VisionTransformer.cfg_act_layer := gelu;
     VisionTransformer.cfg_weight_init := EmptyString |}.

Lemma distilled_forward_returns_pair_or_average_example :
  exists m,
    VisionTransformer.init sparse_gen (distilled_config 11) = Ok m
    /\ (exists x xd s',
          VisionTransformer.forward m true toy_image 0
          = Ok (VisionTransformer.LogitsPair x xd, s')
          /\ shape2 1 2 x /\ shape2 1 2 xd)
    /\ (exists x xd s',
          VisionTransformer.forward m false toy_image 0
          = Ok (VisionTransformer.Logits
                  (map (map (fun e => div e (lit 2))) (add2 x xd)), s')
          /\ shape2 1 2 x /\ shape2 1 2 xd
          /\ shape2 1 2 (map (map (fun e => div e (lit 2))) (add2 x xd))).
Proof.
  eexists. split; [vm_compute; reflexivity|].
  match goal with
  | |- (exists x xd s', VisionTransformer.forward ?M _ _ _ = _ /\ _) /\ _ =>
      destruct (@init_wf_distilled Q_carrier Q_numeric sparse_gen (distilled_config 11) M
                  ltac:(vm_compute; reflexivity) eq_refl eq_refl) as [_ [_ [d Hd]]];
      apply (@distilled_forward_returns_pair_or_average Q_carrier Q_numeric M d
               2 1 2 1 2 1 toy_image [[[1%Q; 2%Q]]] 0%nat Hd)
  end.
  - vm_compute. repeat constructor.
  - reflexivity.
  - vm_compute. repeat constructor.
  - repeat constructor.
Defined.

End DistilledExamples.

(** ** What reaches the output *)

Section Readout.
Context {Ty : Carrier} {NUM : Numeric}.

Import VisionTransformer.

(** After the class token has been rewritten, the first token of every
    sample is the row that was written, whatever is applied token by token. *)
Lemma hd_rewrite_cls (f : t1 -> t1) (x : t3) (r : t2) :
  length x = length r ->
  map (hd []) (map (map f) (rewrite_cls x r)) = map f r.
Proof.
  unfold rewrite_cls. revert r.
  induction x as [|xb x IH]; intros [|cls r] Hl; simpl in *; try discriminate;
    [reflexivity|].
  rewrite IH by lia. reflexivity.
Qed.

(** One turn of the loop ends with the class token of every sample set to
    [reverse_head] of a provisional prediction of shape (B, K). *)
Lemma loop_body_writes_prediction (m : t) (training : bool) (E H D P F K B : nat)
    (v0 : t4) (x : t3) (i : nat) (s : rng) :
  model_ok m E H D P F K -> 1 <= i < length (blocks m) ->
  shape3 B (S P) E x -> shape4 B H (S P) D v0 -> 0 < B ->
  exists xb mid r s',
    shape3 B (S P) E xb /\ shape2 B K mid /\ shape2 B E r
    /\ apply_head (reverse_head m) mid = Ok r
    /\ loop_body m training v0 x i s = Ok (rewrite_cls xb r, s').
Proof.
  intros Hm Hi Hx Hv0 HB.
  destruct (nth_error (blocks m) i) as [b|] eqn:Eb;
    [|apply nth_error_None in Eb; lia].
  destruct (model_ok_block m E H D P F K i b Hm Eb) as [Hb Hl].
  destruct (Block_forward_later b training (Z.of_nat i) B (S P) E H D x v0 s
              Hb Hl ltac:(lia) Hx Hv0 HB ltac:(lia)) as [xb [s1 [Ef Sxb]]].
  destruct Hm as [_ [_ [_ [_ [_ [Hn [Hp [Hh Hr]]]]]]]].
  destruct (layer_norm3_ok Hn Sxb) as [En Sn].
  destruct (select0_ok Sn) as [Ec Sc].
  destruct (@apply_pre_logits_ok _ _ _ _ _ _ _ Hp Sc) as [p [Ep Sp]].
  destruct (@apply_head_ok _ _ _ _ _ _ _ Hh Sp) as [mid [Em Sm]].
  destruct (@apply_head_ok _ _ _ _ _ _ _ Hr Sm) as [r [Er Sr]].
  exists xb, mid, r, s1.
  split; [exact Sxb|]. split; [exact Sm|]. split; [exact Sr|]. split; [exact Er|].
  unfold loop_body, get_block.
  unfold bind at 1. unfold lift at 1. rewrite Eb.
  unfold bind at 1. rewrite Ef. unfold lift.
  unfold feedback. rewrite En. cbn [rbind]. rewrite Ec. cbn [rbind].
  rewrite Ep. cbn [rbind]. rewrite Em. cbn [rbind]. rewrite Er. cbn [rbind].
  rewrite (set_cls_ok Sxb Sr). reflexivity.
Qed.

Lemma forward_reads_prediction (m : t) (training : bool) (E H D P F K B : nat)
    (img : t4) (x0 : t3) (s : rng) :
  model_ok m E H D P F K -> 11 <= length (blocks m) ->
  pe_forward (patch_embed m) img = Ok x0 -> shape3 B P E x0 -> 0 < B ->
  exists mid r f logits s',
    shape2 B K mid
    /\ apply_head (reverse_head m) mid = Ok r
    /\ apply_pre_logits (pre_logits m) (map (layer_norm_out (norm m)) r) = Ok f
    /\ apply_head (head m) f = Ok logits
    /\ forward m training img s = Ok (Logits logits, s').
Proof.
  intros Hm Hd Hpe Hx0 HB.
  destruct (embed_ok m training E H D P F K B img x0 s Hm Hpe Hx0) as [x1 [s1 [Ee S1]]].
  destruct (nth_error (blocks m) 0) as [b0|] eqn:Eb;
    [|apply nth_error_None in Eb; lia].
  destruct (model_ok_block m E H D P F K 0 b0 Hm Eb) as [Hb Hl].
  destruct (Block_forward_first b0 training B (S P) E H D x1 None s1 Hb Hl S1 HB
              ltac:(lia)) as [Sv [x2 [s2 [Ef S2]]]].
  destruct (loop_ok m training E H D P F K B (block_values b0 D x1) (seq 1 9) Hm)
    with (x := x2) (s := s2) as [x3 [s3 [El S3]]]; try assumption.
  { intros i Hi. apply in_seq in Hi. lia. }
  destruct (loop_body_writes_prediction m training E H D P F K B
              (block_values b0 D x1) x3 10 s3 Hm ltac:(lia) S3 Sv HB)
    as [xb [mid [r [s4 [Sxb [Sm [Sr [Er Eb10]]]]]]]].
  pose proof (rewrite_cls_shape Sxb Sr) as S4.
  pose proof Hm as [Hdist [_ [_ [_ [_ [Hn [Hp [Hh _]]]]]]]].
  destruct (layer_norm3_ok Hn S4) as [En Sn].
  destruct (select0_ok Sn) as [Ec Sc].
  assert (Ehd : map (hd []) (map (map (layer_norm_out (norm m))) (rewrite_cls xb r))
                = map (layer_norm_out (norm m)) r).
  { apply hd_rewrite_cls. destruct Sxb as [Hlx _]. destruct Sr as [Hlr _].
    norm_types. rewrite Hlx, Hlr. reflexivity. }
  rewrite Ehd in Ec, Sc.
  destruct (@apply_pre_logits_ok _ _ _ _ _ _ _ Hp Sc) as [f [Ep Sf]].
  destruct (@apply_head_ok _ _ _ _ _ _ _ Hh Sf) as [y [Ey Sy]].
  exists mid, r, f, y, s4.
  split; [exact Sm|]. split; [exact Er|]. split; [exact Ep|]. split; [exact Ey|].
  unfold forward. unfold bind at 1.
  unfold forward_features, get_block.
  unfold bind at 1. rewrite Ee.
  unfold bind at 1. unfold lift at 1. rewrite Eb.
  unfold bind at 1. rewrite Ef.
  unfold bind at 1.
  change (seq 1 10) with (seq 1 9 ++ [10]).
  rewrite for_each_app, El. cbn [for_each]. unfold bind at 1. rewrite Eb10.
  cbn [ret].
  unfold bind at 1. unfold lift at 1. rewrite En.
  rewrite Hdist.
  unfold bind at 1. unfold lift at 1. rewrite Ec.
  unfold bind at 1. unfold lift at 1. rewrite Ep.
  cbn [ret].
  unfold bind at 1. unfold lift at 1. rewrite Ey. reflexivity.
Qed.

End Readout.

(** X19: on a well-sized model without distillation token and with at least
    eleven blocks, the logits are computed from the last provisional
    prediction alone.  The last turn of the loop overwrites the class token
    with [reverse_head(mid)], [mid] of shape (B, num_classes), and the
    output is [head(pre_logits(norm(reverse_head(mid))))]: no other token of
    the last block reaches it. *)
Theorem logits_are_read_from_last_prediction {Ty : Carrier} {NUM : Numeric}
    (m : VisionTransformer.t) (training : bool) (E H D P F K B : nat)
    (img : t4) (x0 : t3) (s : rng) :
  model_ok m E H D P F K -> 11 <= length (VisionTransformer.blocks m) ->
  VisionTransformer.pe_forward (VisionTransformer.patch_embed m) img = Ok x0 ->
  shape3 B P E x0 -> 0 < B ->
  exists mid r f logits s',
    shape2 B K mid
    /\ VisionTransformer.apply_head (VisionTransformer.reverse_head m) mid = Ok r
    /\ VisionTransformer.apply_pre_logits (VisionTransformer.pre_logits m)
         (map (layer_norm_out (VisionTransformer.norm m)) r) = Ok f
    /\ VisionTransformer.apply_head (VisionTransformer.head m) f = Ok logits
    /\ VisionTransformer.forward m training img s
       = Ok (VisionTransformer.Logits logits, s').
Proof.
  intros Hm Hd Hpe Hx0 HB.
  apply (forward_reads_prediction m training E H D P F K B img x0 s Hm Hd Hpe Hx0 HB).
Qed.

Section ReadoutExamples.
#[local] Existing Instance Q_carrier.
#[local] Existing Instance Q_numeric.

Lemma logits_are_read_from_last_prediction_example :
  exists m,
    VisionTransformer.init sparse_gen (small_config 11) = Ok m
    /\ exists mid r f logits s',
         shape2 1 2 mid
         /\ VisionTransformer.apply_head (VisionTransformer.reverse_head m) mid = Ok r
         /\ VisionTransformer.apply_pre_logits (VisionTransformer.pre_logits m)
              (map (layer_norm_out (VisionTransformer.norm m)) r) = Ok f
         /\ VisionTransformer.apply_head (VisionTransformer.head m) f = Ok logits
         /\ VisionTransformer.forward m false toy_image 0
            = Ok (VisionTransformer.Logits logits, s').
Proof.
  eexists. split; [vm_compute; reflexivity|].
  apply (@logits_are_read_from_last_prediction Q_carrier Q_numeric _ false
           2 1 2 1 2 2 1 toy_image [[[1%Q; 2%Q]]] 0%nat).
  - apply (init_wf sparse_gen (small_config 11)); [vm_compute|..]; reflexivity.
  - vm_compute. repeat constructor.
  - reflexivity.
  - vm_compute. repeat constructor.
  - repeat constructor.
Defined.

End ReadoutExamples.
